(** * ARCSI abstract sensor: a shallow embedding of [arcsilib/arcsisensor.py]

    The sensor-independent algorithms of [ARCSIAbstractSensor] are embedded
    as Rocq functions: the reprojected bounding box, the 6S coefficient
    look-up tables, the dark-target retry loop, the dark-object subtraction
    band expression, the single-value AOT search, the point interpolator and
    the default output base name.

    Conventions.
    - Where the code computes with floats and the outcome of the rounding
      shows (the snapping of the bounding box, the step counts and the
      values of the look-up tables, the candidates of the AOT search), a
      Python [float] is an IEEE 754 binary64 number: Rocq's primitive
      [float], rounding to nearest with ties to even, with its infinities
      and its NaN.  [float] arguments are meant; an [int] argument below
      2^53 in magnitude behaves as the float of the same value.
    - Elsewhere (pixel values, histogram counts, coordinates read from a
      header) a number is an exact rational [Q], every finite binary64
      number being one.  Where the source can see a NaN (the cubic
      interpolator) the value type is [fval], a rational or NaN.
    - A Python [int] is a [Z]; [range(n)] is empty for [n <= 0].
    - A Python [dict] with string keys is a [gmap string _].
    - A raised exception is the [Raise] branch of [result].
    - The raster engine (rsgislib, GDAL, RIOS, scipy) and the 6S solver are
      collaborators outside the repository: they are the methods of the
      type classes [GeoEngine], [Sensor6S], [RasterEngine], [RasterWriter]
      and [GridInterpolator]. *)

From Stdlib Require Import Floats.
From Stdlib Require Import Ascii String QArith Qround Qabs DecimalString Lqa.
From Stdlib Require Import DecimalNat.
From stdpp Require Import gmap strings list fin_maps list_numbers.

#[local] Set Warnings "-inexact-float".
#[local] Open Scope Q_scope.

(* ===================================================================== *)
(** * Python numbers                                                      *)
(* ===================================================================== *)

Module Py.

  (** [x < y] on floats, as a boolean. *)
Definition Qlt_bool (x y : Q) : bool := negb (Qle_bool y x).

  (** [math.floor] and [math.ceil] return an [int]. *)
Definition floor (x : Q) : Z := Qfloor x.
Definition ceil (x : Q) : Z := Qceiling x.

  (** [math.fabs]. *)
Definition fabs (x : Q) : Q := Qabs x.

  (** The implicit [int] to [float] conversion of mixed arithmetic. *)
Definition float (z : Z) : Q := inject_Z z.

  (** [range(n)]: [0, 1, ..., n-1], empty when [n <= 0]. *)
Definition range (n : Z) : list Z := seqZ 0 n.

  (** [str(n)] for an [int]. *)
Definition str_nat (n : nat) : string := NilZero.string_of_uint (Nat.to_uint n).
Definition str_int (z : Z) : string :=
    (if (z <? 0)%Z then "-" else "") +:+ str_nat (Z.abs_nat z).

  (** Left zero padding, as [%m], [%d] and [%Y] of [strftime] do. *)
Fixpoint zfill (width : nat) (s : string) : string :=
    match width with
    | O => s
    | S w => if (String.length s <? S w)%nat then zfill w ("0" +:+ s) else s
    end.

  (** [round(x)] without [ndigits]: the nearest [int], ties to even. *)
Definition round_int (x : Q) : Z :=
    let f := Qfloor x in
    let r := x - inject_Z f in
    if Qlt_bool r (1 # 2) then f
    else if Qlt_bool (1 # 2) r then (f + 1)%Z
    else if Z.even f then f else (f + 1)%Z.

  (** [round(x, 2)]: the nearest multiple of 0.01, still a [float]. *)
Definition round2 (x : Q) : Q := Qmake (round_int (x * 100)) 100.

  (** [str(x)] for a [float] that is a multiple of 0.01 and below 1e16 in
      magnitude: sign, integer digits, a point, then one or two fractional
      digits (a trailing zero is dropped, [10.0] keeps one). *)
Definition str_float2 (x : Q) : string :=
    let h := Z.abs (Qfloor (x * 100)) in
    let ip := (h / 100)%Z in
    let fp := (h mod 100)%Z in
    (if Qlt_bool x 0 then "-" else "") +:+ str_int ip +:+ "." +:+
    (if (fp mod 10 =? 0)%Z then str_int (fp / 10)%Z
     else zfill 2 (str_int fp)).

  (** [s.replace(c, '')] for a one-character pattern. *)
Fixpoint remove_char (c : ascii) (s : string) : string :=
    match s with
    | EmptyString => EmptyString
    | String a rest =>
        if Ascii.eqb a c then remove_char c rest
        else String a (remove_char c rest)
    end.

End Py.

(* ===================================================================== *)
(** * Exceptions                                                          *)
(* ===================================================================== *)

(** The exceptions the embedded code raises itself ([ValueErrorNaN] is the
    [ValueError] of converting NaN to an integer), and [EngineError] for
    whatever a collaborator raises (an unreadable file, a projection GDAL
    cannot import, a point it cannot transform). *)
Inductive PyExc : Type :=
  | ARCSIException (msg : string)
  | ZeroDivisionError
  | OverflowError
  | ValueErrorNaN
  | EngineError (msg : string).

Inductive result (A : Type) : Type :=
  | Ok (a : A)
  | Raise (e : PyExc).
Arguments Ok {A} a.
Arguments Raise {A} e.

#[global] Instance result_ret : MRet result := fun _ a => Ok a.
#[global] Instance result_bind : MBind result := fun _ _ f m =>
  match m with
  | Ok a => f a
  | Raise e => Raise e
  end.

Definition raises {A} (r : result A) : Prop :=
  match r with Raise _ => True | Ok _ => False end.

(* ===================================================================== *)
(** * Binary64 floats                                                     *)
(* ===================================================================== *)

Module F64.

  (** [float(n)] for an [int] [n]: the nearest binary64 number, ties to
      even.  It is exact up to 2^53 in magnitude and for every result of
      [math.floor] and [math.ceil]. *)
Definition of_Z (z : Z) : float :=
    SF2Prim (binary_normalize prec emax z 0 false).

  (** [math.floor(x)] and [math.ceil(x)]: an [int]; [OverflowError] for an
      infinity and [ValueError] for NaN. *)
Definition floorZ (x : float) : result Z :=
    match Prim2SF x with
    | S754_zero _ => Ok 0%Z
    | S754_infinity _ => Raise OverflowError
    | S754_nan => Raise ValueErrorNaN
    | S754_finite s m e =>
        let v := cond_Zopp s (Z.pos m) in
        Ok (if (0 <=? e)%Z then v * 2 ^ e else v / 2 ^ (- e))%Z
    end.

Definition ceilZ (x : float) : result Z :=
    match Prim2SF x with
    | S754_zero _ => Ok 0%Z
    | S754_infinity _ => Raise OverflowError
    | S754_nan => Raise ValueErrorNaN
    | S754_finite s m e =>
        let v := cond_Zopp s (Z.pos m) in
        Ok (if (0 <=? e)%Z then v * 2 ^ e else - ((- v) / 2 ^ (- e)))%Z
    end.

  (** [x / y]: Python raises when the divisor is a zero, of either sign. *)
Definition truediv (x y : float) : result float :=
    if PrimFloat.eqb y 0 then Raise ZeroDivisionError
    else Ok (PrimFloat.div x y).

  (** A number: neither an infinity nor NaN. *)
Definition is_finite (x : float) : bool :=
    match Prim2SF x with
    | S754_zero _ | S754_finite _ _ _ => true
    | S754_infinity _ | S754_nan => false
    end.

  (** The rational a finite float stands for. *)
Definition toQ (x : float) : Q :=
    match Prim2SF x with
    | S754_finite s m e =>
        let v := cond_Zopp s (Z.pos m) in
        if (0 <=? e)%Z then inject_Z (v * 2 ^ e)
        else Qmake v (Z.to_pos (2 ^ (- e)))
    | _ => 0
    end.

End F64.

(* ===================================================================== *)
(** * Sensor state                                                        *)
(* ===================================================================== *)

Record datetime : Type := {
  year : Z; month : Z; day : Z; hour : Z; minute : Z; second : Z
}.

(** [strftime("%Y%m%d")]. *)
Definition strftime_Ymd (d : datetime) : string :=
  Py.zfill 4 (Py.str_int (year d)) +:+ Py.zfill 2 (Py.str_int (month d))
  +:+ Py.zfill 2 (Py.str_int (day d)).

(** The fields that [__init__] creates and header extraction fills in. *)
Record SensorState : Type := {
  sensor : string;
  acquisitionTime : datetime;
  latTL : Q; lonTL : Q; latTR : Q; lonTR : Q;
  latBL : Q; lonBL : Q; latBR : Q; lonBR : Q;
  latCentre : Q; lonCentre : Q;
  xTL : Q; yTL : Q; xTR : Q; yTR : Q;
  xBL : Q; yBL : Q; xBR : Q; yBR : Q;
  xCentre : Q; yCentre : Q;
  inWKT : string;
  debugMode : bool
}.

(* ===================================================================== *)
(** * Reprojected bounding box                                            *)
(* ===================================================================== *)

(** A spatial reference is set up from a WKT text or from a Proj4 text. *)
Inductive TargetProj : Type :=
  | ImportFromWkt (wktStr : string)
  | ImportFromProj4 (proj4Str : string).

(** [ARCSIUtils.readTextFile], the set-up of an [osr.SpatialReference]
    ([ImportFromWkt], [ImportFromProj4]) and the OGR point transformation
    ([CreateGeometryFromWkt] of ['POINT(x y)'], [AssignSpatialReference] of
    the source, [TransformTo] the target, then [GetX] and [GetY]), each
    with the exception it may raise. *)
Class GeoEngine : Type := {
  readTextFile : string -> result string;
  importProj : TargetProj -> result unit;
  transformTo : string -> TargetProj -> Q * Q -> result (float * float)
}.

Section ReProjBBOX.
Context `{GeoEngine}.

Definition getReProjBBOX (self : SensorState) (wktFile proj4File : string)
      (useWKT2Reproject : bool) (xPxlRes yPxlRes : float) (snap2Grid : bool)
      : result (gmap string float) :=
    let projImgBBOX : gmap string float := ∅ in
    let projImgBBOX := <["MinX" := 0%float]> projImgBBOX in
    let projImgBBOX := <["MaxX" := 0%float]> projImgBBOX in
    let projImgBBOX := <["MinY" := 0%float]> projImgBBOX in
    let projImgBBOX := <["MaxY" := 0%float]> projImgBBOX in
    let yPxlResAbs := PrimFloat.abs yPxlRes in
    let srcProj := inWKT self in
    _ ← importProj (ImportFromWkt srcProj);
    tarProj ←
      (if useWKT2Reproject
       then wktStr ← readTextFile wktFile; mret (ImportFromWkt wktStr)
       else proj4Str ← readTextFile proj4File;
            mret (ImportFromProj4 proj4Str));
    _ ← importProj tarProj;
    point ← transformTo srcProj tarProj (xTL self, yTL self);
    qx ← F64.truediv (fst point) xPxlRes;
    nx ← F64.floorZ qx;
    let minXPt := PrimFloat.mul (F64.of_Z nx) xPxlRes in
    qy ← F64.truediv (snd point) yPxlResAbs;
    ny ← F64.ceilZ qy;
    let maxYPt := PrimFloat.mul (F64.of_Z ny) yPxlResAbs in
    let projImgBBOX := <["MinX" := minXPt]> projImgBBOX in
    let projImgBBOX := <["MaxY" := maxYPt]> projImgBBOX in
    point ← transformTo srcProj tarProj (xBR self, yBR self);
    qx ← F64.truediv (fst point) xPxlRes;
    nx ← F64.ceilZ qx;
    let maxXPt := PrimFloat.mul (F64.of_Z nx) xPxlRes in
    qy ← F64.truediv (snd point) yPxlResAbs;
    ny ← F64.floorZ qy;
    let minYPt := PrimFloat.mul (F64.of_Z ny) yPxlResAbs in
    let projImgBBOX := <["MaxX" := maxXPt]> projImgBBOX in
    let projImgBBOX := <["MinY" := minYPt]> projImgBBOX in
    mret projImgBBOX.

End ReProjBBOX.

(* ===================================================================== *)
(** * 6S coefficient look-up tables                                       *)
(* ===================================================================== *)

(** The abstract methods a sensor variant supplies for the radiative
    transfer model: [calc6SCoefficients] yields the per-band coefficients
    and [run6SToOptimiseAODValue] the distance between the predicted and
    the observed radiance. *)
Class Sensor6S (Aero Atmos GrdRefl CoeffSet : Type) : Type := {
  calc6SCoefficients :
    Aero -> Atmos -> GrdRefl -> float -> float -> bool -> CoeffSet;
  run6SToOptimiseAODValue :
    float -> float -> float -> Aero -> Atmos -> GrdRefl -> float -> float
}.

(** The named tuples [ElevLUTFeat] and [AOTLUTFeat].  Both call their second
    field [Coeffs] in the source; the second one is [AOTCoeffs] here. *)
Record ElevLUTFeat (C : Type) : Type := { Elev : float; Coeffs : C }.
Arguments Elev {C} _.
Arguments Coeffs {C} _.
Record AOTLUTFeat (C : Type) : Type := { AOT : float; AOTCoeffs : C }.
Arguments AOT {C} _.
Arguments AOTCoeffs {C} _.

Section LUT.
Context {Aero Atmos GrdRefl CoeffSet : Type}.
Context `{!Sensor6S Aero Atmos GrdRefl CoeffSet}.

  (** One invocation of the solver, with its arguments. *)
Record SolverCall : Type := {
    callAeroProfile : Aero;
    callAtmosProfile : Atmos;
    callGrdRefl : GrdRefl;
    callSurfaceAltitude : float;
    callAotVal : float;
    callUseBRDF : bool
  }.

  (** Computations that invoke the solver thread the log of the calls made
      so far. *)
Definition Solver (A : Type) : Type := list SolverCall -> A * list SolverCall.

#[global] Instance solver_ret : MRet Solver := fun _ a log => (a, log).
#[global] Instance solver_bind : MBind Solver := fun _ _ f m log =>
    let '(a, log') := m log in f a log'.

  (** [self.calc6SCoefficients(...)], recorded in the log. *)
Definition call6S (aeroProfile : Aero) (atmosProfile : Atmos)
      (grdRefl : GrdRefl) (surfaceAltitude aotVal : float) (useBRDF : bool)
      : Solver CoeffSet :=
    fun log =>
      (calc6SCoefficients aeroProfile atmosProfile grdRefl surfaceAltitude
         aotVal useBRDF,
       log ++ [{| callAeroProfile := aeroProfile;
                  callAtmosProfile := atmosProfile;
                  callGrdRefl := grdRefl;
                  callSurfaceAltitude := surfaceAltitude;
                  callAotVal := aotVal;
                  callUseBRDF := useBRDF |}]).

  (** [for i in idx: s = body(s, i)] in the solver monad. *)
Fixpoint forM {S I : Type} (body : S -> I -> Solver S) (s : S)
      (idx : list I) : Solver S :=
    match idx with
    | [] => mret s
    | i :: rest => s' ← body s i; forM body s' rest
    end.

  (** One pass of [for i in range(numElevSteps)] on the pair
      [(lut, elevVal)]. *)
Definition elevLUTStep (aeroProfile : Aero) (atmosProfile : Atmos)
      (grdRefl : GrdRefl) (aotVal : float) (useBRDF : bool)
      (st : list (ElevLUTFeat CoeffSet) * float) (i : Z)
      : Solver (list (ElevLUTFeat CoeffSet) * float) :=
    let '(lut, elevVal) := st in
    c ← call6S aeroProfile atmosProfile grdRefl
          (PrimFloat.div elevVal 1000) aotVal useBRDF;
    mret (lut ++ [{| Elev := elevVal; Coeffs := c |}],
          PrimFloat.add elevVal 100).

  (** [math.ceil] raises before the first solver call when the range is
      not a number. *)
Definition buildElevation6SCoeffLUT (aeroProfile : Aero)
      (atmosProfile : Atmos) (grdRefl : GrdRefl) (aotVal : float)
      (useBRDF : bool) (surfaceAltitudeMin surfaceAltitudeMax : float)
      : Solver (result (list (ElevLUTFeat CoeffSet))) :=
    let lut : list (ElevLUTFeat CoeffSet) := [] in
    let elevRange :=
      PrimFloat.div (PrimFloat.sub surfaceAltitudeMax surfaceAltitudeMin)
        100 in
    match F64.ceilZ elevRange with
    | Raise e => mret (Raise e)
    | Ok ceilElevRange =>
        let numElevSteps := (ceilElevRange + 1)%Z in
        let elevVal := surfaceAltitudeMin in
        st ← forM (elevLUTStep aeroProfile atmosProfile grdRefl aotVal
                     useBRDF)
                  (lut, elevVal) (Py.range numElevSteps);
        mret (Ok (fst st))
    end.

  (** One pass of [for j in range(numAOTSteps)] on the pair
      [(aotCoeffLUT, aotVal)]. *)
Definition aotLUTStep (aeroProfile : Aero) (atmosProfile : Atmos)
      (grdRefl : GrdRefl) (useBRDF : bool) (elevVal : float)
      (st : list (AOTLUTFeat CoeffSet) * float) (j : Z)
      : Solver (list (AOTLUTFeat CoeffSet) * float) :=
    let '(aotCoeffLUT, aotVal) := st in
    c ← call6S aeroProfile atmosProfile grdRefl
          (PrimFloat.div elevVal 1000) aotVal useBRDF;
    mret (aotCoeffLUT ++ [{| AOT := aotVal; AOTCoeffs := c |}],
          PrimFloat.add aotVal 0.05).

  (** One pass of the outer loop of [buildElevationAOT6SCoeffLUT]. *)
Definition elevAOTLUTStep (aeroProfile : Aero) (atmosProfile : Atmos)
      (grdRefl : GrdRefl) (useBRDF : bool) (aotMin : float)
      (numAOTSteps : Z)
      (st : list (ElevLUTFeat (list (AOTLUTFeat CoeffSet))) * float) (i : Z)
      : Solver (list (ElevLUTFeat (list (AOTLUTFeat CoeffSet))) * float) :=
    let '(lut, elevVal) := st in
    let aotVal := aotMin in
    let aotCoeffLUT : list (AOTLUTFeat CoeffSet) := [] in
    inner ← forM (aotLUTStep aeroProfile atmosProfile grdRefl useBRDF elevVal)
                 (aotCoeffLUT, aotVal) (Py.range numAOTSteps);
    mret (lut ++ [{| Elev := elevVal; Coeffs := fst inner |}],
          PrimFloat.add elevVal 100).

Definition buildElevationAOT6SCoeffLUT (aeroProfile : Aero)
      (atmosProfile : Atmos) (grdRefl : GrdRefl) (useBRDF : bool)
      (surfaceAltitudeMin surfaceAltitudeMax aotMin aotMax : float)
      : Solver (result (list (ElevLUTFeat (list (AOTLUTFeat CoeffSet))))) :=
    let lut : list (ElevLUTFeat (list (AOTLUTFeat CoeffSet))) := [] in
    let elevRange :=
      PrimFloat.div (PrimFloat.sub surfaceAltitudeMax surfaceAltitudeMin)
        100 in
    match F64.ceilZ elevRange with
    | Raise e => mret (Raise e)
    | Ok ceilElevRange =>
        let numElevSteps := (ceilElevRange + 1)%Z in
        let elevVal := surfaceAltitudeMin in
        let aotRange := PrimFloat.div (PrimFloat.sub aotMax aotMin) 0.05 in
        match F64.ceilZ aotRange with
        | Raise e => mret (Raise e)
        | Ok ceilAotRange =>
            let numAOTSteps := (ceilAotRange + 1 + 1)%Z in
            st ← forM (elevAOTLUTStep aeroProfile atmosProfile grdRefl
                         useBRDF aotMin numAOTSteps)
                      (lut, elevVal) (Py.range numElevSteps);
            mret (Ok (fst st))
        end
    end.

End LUT.
Arguments SolverCall : clear implicits.
Arguments Solver : clear implicits.

(* ===================================================================== *)
(** * Dark-target extraction: the percentile retry loop                   *)
(* ===================================================================== *)

(** The raster engine as [calcDarkTargetOffsetsForBand] uses it.
    [getHistogram] is [rsgislib.imagecalc.getHistogram(...)[0]], the bin
    counts of a band.  [darkObjectsHistogram] is the [Histogram] column read
    from the attribute table of [tmpDarkObjsImg] after the band has been
    thresholded with [(b1!=0)&&(b1<=pxlThreshold)], clumped, cleaned of the
    clumps below [minObjSize] and relabelled: one row per dark object and
    one for the background. *)
Class RasterEngine (Image : Type) : Type := {
  getHistogram : Image -> Z -> Q -> list Q;
  darkObjectsHistogram : Image -> Z -> Q -> Z -> list Q
}.

Section DarkTargets.
Context {Image : Type} `{!RasterEngine Image}.

  (** The walk over the histogram bins, left by [break] at the first bin
      where the running count reaches [numPxlThreshold]. *)
Fixpoint scanHistogram (bins : list Q) (numPxlThreshold histBinWidth : Q)
      (pxlThreshold pxlCount : Q) : Q :=
    match bins with
    | [] => pxlThreshold
    | bin :: rest =>
        let pxlCount := pxlCount + bin in
        if Py.Qlt_bool pxlCount numPxlThreshold
        then scanHistogram rest numPxlThreshold histBinWidth
               (pxlThreshold + histBinWidth) pxlCount
        else pxlThreshold
    end.

  (** The [while findTargets] loop of [calcDarkTargetOffsetsForBand].  The
      source loop has no bound of its own: [fuel] counts the iterations the
      model may take, and [None] means they did not suffice.  On exit the
      loop has fixed the threshold and the percentile it was found with. *)
Fixpoint findTargetsLoop (fuel : nat) (inputTOAImage : Image) (band : Z)
      (histBinWidth : Q) (minObjSize : Z) (bandHist : list Q) (sumPxls : Q)
      (darkPxlPercentile : Q) : option (Q * Q) :=
    match fuel with
    | O => None
    | S fuel' =>
        let numPxlThreshold := sumPxls * darkPxlPercentile in
        let pxlThreshold :=
          scanHistogram bandHist numPxlThreshold histBinWidth 0 0 in
        let Histogram :=
          darkObjectsHistogram inputTOAImage band pxlThreshold minObjSize in
        if (10 <? length Histogram)%nat
        then Some (pxlThreshold, darkPxlPercentile)
        else findTargetsLoop fuel' inputTOAImage band histBinWidth minObjSize
               bandHist sumPxls (darkPxlPercentile * 2)
    end.

  (** [calcDarkTargetOffsetsForBand] up to the end of its loop. *)
Definition calcDarkTargetOffsetsForBand (fuel : nat) (inputTOAImage : Image)
      (band : Z) (histBinWidth : Q) (minObjSize : Z) (darkPxlPercentile : Q)
      : option (Q * Q) :=
    let bandHist := getHistogram inputTOAImage band histBinWidth in
    let sumPxls := foldr Qplus 0 bandHist in
    findTargetsLoop fuel inputTOAImage band histBinWidth minObjSize bandHist
      sumPxls darkPxlPercentile.

  (** The loop terminates when some number of iterations suffices. *)
Definition darkTargetLoopTerminates (inputTOAImage : Image) (band : Z)
      (histBinWidth : Q) (minObjSize : Z) (darkPxlPercentile : Q) : Prop :=
    exists fuel, is_Some (calcDarkTargetOffsetsForBand fuel inputTOAImage band
                            histBinWidth minObjSize darkPxlPercentile).

  (** The percentile tried in retry [k], and the number of attribute-table
      rows that retry finds. *)
Definition retryPercentile (k : nat) (darkPxlPercentile : Q) : Q :=
    Nat.iter k (fun p => p * 2) darkPxlPercentile.

Definition retryRows (inputTOAImage : Image) (band : Z) (histBinWidth : Q)
      (minObjSize : Z) (darkPxlPercentile : Q) (k : nat) : nat :=
    let bandHist := getHistogram inputTOAImage band histBinWidth in
    let sumPxls := foldr Qplus 0 bandHist in
    length (darkObjectsHistogram inputTOAImage band
              (scanHistogram bandHist
                 (sumPxls * retryPercentile k darkPxlPercentile)
                 histBinWidth 0 0)
              minObjSize).

End DarkTargets.

(* ===================================================================== *)
(** * Dark-object subtraction: the band expressions                       *)
(* ===================================================================== *)

(** The expressions handed to [rsgislib.imagecalc.bandMath].  A comparison
    is 1 or 0, a condition holds when it is not 0, and [c ? a : b] binds
    weaker than the comparisons and the arithmetic. *)
Inductive BandExpr : Type :=
  | ENum (q : Q)
  | EBand (name : string)
  | EAdd (a b : BandExpr)
  | ESub (a b : BandExpr)
  | EEq (a b : BandExpr)
  | ELe (a b : BandExpr)
  | ELt (a b : BandExpr)
  | ECond (c a b : BandExpr).

Definition ofBool (b : bool) : Q := if b then 1 else 0.

Fixpoint evalBandExpr (pxl : gmap string Q) (e : BandExpr) : option Q :=
  match e with
  | ENum q => Some q
  | EBand name => pxl !! name
  | EAdd a b => x ← evalBandExpr pxl a; y ← evalBandExpr pxl b; Some (x + y)
  | ESub a b => x ← evalBandExpr pxl a; y ← evalBandExpr pxl b; Some (x - y)
  | EEq a b =>
      x ← evalBandExpr pxl a; y ← evalBandExpr pxl b;
      Some (ofBool (Qeq_bool x y))
  | ELe a b =>
      x ← evalBandExpr pxl a; y ← evalBandExpr pxl b;
      Some (ofBool (Qle_bool x y))
  | ELt a b =>
      x ← evalBandExpr pxl a; y ← evalBandExpr pxl b;
      Some (ofBool (Py.Qlt_bool x y))
  | ECond c a b =>
      x ← evalBandExpr pxl c;
      if Qeq_bool x 0 then evalBandExpr pxl b else evalBandExpr pxl a
  end.

(** The data types of rsgislib that the embedded calls pass. *)
Inductive DataType : Type :=
  | TYPE_8UINT
  | TYPE_16UINT
  | TYPE_32FLOAT.

(** What the writer of the raster engine stores for a value of the
    expression in an image of a data type (GDAL rounds and clips to the
    range of an integer type). *)
Class RasterWriter : Type := {
  storePixel : DataType -> Q -> Q
}.

(** [bandMath] evaluates the expression at every pixel, the pixel binding
    the names of the band definitions, and stores each value in the output
    image of the given data type. *)
Definition bandMath `{RasterWriter} (expression : BandExpr)
    (dataType : DataType) (pxls : list (gmap string Q)) : option (list Q) :=
  mapM (fun pxl => storePixel dataType <$> evalBandExpr pxl expression) pxls.

(** ['(TOA==0)?0:((TOA-Off)+' + str(dosOutRefl) + ')<=0?1.0:(TOA-Off)+'
     + str(dosOutRefl)], the expression of [performDOSOnSingleBand] and of
    [performLocalDOSOnSingleBand]. *)
Definition dosExpression (dosOutRefl : Q) : BandExpr :=
  ECond (EEq (EBand "TOA") (ENum 0)) (ENum 0)
    (ECond (ELe (EAdd (ESub (EBand "TOA") (EBand "Off")) (ENum dosOutRefl))
              (ENum 0))
       (ENum 1)
       (EAdd (ESub (EBand "TOA") (EBand "Off")) (ENum dosOutRefl))).

(** The subtraction step shared by [performDOSOnSingleBand] and
    [performLocalDOSOnSingleBand]: band [Off] is the interpolated offset
    image and band [TOA] the input band, pixel by pixel. *)
Definition dosPixels (offsetImage toaBand : list Q) : list (gmap string Q) :=
  zip_with (fun off toa => <["TOA" := toa]> (<["Off" := off]> ∅))
    offsetImage toaBand.

Definition performDOSOnSingleBand `{RasterWriter}
    (toaBand offsetImage : list Q) (dosOutRefl : Q) : option (list Q) :=
  bandMath (dosExpression dosOutRefl) TYPE_16UINT
    (dosPixels offsetImage toaBand).

Definition performLocalDOSOnSingleBand `{RasterWriter}
    (toaBand offsetImage : list Q) (dosOutRefl : Q) : option (list Q) :=
  bandMath (dosExpression dosOutRefl) TYPE_16UINT
    (dosPixels offsetImage toaBand).

(** ["(b1 == 0.0)?0.0:((b1-" + str(off) + ") + " + str(dosOutRefl)
     + ") < 0?1.0: (b1-" + str(off) + ") + " + str(dosOutRefl)], the
    expression of [convertImageBandToReflectanceSimpleDarkSubtract], where
    [off] is the first percentile of the band. *)
Definition simpleDosExpression (off dosOutRefl : Q) : BandExpr :=
  ECond (EEq (EBand "b1") (ENum 0)) (ENum 0)
    (ECond (ELt (EAdd (ESub (EBand "b1") (ENum off)) (ENum dosOutRefl))
              (ENum 0))
       (ENum 1)
       (EAdd (ESub (EBand "b1") (ENum off)) (ENum dosOutRefl))).

Definition convertImageBandToReflectanceSimpleDarkSubtract `{RasterWriter}
    (toaBand : list Q) (bandPercentile : Q) (dosOutRefl : Q)
    : option (list Q) * Q :=
  (bandMath (simpleDosExpression bandPercentile dosOutRefl) TYPE_16UINT
     ((fun toa => <["b1" := toa]> ∅) <$> toaBand),
   bandPercentile).

(* ===================================================================== *)
(** * Single-value AOT estimation                                         *)
(* ===================================================================== *)

(** What the first step of [estimateSingleAOTFromDOSBandImpl] reads from the
    attribute table of the largest dark object: its mean TOA reflectance,
    mean radiance and mean elevation. *)
Record DarkROI : Type := {
  reflTOA : float; radVal : float; elevVal : float
}.

Definition aotRangeMessage : string :=
  "min and max AOT range are too close together, they need to be at least 0.05 apart.".

Section AOT.
Context {Aero Atmos GrdRefl CoeffSet : Type}.
Context `{!Sensor6S Aero Atmos GrdRefl CoeffSet}.

  (** [numAOTValTests = int(math.ceil((aotValMax - aotValMin)/0.05))+1]. *)
Definition numAOTValTests (aotValMin aotValMax : float) : result Z :=
    c ← F64.ceilZ
          (PrimFloat.div (PrimFloat.sub aotValMax aotValMin) 0.05);
    mret (c + 1)%Z.

  (** The surface reflectance of the dark object. *)
Definition darkObjectRefl (roi : DarkROI) (bandOff dosOutRefl : float)
      : float :=
    let reflDOS := PrimFloat.sub (reflTOA roi) bandOff in
    let reflDOS := if PrimFloat.ltb reflDOS dosOutRefl then dosOutRefl
                   else reflDOS in
    PrimFloat.div reflDOS 1000.

  (** One pass of the [for j in range(numAOTValTests)] loop, on the pair
      [(minAOT, minDist)]. *)
Definition aotSearchStep (objective : float -> float) (aotValMin : float)
      (st : float * float) (j : Z) : float * float :=
    let '(minAOT, minDist) := st in
    let cAOT :=
      PrimFloat.add aotValMin (PrimFloat.mul 0.05 (F64.of_Z j)) in
    let cDist := objective cAOT in
    if (j =? 0)%Z then (cAOT, cDist)
    else if PrimFloat.ltb cDist minDist then (cAOT, cDist)
    else (minAOT, minDist).

  (** The second step of [estimateSingleAOTFromDOSBandImpl]; [roi] and
      [bandOff] are the outcome of its first step, which only drives the
      raster engine. *)
Definition estimateSingleAOTFromDOSBandImpl (roi : DarkROI) (bandOff : float)
      (aeroProfile : Aero) (atmosProfile : Atmos) (grdRefl : GrdRefl)
      (aotValMin aotValMax dosOutRefl : float) : result float :=
    let reflDOS := darkObjectRefl roi bandOff dosOutRefl in
    numAOTValTests ← numAOTValTests aotValMin aotValMax;
    if negb (1 <=? numAOTValTests)%Z
    then Raise (ARCSIException aotRangeMessage)
    else
      let objective cAOT :=
        run6SToOptimiseAODValue cAOT (radVal roi) reflDOS aeroProfile
          atmosProfile grdRefl (PrimFloat.div (elevVal roi) 1000) in
      let '(minAOT, minDist) :=
        foldl (aotSearchStep objective aotValMin) (0%float, 0%float)
          (Py.range numAOTValTests) in
      Ok minAOT.

End AOT.

(* ===================================================================== *)
(** * Point interpolation                                                 *)
(* ===================================================================== *)

(** An interpolated value: a number, or NaN where the method is undefined. *)
Inductive fval : Type :=
  | Num (q : Q)
  | NaN.

Definition isnan (v : fval) : bool :=
  match v with NaN => true | Num _ => false end.

(** [v < 0]; a comparison with NaN is false. *)
Definition ltZero (v : fval) : bool :=
  match v with Num q => Py.Qlt_bool q 0 | NaN => false end.

Inductive Method : Type := nearest | cubic.

(** [scipy.interpolate.griddata((xVals, yVals), zVals, xi, method)] at one
    query point. *)
Class GridInterpolator : Type := {
  griddata : list Q -> list Q -> list Q -> Method -> Q * Q -> fval
}.

(** [numpy.where(cond, a, b)] on arrays of one shape. *)
Definition np_where {A : Type} (cond : list bool) (a b : list A) : list A :=
  zip_with (fun (c : bool) (ab : A * A) => if c then fst ab else snd ab)
    cond (zip a b).

Section Interpolation.
Context `{GridInterpolator}.

  (** The body of the block loop: [pxlCoords] holds the flattened pixel
      centre coordinates of one block. *)
Definition interpolateBlock (xVals yVals zVals : list Q)
      (notNegOut : bool) (notNegMinVal : fval) (pxlCoords : list (Q * Q))
      : list fval :=
    let interZnn := griddata xVals yVals zVals nearest <$> pxlCoords in
    let interZcub := griddata xVals yVals zVals cubic <$> pxlCoords in
    let interZ := np_where (isnan <$> interZcub) interZnn interZcub in
    let interZ :=
      if notNegOut
      then np_where (ltZero <$> interZ)
             (replicate (length interZ) notNegMinVal) interZ
      else interZ in
    interZ.

  (** [interpolateImageFromPointData]: the template image is read block by
      block and every block is written in turn. *)
Definition interpolateImageFromPointData
      (templateInImage : list (list (Q * Q))) (xVals yVals zVals : list Q)
      (notNegOut : bool) (notNegMinVal : fval) : list (list fval) :=
    interpolateBlock xVals yVals zVals notNegOut notNegMinVal
      <$> templateInImage.

End Interpolation.

(* ===================================================================== *)
(** * Default output base name                                            *)
(* ===================================================================== *)

(** [round(self.latCentre,)] has no [ndigits] and yields an [int];
    [round(self.lonCentre,2)] keeps two decimals. *)
Definition defaultGenBaseOutFileName (self : SensorState) : string :=
  let date := strftime_Ymd (acquisitionTime self) in
  let pos :=
    "lat" +:+
    Py.remove_char "-" (Py.remove_char "." (Py.str_int (Py.round_int (latCentre self))))
    +:+ "lon" +:+
    Py.remove_char "-" (Py.remove_char "." (Py.str_float2 (Py.round2 (lonCentre self)))) in
  let outname := sensor self +:+ "_" +:+ date +:+ "_" +:+ pos in
  outname.

Definition generateOutputBaseName (self : SensorState) : string :=
  defaultGenBaseOutFileName self.

(** The position token the same function would produce with both
    coordinates rounded to two decimals. *)
Definition posTokenTwoDecimals (lat lon : Q) : string :=
  "lat" +:+
  Py.remove_char "-" (Py.remove_char "." (Py.str_float2 (Py.round2 lat)))
  +:+ "lon" +:+
  Py.remove_char "-" (Py.remove_char "." (Py.str_float2 (Py.round2 lon))).

(** [s] occurs in [t]. *)
Fixpoint contains (s t : string) : bool :=
  String.prefix s t ||
  match t with
  | EmptyString => false
  | String _ rest => contains s rest
  end.

(* ===================================================================== *)
(** * Reference grids and values used in the statements                   *)
(* ===================================================================== *)

(** [n] values from [start], each the binary64 sum of the one before and
    [step]. *)
Fixpoint stepGrid (step : float) (n : nat) (start : float) : list float :=
  match n with
  | O => []
  | S n' => start :: stepGrid step n' (PrimFloat.add start step)
  end.

(** The value of the DOS expression at a pixel. *)
Definition dosValue (dosOutRefl TOA Off : Q) : Q :=
  if Qeq_bool TOA 0 then 0
  else if Qle_bool ((TOA - Off) + dosOutRefl) 0 then 1
  else (TOA - Off) + dosOutRefl.

(** The blend of the two interpolations at a pixel, then the clamp. *)
Definition blend (nn cub : fval) : fval := if isnan cub then nn else cub.

Definition clamp (notNegOut : bool) (notNegMinVal v : fval) : fval :=
  if notNegOut && ltZero v then notNegMinVal else v.

(* ===================================================================== *)
(** * Example sensors, engines and scenes                                 *)
(* ===================================================================== *)

Module Examples.

  (** A target projection that is the source shifted by a false easting;
      every file is read and every projection imported. *)
Definition shiftGeo : GeoEngine := {|
    readTextFile := fun path => Ok path;
    importProj := fun _ => Ok tt;
    transformTo := fun _ _ p =>
      Ok (F64.of_Z (Qfloor (fst p) + 500000), F64.of_Z (Qfloor (snd p)))
  |}.

  (** A transformation that leaves a point where it is, for points on the
      grid of tenths. *)
Definition tenthsGeo : GeoEngine := {|
    readTextFile := fun path => Ok path;
    importProj := fun _ => Ok tt;
    transformTo := fun _ _ p =>
      Ok (PrimFloat.div (F64.of_Z (Qfloor (fst p * 10))) 10,
          PrimFloat.div (F64.of_Z (Qfloor (snd p * 10))) 10)
  |}.

  (** A writer that rounds half up and clips to the range of the unsigned
      integer types. *)
Definition roundingWriter : RasterWriter := {|
    storePixel := fun dataType v =>
      match dataType with
      | TYPE_8UINT => inject_Z (Z.max 0 (Z.min 255 (Qfloor (v + 0.5))))
      | TYPE_16UINT => inject_Z (Z.max 0 (Z.min 65535 (Qfloor (v + 0.5))))
      | TYPE_32FLOAT => v
      end
  |}.

Definition scene : SensorState := {|
    sensor := "LS1MSS";
    acquisitionTime :=
      {| year := 2001; month := 6; day := 15;
         hour := 10; minute := 30; second := 0 |};
    latTL := 10; lonTL := -70; latTR := 10; lonTR := -69;
    latBL := 9; lonBL := -70; latBR := 9; lonBR := -69;
    latCentre := 9.5; lonCentre := -69.5;
    xTL := 100010; yTL := 200020; xTR := 130010; yTR := 200020;
    xBL := 100010; yBL := 170020; xBR := 130010; yBR := 170020;
    xCentre := 115010; yCentre := 185020;
    inWKT := "PROJCS";
    debugMode := false
  |}.

  (** A solver whose coefficients record the altitude and the AOT it was
      called with, and whose radiance distance is smallest, and equal, at
      the third and at the fifth candidate from 0.05. *)
Definition demoSensor : Sensor6S unit unit unit (float * float) := {|
    calc6SCoefficients := fun _ _ _ alt aot _ => (alt, aot);
    run6SToOptimiseAODValue := fun cAOT _ _ _ _ _ _ =>
      if PrimFloat.ltb cAOT 0.125 then 2%float
      else if PrimFloat.ltb cAOT 0.175 then 1%float
      else if PrimFloat.ltb cAOT 0.225 then 2%float
      else if PrimFloat.ltb cAOT 0.275 then 1%float
      else 3%float
  |}.

Definition demoROI : DarkROI :=
    {| reflTOA := 60; radVal := 35; elevVal := 250 |}.

  (** A band of 64 pixels without a single valid one: every bin of its
      histogram over 1 to 10000 is empty, no threshold marks a pixel, and
      the attribute table holds the background row alone. *)
Definition nodataEngine : RasterEngine unit := {|
    getHistogram := fun _ _ histBinWidth =>
      replicate (Z.to_nat (Qceiling (9999 / histBinWidth))) 0;
    darkObjectsHistogram := fun _ _ _ _ => [64]
  |}.

  (** A band of 200 pixels spread evenly over 20 bins in which a threshold
      [t] leaves [floor t] dark objects. *)
Definition evenEngine : RasterEngine unit := {|
    getHistogram := fun _ _ _ => replicate 20 10;
    darkObjectsHistogram := fun _ _ t _ =>
      replicate (S (Z.to_nat (Qfloor t))) 1
  |}.

  (** An interpolator with samples on the unit square: the cubic method is
      undefined outside the square. *)
Definition unitSquareInterp : GridInterpolator := {|
    griddata := fun xVals yVals zVals method p =>
      match method with
      | nearest => Num (hd 0 zVals)
      | cubic =>
          if Qle_bool 0 (fst p) && Qle_bool (fst p) 1
             && Qle_bool 0 (snd p) && Qle_bool (snd p) 1
          then Num (fst p + snd p - 1)
          else NaN
      end
  |}.

  (** A band of 30 valid pixels in three bins that never hold more than
      four dark objects. *)
Definition sparseEngine : RasterEngine unit := {|
    getHistogram := fun _ _ _ => [10; 15; 5];
    darkObjectsHistogram := fun _ _ t _ =>
      replicate (S (Z.to_nat (Z.min 4 (Qfloor t)))) 1
  |}.

  (** The scene of the same sensor and date mirrored into the other
      hemispheres. *)
Definition sceneSouthEast : SensorState := {|
    sensor := "LS1MSS";
    acquisitionTime :=
      {| year := 2001; month := 6; day := 15;
         hour := 10; minute := 30; second := 0 |};
    latTL := -9; lonTL := 69; latTR := -9; lonTR := 70;
    latBL := -10; lonBL := 69; latBR := -10; lonBR := 70;
    latCentre := -9.5; lonCentre := 69.5;
    xTL := 100010; yTL := 200020; xTR := 130010; yTR := 200020;
    xBL := 100010; yBL := 170020; xBR := 130010; yBR := 170020;
    xCentre := 115010; yCentre := 185020;
    inWKT := "PROJCS";
    debugMode := false
  |}.

  (** A scene of a few cells on the grid of tenths. *)
Definition tenthsScene : SensorState := {|
    sensor := "LS1MSS";
    acquisitionTime :=
      {| year := 2001; month := 6; day := 15;
         hour := 10; minute := 30; second := 0 |};
    latTL := 10; lonTL := -70; latTR := 10; lonTR := -69;
    latBL := 9; lonBL := -70; latBR := 9; lonBR := -69;
    latCentre := 9.5; lonCentre := -69.5;
    xTL := 1.7; yTL := 3.1; xTR := 2.5; yTR := 3.1;
    xBL := 1.7; yBL := 0.9; xBR := 2.5; yBR := 0.9;
    xCentre := 2.1; yCentre := 2;
    inWKT := "PROJCS";
    debugMode := false
  |}.

End Examples.

(* ===================================================================== *)
(** * Further reference values                                            *)
(* ===================================================================== *)

(** The threshold that retry [k] of [calcDarkTargetOffsetsForBand] finds. *)
Definition retryThreshold {Image : Type} `{!RasterEngine Image}
    (inputTOAImage : Image) (band : Z) (histBinWidth : Q)
    (darkPxlPercentile : Q) (k : nat) : Q :=
  let bandHist := getHistogram inputTOAImage band histBinWidth in
  let sumPxls := foldr Qplus 0 bandHist in
  scanHistogram bandHist (sumPxls * retryPercentile k darkPxlPercentile)
    histBinWidth 0 0.

(** The count of the pixels in a list of histogram bins. *)
Definition binTotal (bins : list Q) : Q := foldr Qplus 0 bins.

(** A decimal digit, and a string of decimal digits only. *)
Definition isDigit (c : ascii) : bool :=
  (48 <=? nat_of_ascii c)%nat && (nat_of_ascii c <=? 57)%nat.

Fixpoint allDigits (s : string) : bool :=
  match s with
  | EmptyString => true
  | String c rest => isDigit c && allDigits rest
  end.

(** The digits after the point of a float with at most two decimals. *)
Definition fractionDigits (fp : Z) : string :=
  if (fp mod 10 =? 0)%Z then Py.str_int (fp / 10)%Z
  else Py.zfill 2 (Py.str_int fp).

(* ===================================================================== *)
(** * The EPSG code table                                                 *)
(* ===================================================================== *)

(** The assignments [self.epsgCodes[...] = ...] of [__init__], in their
    order. *)
Definition epsgCodeEntries : list (string * Z) :=
  [("WGS84UTM1N", 32601%Z); ("WGS84UTM2N", 32602%Z); ("WGS84UTM3N", 32603%Z);
   ("WGS84UTM4N", 32604%Z); ("WGS84UTM5N", 32605%Z); ("WGS84UTM6N", 32606%Z);
   ("WGS84UTM7N", 32607%Z); ("WGS84UTM8N", 32608%Z); ("WGS84UTM9N", 32609%Z);
   ("WGS84UTM10N", 32610%Z); ("WGS84UTM11N", 32611%Z); ("WGS84UTM12N", 32612%Z);
   ("WGS84UTM13N", 32613%Z); ("WGS84UTM14N", 32614%Z); ("WGS84UTM15N", 32615%Z);
   ("WGS84UTM16N", 32616%Z); ("WGS84UTM17N", 32617%Z); ("WGS84UTM18N", 32618%Z);
   ("WGS84UTM19N", 32619%Z); ("WGS84UTM20N", 32620%Z); ("WGS84UTM21N", 32621%Z);
   ("WGS84UTM22N", 32622%Z); ("WGS84UTM23N", 32623%Z); ("WGS84UTM24N", 32624%Z);
   ("WGS84UTM25N", 32625%Z); ("WGS84UTM26N", 32626%Z); ("WGS84UTM27N", 32627%Z);
   ("WGS84UTM28N", 32628%Z); ("WGS84UTM29N", 32629%Z); ("WGS84UTM30N", 32630%Z);
   ("WGS84UTM31N", 32631%Z); ("WGS84UTM32N", 32632%Z); ("WGS84UTM33N", 32633%Z);
   ("WGS84UTM34N", 32634%Z); ("WGS84UTM35N", 32635%Z); ("WGS84UTM36N", 32636%Z);
   ("WGS84UTM37N", 32637%Z); ("WGS84UTM38N", 32638%Z); ("WGS84UTM39N", 32639%Z);
   ("WGS84UTM40N", 32640%Z); ("WGS84UTM41N", 32641%Z); ("WGS84UTM42N", 32642%Z);
   ("WGS84UTM43N", 32643%Z); ("WGS84UTM44N", 32644%Z); ("WGS84UTM45N", 32645%Z);
   ("WGS84UTM46N", 32646%Z); ("WGS84UTM47N", 32647%Z); ("WGS84UTM48N", 32648%Z);
   ("WGS84UTM49N", 32649%Z); ("WGS84UTM50N", 32650%Z); ("WGS84UTM51N", 32651%Z);
   ("WGS84UTM52N", 32652%Z); ("WGS84UTM53N", 32653%Z); ("WGS84UTM54N", 32654%Z);
   ("WGS84UTM55N", 32655%Z); ("WGS84UTM56N", 32656%Z); ("WGS84UTM57N", 32657%Z);
   ("WGS84UTM58N", 32658%Z); ("WGS84UTM59N", 32659%Z); ("WGS84UTM60N", 32660%Z);
   ("WGS84UTM1S", 32701%Z); ("WGS84UTM2S", 32702%Z); ("WGS84UTM3S", 32703%Z);
   ("WGS84UTM4S", 32704%Z); ("WGS84UTM5S", 32705%Z); ("WGS84UTM6S", 32706%Z);
   ("WGS84UTM7S", 32707%Z); ("WGS84UTM8S", 32708%Z); ("WGS84UTM9S", 32709%Z);
   ("WGS84UTM10S", 32710%Z); ("WGS84UTM11S", 32711%Z); ("WGS84UTM12S", 32712%Z);
   ("WGS84UTM13S", 32713%Z); ("WGS84UTM14S", 32714%Z); ("WGS84UTM15S", 32715%Z);
   ("WGS84UTM16S", 32716%Z); ("WGS84UTM17S", 32717%Z); ("WGS84UTM18S", 32718%Z);
   ("WGS84UTM19S", 32719%Z); ("WGS84UTM20S", 32720%Z); ("WGS84UTM21S", 32721%Z);
   ("WGS84UTM22S", 32722%Z); ("WGS84UTM23S", 32723%Z); ("WGS84UTM24S", 32724%Z);
   ("WGS84UTM25S", 32725%Z); ("WGS84UTM26S", 32726%Z); ("WGS84UTM27S", 32727%Z);
   ("WGS84UTM28S", 32728%Z); ("WGS84UTM29S", 32729%Z); ("WGS84UTM30S", 32730%Z);
   ("WGS84UTM31S", 32731%Z); ("WGS84UTM32S", 32732%Z); ("WGS84UTM33S", 32733%Z);
   ("WGS84UTM34S", 32734%Z); ("WGS84UTM35S", 32735%Z); ("WGS84UTM36S", 32736%Z);
   ("WGS84UTM37S", 32737%Z); ("WGS84UTM38S", 32738%Z); ("WGS84UTM39S", 32739%Z);
   ("WGS84UTM40S", 32740%Z); ("WGS84UTM41S", 32741%Z); ("WGS84UTM42S", 32742%Z);
   ("WGS84UTM43S", 32743%Z); ("WGS84UTM44S", 32744%Z); ("WGS84UTM45S", 32745%Z);
   ("WGS84UTM46S", 32746%Z); ("WGS84UTM47S", 32747%Z); ("WGS84UTM48S", 32748%Z);
   ("WGS84UTM49S", 32749%Z); ("WGS84UTM50S", 32750%Z); ("WGS84UTM51S", 32751%Z);
   ("WGS84UTM52S", 32752%Z); ("WGS84UTM53S", 32753%Z); ("WGS84UTM54S", 32754%Z);
   ("WGS84UTM55S", 32755%Z); ("WGS84UTM56S", 32756%Z); ("WGS84UTM57S", 32757%Z);
   ("WGS84UTM58S", 32758%Z); ("WGS84UTM59S", 32759%Z); ("WGS84UTM60S", 32760%Z)].

Definition epsgCodes : gmap string Z :=
  foldl (fun codes kv => <[kv.1 := kv.2]> codes) ∅ epsgCodeEntries.

(** The value of the last assignment to [k] in a list of assignments. *)
Definition lastAssigned (l : list (string * Z)) (k : string) : option Z :=
  foldl (fun found kv => if String.eqb kv.1 k then Some kv.2 else found)
    None l.

(** The label of UTM zone [z] on the northern or southern hemisphere. *)
Definition utmLabel (z : Z) (hemisphere : string) : string :=
  "WGS84UTM" +:+ Py.str_int z +:+ hemisphere.

(* ===================================================================== *)
(** * Text, paths and dates of the Python library                         *)
(* ===================================================================== *)

Module Text.

(** The ASCII characters [str.isspace] accepts. *)
Definition isSpace (c : ascii) : bool :=
  let n := nat_of_ascii c in
  ((9 <=? n)%nat && (n <=? 13)%nat) || ((28 <=? n)%nat && (n <=? 32)%nat).

(** [s.lstrip()], [s.rstrip()] and [s.strip()]. *)
Fixpoint lstrip (s : string) : string :=
  match s with
  | EmptyString => EmptyString
  | String c rest => if isSpace c then lstrip rest else s
  end.

Fixpoint rstrip (s : string) : string :=
  match s with
  | EmptyString => EmptyString
  | String c rest =>
      match rstrip rest with
      | EmptyString => if isSpace c then EmptyString else String c EmptyString
      | kept => String c kept
      end
  end.

Definition strip (s : string) : string := rstrip (lstrip s).

(** [s.split(sep)] for a one-character separator: the pieces between the
    separators, at least one. *)
Fixpoint split (sep : ascii) (s : string) : list string :=
  match s with
  | EmptyString => [EmptyString]
  | String c rest =>
      if Ascii.eqb c sep then EmptyString :: split sep rest
      else match split sep rest with
           | piece :: pieces => String c piece :: pieces
           | [] => [String c EmptyString]
           end
  end.

(** The double quote character. *)
Definition dquote : ascii := ascii_of_nat 34.

(** [c in s]. *)
Fixpoint hasChar (c : ascii) (s : string) : bool :=
  match s with
  | EmptyString => false
  | String a rest => Ascii.eqb a c || hasChar c rest
  end.

(** [s.rstrip(c)] for one character. *)
Fixpoint rstripChar (c : ascii) (s : string) : string :=
  match s with
  | EmptyString => EmptyString
  | String a rest =>
      match rstripChar c rest with
      | EmptyString => if Ascii.eqb a c then EmptyString
                       else String a EmptyString
      | kept => String a kept
      end
  end.

(** [p[:p.rfind('/') + 1]]: the text up to the last slash, with it. *)
Fixpoint uptoLastSlash (p : string) : string :=
  match p with
  | EmptyString => EmptyString
  | String c rest =>
      match uptoLastSlash rest with
      | EmptyString => if Ascii.eqb c "/" then String c EmptyString
                       else EmptyString
      | head => String c head
      end
  end.

Fixpoint allSlashes (s : string) : bool :=
  match s with
  | EmptyString => true
  | String c rest => Ascii.eqb c "/" && allSlashes rest
  end.

(** [os.path.dirname(p)] of [posixpath]. *)
Definition dirname (p : string) : string :=
  let head := uptoLastSlash p in
  if negb (String.eqb head "") && negb (allSlashes head)
  then rstripChar "/" head else head.

Fixpoint endsWithSlash (s : string) : bool :=
  match s with
  | EmptyString => false
  | String c EmptyString => Ascii.eqb c "/"
  | String _ rest => endsWithSlash rest
  end.

(** [os.path.join(a, b)] of [posixpath]. *)
Definition join (a b : string) : string :=
  if String.prefix "/" b then b
  else if String.eqb a "" || endsWithSlash a then a +:+ b
  else a +:+ "/" +:+ b.

End Text.

(** The exceptions of the header extraction, and a computation that may
    raise one. *)
Inductive PyError : Type :=
  | KeyError (key : string)
  | ValueError
  | IndexError
  | ZeroDivision
  | AttributeError
  | SensorError (msg : string).

Inductive attempt (A : Type) : Type :=
  | Got (a : A)
  | Raised (e : PyError).
Arguments Got {A} a.
Arguments Raised {A} e.

#[global] Instance attempt_ret : MRet attempt := fun _ a => Got a.
#[global] Instance attempt_bind : MBind attempt := fun _ _ f m =>
  match m with
  | Got a => f a
  | Raised e => Raised e
  end.
#[global] Instance attempt_fmap : FMap attempt := fun _ _ f m =>
  match m with
  | Got a => Got (f a)
  | Raised e => Raised e
  end.

(** [d[key]] on a dictionary, and [l[i]] on a list. *)
Definition getitem {V : Type} (d : gmap string V) (key : string) : attempt V :=
  match d !! key with
  | Some v => Got v
  | None => Raised (KeyError key)
  end.

Definition index {A : Type} (l : list A) (i : nat) : attempt A :=
  match l !! i with
  | Some a => Got a
  | None => Raised IndexError
  end.

(** [datetime.datetime(year, month, day, hour, minute, second)] checks its
    fields and raises [ValueError] on a date that does not exist. *)
Definition isLeap (y : Z) : bool :=
  (y mod 4 =? 0)%Z && (negb (y mod 100 =? 0)%Z || (y mod 400 =? 0)%Z).

Definition daysInMonth (y m : Z) : Z :=
  if (m =? 2)%Z then (if isLeap y then 29 else 28)%Z
  else if (m =? 4)%Z || (m =? 6)%Z || (m =? 9)%Z || (m =? 11)%Z then 30%Z
  else 31%Z.

Definition between (lo x hi : Z) : bool := (lo <=? x)%Z && (x <=? hi)%Z.

Definition mkDatetime (y mo d h mi s : Z) : attempt datetime :=
  if between 1 y 9999 && between 1 mo 12 && between 1 d (daysInMonth y mo)
     && between 0 h 23 && between 0 mi 59 && between 0 s 59
  then Got {| year := y; month := mo; day := d;
              hour := h; minute := mi; second := s |}
  else Raised ValueError.

(** The conversions [int(s)] and [float(s)] of a text; [None] stands for
    the [ValueError] of a text that is no number. *)
Class PyConv : Type := {
  py_int : string -> option Z;
  py_float : string -> option Q
}.

Definition toInt `{PyConv} (s : string) : attempt Z :=
  match py_int s with Some z => Got z | None => Raised ValueError end.

Definition toFloat `{PyConv} (s : string) : attempt Q :=
  match py_float s with Some q => Got q | None => Raised ValueError end.

(** A point given in the projection of an EPSG code, transformed into the
    projection of another ([ImportFromEPSG], [AssignSpatialReference],
    [TransformTo]). *)
Class OsrEngine : Type := {
  transformEPSG : Z -> Z -> Q * Q -> Q * Q
}.

(* ===================================================================== *)
(** * The Landsat 1 MSS sensor                                            *)
(* ===================================================================== *)

Module Landsat1MSS.

(** The fields of [ARCSILandsat1MSSSensor]: those of the abstract sensor
    and its own. *)
Record Sensor : Type := {
  base : SensorState;
  solarZenith : Q; solarAzimuth : Q; senorZenith : Q; senorAzimuth : Q;
  row : Z; path : Z;
  band4File : string; band5File : string;
  band6File : string; band7File : string;
  b4CalMin : Q; b4CalMax : Q; b5CalMin : Q; b5CalMax : Q;
  b6CalMin : Q; b6CalMax : Q; b7CalMin : Q; b7CalMax : Q;
  b4MinRad : Q; b4MaxRad : Q; b5MinRad : Q; b5MaxRad : Q;
  b6MinRad : Q; b6MaxRad : Q; b7MinRad : Q; b7MaxRad : Q
}.

(** One pass of [for line in hFile] on the dictionary [headerParams]. *)
Definition parseHeaderLine (headerParams : gmap string string)
    (line : string) : gmap string string :=
  let line := Text.strip line in
  if negb (String.eqb line "") then
    let lineVals := Text.split "=" line in
    if (length lineVals =? 2)%nat then
      match lineVals with
      | [key; val] =>
          if negb (String.eqb (Text.strip key) "GROUP")
             || negb (String.eqb (Text.strip key) "END_GROUP")
          then <[Text.strip key :=
                   Py.remove_char Text.dquote (Text.strip val)]> headerParams
          else headerParams
      | _ => headerParams
      end
    else headerParams
  else headerParams.

(** The dictionary read from the lines of the header file. *)
Definition readHeader (lines : list string) : gmap string string :=
  foldl parseHeaderLine ∅ lines.

Section Extraction.
Context `{PyConv} `{OsrEngine}.

Definition getInt (headerParams : gmap string string) (key : string)
    : attempt Z :=
  v ← getitem headerParams key; toInt v.

Definition getFloat (headerParams : gmap string string) (key : string)
    : attempt Q :=
  v ← getitem headerParams key; toFloat v.

(** [a == x and b == y]: the second key is read only when the first test
    holds. *)
Definition recognised (headerParams : gmap string string) : attempt bool :=
  spacecraft ← getitem headerParams "SPACECRAFT_ID";
  if String.eqb spacecraft "LANDSAT_1" then
    sensorId ← getitem headerParams "SENSOR_ID";
    mret (String.eqb sensorId "MSS")
  else mret false.

Definition projectedUTM (headerParams : gmap string string) : attempt bool :=
  mapProjection ← getitem headerParams "MAP_PROJECTION";
  if String.eqb mapProjection "UTM" then
    datum ← getitem headerParams "DATUM";
    if String.eqb datum "WGS84" then
      ellipsoid ← getitem headerParams "ELLIPSOID";
      mret (String.eqb ellipsoid "WGS84")
    else mret false
  else mret false.

(** The date and time of the acquisition. *)
Definition acquisitionOf (headerParams : gmap string string)
    : attempt datetime :=
  dateAcquired ← getitem headerParams "DATE_ACQUIRED";
  let acData := Text.split "-" dateAcquired in
  centerTime ← getitem headerParams "SCENE_CENTER_TIME";
  let acTime := Text.split ":" centerTime in
  seconds ← index acTime 2;
  let secsTime := Text.split "." seconds in
  y ← index acData 0 ≫= toInt;
  mo ← index acData 1 ≫= toInt;
  d ← index acData 2 ≫= toInt;
  h ← index acTime 0 ≫= toInt;
  mi ← index acTime 1 ≫= toInt;
  s ← index secsTime 0 ≫= toInt;
  mkDatetime y mo d h mi s.

(** [extractHeaderParameters] once the header lines are in the dictionary.
    The result is the sensor after the last assignment; an exception leaves
    no result. *)
Definition extractHeaderValues (self : Sensor) (inputHeader : string)
    (headerParams : gmap string string) : attempt Sensor :=
  known ← recognised headerParams;
  if negb known
  then Raised (SensorError
                 "Do no recognise the spacecraft and sensor or combination.")
  else
  row ← getInt headerParams "WRS_ROW";
  path ← getInt headerParams "WRS_PATH";
  acquisitionTime ← acquisitionOf headerParams;
  sunElevation ← getFloat headerParams "SUN_ELEVATION";
  let solarZenith := 90 - sunElevation in
  solarAzimuth ← getFloat headerParams "SUN_AZIMUTH";
  latTL ← getFloat headerParams "CORNER_UL_LAT_PRODUCT";
  lonTL ← getFloat headerParams "CORNER_UL_LON_PRODUCT";
  latTR ← getFloat headerParams "CORNER_UR_LAT_PRODUCT";
  lonTR ← getFloat headerParams "CORNER_UR_LON_PRODUCT";
  latBL ← getFloat headerParams "CORNER_LL_LAT_PRODUCT";
  lonBL ← getFloat headerParams "CORNER_LL_LON_PRODUCT";
  latBR ← getFloat headerParams "CORNER_LR_LAT_PRODUCT";
  lonBR ← getFloat headerParams "CORNER_LR_LON_PRODUCT";
  xTL ← getFloat headerParams "CORNER_UL_PROJECTION_X_PRODUCT";
  yTL ← getFloat headerParams "CORNER_UL_PROJECTION_Y_PRODUCT";
  xTR ← getFloat headerParams "CORNER_UR_PROJECTION_X_PRODUCT";
  yTR ← getFloat headerParams "CORNER_UR_PROJECTION_Y_PRODUCT";
  xBL ← getFloat headerParams "CORNER_LL_PROJECTION_X_PRODUCT";
  yBL ← getFloat headerParams "CORNER_LL_PROJECTION_Y_PRODUCT";
  xBR ← getFloat headerParams "CORNER_LR_PROJECTION_X_PRODUCT";
  yBR ← getFloat headerParams "CORNER_LR_PROJECTION_Y_PRODUCT";
  utm ← projectedUTM headerParams;
  if negb utm
  then Raised (SensorError
                 "Expecting Landsat to be projected in UTM with datum=WGS84 and ellipsoid=WGS84.")
  else
  utmZone ← getInt headerParams "UTM_ZONE";
  let utmCode := "WGS84UTM" +:+ Py.str_int utmZone +:+ "N" in
  inProj ← getitem epsgCodes utmCode;
  if negb (Qeq_bool xTL xBL && Qeq_bool yTL yTR
           && Qeq_bool xTR xBR && Qeq_bool yBL yBR)
  then Raised (SensorError "Image is not square in projected coordinates.")
  else
  let xCentre := xTL + ((xTR - xTL) / 2) in
  let yCentre := yBR + ((yTL - yBR) / 2) in
  let point := transformEPSG inProj 4326 (xCentre, yCentre) in
  let latCentre := snd point in
  let lonCentre := fst point in
  let filesDIR := Text.dirname inputHeader in
  band4File ← Text.join filesDIR <$> getitem headerParams "FILE_NAME_BAND_4";
  band5File ← Text.join filesDIR <$> getitem headerParams "FILE_NAME_BAND_5";
  band6File ← Text.join filesDIR <$> getitem headerParams "FILE_NAME_BAND_6";
  band7File ← Text.join filesDIR <$> getitem headerParams "FILE_NAME_BAND_7";
  b4CalMin ← getFloat headerParams "QUANTIZE_CAL_MIN_BAND_4";
  b4CalMax ← getFloat headerParams "QUANTIZE_CAL_MAX_BAND_4";
  b5CalMin ← getFloat headerParams "QUANTIZE_CAL_MIN_BAND_5";
  b5CalMax ← getFloat headerParams "QUANTIZE_CAL_MAX_BAND_5";
  b6CalMin ← getFloat headerParams "QUANTIZE_CAL_MIN_BAND_6";
  b6CalMax ← getFloat headerParams "QUANTIZE_CAL_MAX_BAND_6";
  b7CalMin ← getFloat headerParams "QUANTIZE_CAL_MIN_BAND_7";
  b7CalMax ← getFloat headerParams "QUANTIZE_CAL_MAX_BAND_7";
  b4MinRad ← getFloat headerParams "RADIANCE_MINIMUM_BAND_4";
  b4MaxRad ← getFloat headerParams "RADIANCE_MAXIMUM_BAND_4";
  b5MinRad ← getFloat headerParams "RADIANCE_MINIMUM_BAND_5";
  b5MaxRad ← getFloat headerParams "RADIANCE_MAXIMUM_BAND_5";
  b6MinRad ← getFloat headerParams "RADIANCE_MINIMUM_BAND_6";
  b6MaxRad ← getFloat headerParams "RADIANCE_MAXIMUM_BAND_6";
  b7MinRad ← getFloat headerParams "RADIANCE_MINIMUM_BAND_7";
  b7MaxRad ← getFloat headerParams "RADIANCE_MAXIMUM_BAND_7";
  mret {|
    base := {|
      sensor := "LS1MSS";
      acquisitionTime := acquisitionTime;
      latTL := latTL; lonTL := lonTL; latTR := latTR; lonTR := lonTR;
      latBL := latBL; lonBL := lonBL; latBR := latBR; lonBR := lonBR;
      latCentre := latCentre; lonCentre := lonCentre;
      xTL := xTL; yTL := yTL; xTR := xTR; yTR := yTR;
      xBL := xBL; yBL := yBL; xBR := xBR; yBR := yBR;
      xCentre := xCentre; yCentre := yCentre;
      inWKT := inWKT (base self);
      debugMode := debugMode (base self)
    |};
    solarZenith := solarZenith; solarAzimuth := solarAzimuth;
    senorZenith := senorZenith self; senorAzimuth := senorAzimuth self;
    row := row; path := path;
    band4File := band4File; band5File := band5File;
    band6File := band6File; band7File := band7File;
    b4CalMin := b4CalMin; b4CalMax := b4CalMax;
    b5CalMin := b5CalMin; b5CalMax := b5CalMax;
    b6CalMin := b6CalMin; b6CalMax := b6CalMax;
    b7CalMin := b7CalMin; b7CalMax := b7CalMax;
    b4MinRad := b4MinRad; b4MaxRad := b4MaxRad;
    b5MinRad := b5MinRad; b5MaxRad := b5MaxRad;
    b6MinRad := b6MinRad; b6MaxRad := b6MaxRad;
    b7MinRad := b7MinRad; b7MaxRad := b7MaxRad
  |}.

(** [extractHeaderParameters]; [lines] is the text of [inputHeader]. *)
Definition extractHeaderParameters (self : Sensor) (inputHeader : string)
    (lines : list string) : attempt Sensor :=
  extractHeaderValues self inputHeader (readHeader lines).

End Extraction.

(** [generateOutputBaseName] of the Landsat sensor. *)
Definition generateOutputBaseName (self : Sensor) : string :=
  let rowpath := "r" +:+ Py.str_int (row self) +:+ "p"
                 +:+ Py.str_int (path self) in
  let outname := defaultGenBaseOutFileName (base self) in
  let outname := outname +:+ "_" +:+ rowpath in
  outname.

End Landsat1MSS.

(** The number of occurrences of a character in a text. *)
Fixpoint countChar (c : ascii) (s : string) : nat :=
  match s with
  | EmptyString => 0
  | String a rest => (if Ascii.eqb a c then 1 else 0) + countChar c rest
  end.

(** A sensor as [__init__] leaves it. *)
Definition initialState : SensorState := {|
  sensor := "NA";
  acquisitionTime :=
    {| year := 1; month := 1; day := 1; hour := 0; minute := 0; second := 0 |};
  latTL := 0; lonTL := 0; latTR := 0; lonTR := 0;
  latBL := 0; lonBL := 0; latBR := 0; lonBR := 0;
  latCentre := 0; lonCentre := 0;
  xTL := 0; yTL := 0; xTR := 0; yTR := 0;
  xBL := 0; yBL := 0; xBR := 0; yBR := 0;
  xCentre := 0; yCentre := 0;
  inWKT := "";
  debugMode := false
|}.

Module LandsatExamples.

(** Decimal texts such as [-12] and [30.5], read as numbers. *)
Definition decimalInt (s : string) : option Z :=
  Z.of_int <$> NilZero.int_of_string s.

Definition decimalFloat (s : string) : option Q :=
  match Text.split "." s with
  | [whole] => inject_Z <$> decimalInt whole
  | [whole; fraction] =>
      w ← decimalInt whole;
      f ← NilZero.uint_of_string fraction;
      let part := Qmake (Z.of_uint f)
                    (Pos.pow 10 (Pos.of_nat (String.length fraction))) in
      Some (if String.prefix "-" whole then inject_Z w - part
            else inject_Z w + part)
  | _ => None
  end.

Definition decimalConv : PyConv :=
  {| py_int := decimalInt; py_float := decimalFloat |}.

(** A transformation that scales metres to degrees, for the sake of an
    example. *)
Definition scaleOsr : OsrEngine :=
  {| transformEPSG := fun _ _ p => (fst p / 100000 - 100, snd p / 100000) |}.

Definition quoted (s : string) : string :=
  String Text.dquote (s +:+ String Text.dquote EmptyString).

(** The lines of a metadata file in the layout of the Landsat archive. *)
Definition mtlLines : list string :=
  [ "GROUP = L1_METADATA_FILE";
    "  GROUP = PRODUCT_METADATA";
    "    SPACECRAFT_ID = " +:+ quoted "LANDSAT_1";
    "    SENSOR_ID = " +:+ quoted "MSS";
    "    WRS_PATH = 30";
    "    WRS_ROW = 28";
    "    DATE_ACQUIRED = 1972-07-25";
    "    SCENE_CENTER_TIME = 17:05:31.1230000Z";
    "    CORNER_UL_LAT_PRODUCT = 46.5";
    "    CORNER_UL_LON_PRODUCT = -98.5";
    "    CORNER_UR_LAT_PRODUCT = 46.5";
    "    CORNER_UR_LON_PRODUCT = -95.5";
    "    CORNER_LL_LAT_PRODUCT = 44.5";
    "    CORNER_LL_LON_PRODUCT = -98.5";
    "    CORNER_LR_LAT_PRODUCT = 44.5";
    "    CORNER_LR_LON_PRODUCT = -95.5";
    "    CORNER_UL_PROJECTION_X_PRODUCT = 538500.0";
    "    CORNER_UL_PROJECTION_Y_PRODUCT = 5158500.0";
    "    CORNER_UR_PROJECTION_X_PRODUCT = 778500.0";
    "    CORNER_UR_PROJECTION_Y_PRODUCT = 5158500.0";
    "    CORNER_LL_PROJECTION_X_PRODUCT = 538500.0";
    "    CORNER_LL_PROJECTION_Y_PRODUCT = 4935500.0";
    "    CORNER_LR_PROJECTION_X_PRODUCT = 778500.0";
    "    CORNER_LR_PROJECTION_Y_PRODUCT = 4935500.0";
    "    FILE_NAME_BAND_4 = " +:+ quoted "LM10300281972207_B4.TIF";
    "    FILE_NAME_BAND_5 = " +:+ quoted "LM10300281972207_B5.TIF";
    "    FILE_NAME_BAND_6 = " +:+ quoted "LM10300281972207_B6.TIF";
    "    FILE_NAME_BAND_7 = " +:+ quoted "LM10300281972207_B7.TIF";
    "  END_GROUP = PRODUCT_METADATA";
    "  GROUP = IMAGE_ATTRIBUTES";
    "    SUN_AZIMUTH = 129.5";
    "    SUN_ELEVATION = 57.25";
    "  END_GROUP = IMAGE_ATTRIBUTES";
    "    RADIANCE_MAXIMUM_BAND_4 = 248.0";
    "    RADIANCE_MINIMUM_BAND_4 = 0.0";
    "    RADIANCE_MAXIMUM_BAND_5 = 200.0";
    "    RADIANCE_MINIMUM_BAND_5 = 0.0";
    "    RADIANCE_MAXIMUM_BAND_6 = 176.0";
    "    RADIANCE_MINIMUM_BAND_6 = 0.0";
    "    RADIANCE_MAXIMUM_BAND_7 = 153.0";
    "    RADIANCE_MINIMUM_BAND_7 = 0.0";
    "    QUANTIZE_CAL_MAX_BAND_4 = 255";
    "    QUANTIZE_CAL_MIN_BAND_4 = 1";
    "    QUANTIZE_CAL_MAX_BAND_5 = 255";
    "    QUANTIZE_CAL_MIN_BAND_5 = 1";
    "    QUANTIZE_CAL_MAX_BAND_6 = 255";
    "    QUANTIZE_CAL_MIN_BAND_6 = 1";
    "    QUANTIZE_CAL_MAX_BAND_7 = 255";
    "    QUANTIZE_CAL_MIN_BAND_7 = 1";
    "    MAP_PROJECTION = " +:+ quoted "UTM";
    "    DATUM = " +:+ quoted "WGS84";
    "    ELLIPSOID = " +:+ quoted "WGS84";
    "    UTM_ZONE = 14";
    "END_GROUP = L1_METADATA_FILE";
    "END" ].

(** A sensor as the constructor leaves it. *)
Definition fresh : Landsat1MSS.Sensor := {|
  Landsat1MSS.base := initialState;
  Landsat1MSS.solarZenith := 0; Landsat1MSS.solarAzimuth := 0;
  Landsat1MSS.senorZenith := 0; Landsat1MSS.senorAzimuth := 0;
  Landsat1MSS.row := 0; Landsat1MSS.path := 0;
  Landsat1MSS.band4File := ""; Landsat1MSS.band5File := "";
  Landsat1MSS.band6File := ""; Landsat1MSS.band7File := "";
  Landsat1MSS.b4CalMin := 0; Landsat1MSS.b4CalMax := 0;
  Landsat1MSS.b5CalMin := 0; Landsat1MSS.b5CalMax := 0;
  Landsat1MSS.b6CalMin := 0; Landsat1MSS.b6CalMax := 0;
  Landsat1MSS.b7CalMin := 0; Landsat1MSS.b7CalMax := 0;
  Landsat1MSS.b4MinRad := 0; Landsat1MSS.b4MaxRad := 0;
  Landsat1MSS.b5MinRad := 0; Landsat1MSS.b5MaxRad := 0;
  Landsat1MSS.b6MinRad := 0; Landsat1MSS.b6MaxRad := 0;
  Landsat1MSS.b7MinRad := 0; Landsat1MSS.b7MaxRad := 0
|}.

End LandsatExamples.

(* ===================================================================== *)
(** * Local dark targets                                                  *)
(* ===================================================================== *)

(** [numpy.histogram(data, bins=numBins, range=(lo, hi))]: the counts and
    the bin edges, or the exception it raises. *)
Class NumpyEngine : Type := {
  np_histogram : list Q -> Q -> Q -> Q -> attempt (list Z * list Q)
}.

(** [numpy.min] and [numpy.max] raise [ValueError] on an empty array. *)
Definition npMin (a : list Q) : attempt Q :=
  match a with
  | [] => Raised ValueError
  | x :: rest => Got (foldl (fun m v => if Qle_bool m v then m else v) x rest)
  end.

Definition npMax (a : list Q) : attempt Q :=
  match a with
  | [] => Raised ValueError
  | x :: rest => Got (foldl (fun m v => if Qle_bool v m then m else v) x rest)
  end.

(** The walk [for n in range(histo.shape[0])] from bin [n] on, with its
    [break]. *)
Fixpoint localThresholdScan (histo : list Z) (histoBins : list Q) (n : nat)
    (numValsPercentile binValCount : Z) (threshold : Q) : attempt Q :=
  match histo with
  | [] => Got threshold
  | h :: rest =>
      if (numValsPercentile <? binValCount + h)%Z then Got threshold
      else
        edge ← index histoBins (S n);
        localThresholdScan rest histoBins (S n) numValsPercentile
          (binValCount + h)%Z edge
  end.

Section LocalDarkTargets.
Context `{NumpyEngine}.

(** The body of [for i in range(len(out))]: one band of one block, with its
    pixels in a row. *)
Definition localDarkTargetsBand (band : list Q) (blockSize : Z)
    (histBinWidth darkPxlPercentile : Q) : attempt (list Q) :=
  let zeros := (fun _ : Q => 0) <$> band in
  minVal ← npMin band;
  maxVal ← npMax band;
  if Py.Qlt_bool 5 (maxVal - minVal) then
    let data := List.filter (fun v => negb (Qeq_bool v 0)) band in
    minVal ← npMin data;
    maxVal ← npMax data;
    numBins ← (if Qeq_bool histBinWidth 0 then Raised ZeroDivision
               else Got (Py.float (Py.ceil (maxVal - minVal)) / histBinWidth
                         + 1));
    if Py.Qlt_bool (Py.float (blockSize * blockSize) * 0.1)
         (Py.float (Z.of_nat (length data)))
    then
      hist ← np_histogram data numBins minVal maxVal;
      let histo := hist.1 in
      let histoBins := hist.2 in
      let numValues := foldr Z.add 0%Z histo in
      let numValsPercentile :=
        Py.floor (Py.float numValues * darkPxlPercentile) in
      threshold ← localThresholdScan histo histoBins 0 numValsPercentile 0 0;
      mret ((fun v => if Qle_bool v threshold && Py.Qlt_bool 0 v
                      then 1 else 0) <$> band)
    else mret zeros
  else mret zeros.

(** [findDOSLocalDarkTargets]: every band of every block the reader
    yields; with no block at all there is no writer to close. *)
Definition findDOSLocalDarkTargets (inputTOAImage : list (list (list Q)))
    (blockSize : Z) (histBinWidth darkPxlPercentile : Q)
    : attempt (list (list (list Q))) :=
  written ← mapM (fun block =>
                    mapM (fun band =>
                            localDarkTargetsBand band blockSize histBinWidth
                              darkPxlPercentile) block)
              inputTOAImage;
  match written with
  | [] => Raised AttributeError
  | _ => Got written
  end.

End LocalDarkTargets.

Module LocalExamples.

  (** A histogram of ten equal bins between the bounds, by counting. *)
Definition tenBins : NumpyEngine := {|
    np_histogram := fun data _ lo hi =>
      let width := (hi - lo) / 10 in
      let edges := (fun k : Z => lo + width * inject_Z k) <$> seqZ 0 11 in
      let binOf v := Z.min 9 (Qfloor ((v - lo) / width)) in
      Got ((fun k : Z =>
              Z.of_nat (length (List.filter (fun v => (binOf v =? k)%Z) data)))
             <$> seqZ 0 10,
           edges)
  |}.

  (** One block of two bands: a 3 x 3 band with two nodata pixels, and a
      flat one. *)
Definition image : list (list (list Q)) :=
    [[[0; 12; 40; 3; 100; 55; 7; 0; 20]; [9; 9; 10; 9; 11; 9; 9; 10; 9]]].

Definition masks : list (list (list Q)) :=
    [[[0; 1; 0; 1; 0; 0; 1; 0; 0]; [0; 0; 0; 0; 0; 0; 0; 0; 0]]].

End LocalExamples.

(* ===================================================================== *)
(** * The files and bands of the dark object subtraction                  *)
(* ===================================================================== *)

(** [os.path.splitext(p)[0]] and [ARCSIUtils.getFileExtension(format)]. *)
Class PathEngine : Type := {
  splitextRoot : string -> string;
  getFileExtension : string -> string
}.

(** What a run that comes back has done with files and bands: the
    temporary images it wrote, for each band it worked on the band the dark
    pixels are taken from, the band of the TOA image the statistics of the
    dark objects are taken from and the offset image, the band the final
    band maths reads, the image returned, and the files handed to
    [gdalDriver.Delete], in order.  Paths are joined as [posixpath] does. *)
Module Plan.

Record BandStep : Type := {
  darkBand : Z;
  statsBand : Z;
  offsetImage : string
}.

Record Files : Type := {
  temporaries : list string;
  steps : list BandStep;
  toaBand : option Z;
  outputImage : string;
  deleted : list string
}.

Section Functions.
Context `{PathEngine}.

Definition findPerBandDarkTargetsOffsets (self : SensorState) (numBands : Z)
    (outputPath outputName outFormat tmpPath : string) : Files :=
  let tmpBaseName := splitextRoot outputName in
  let imgExtension := getFileExtension outFormat in
  let tmpDarkPxlsImg :=
    Text.join tmpPath (tmpBaseName +:+ "_darkpxls" +:+ imgExtension) in
  let tmpDarkPxlsClumpsImg :=
    Text.join tmpPath (tmpBaseName +:+ "_darkclumps" +:+ imgExtension) in
  let tmpDarkPxlsClumpsRMSmallImg :=
    Text.join tmpPath
      (tmpBaseName +:+ "_darkclumpsrmsmall" +:+ imgExtension) in
  let tmpDarkObjsImg :=
    Text.join tmpPath (tmpBaseName +:+ "_darkobjs" +:+ imgExtension) in
  let bandSteps :=
    (fun band : Z =>
       {| darkBand := band + 1;
          statsBand := band + 1;
          offsetImage :=
            Text.join tmpPath
              (tmpBaseName +:+ "_darktargetoffs_b"
                 +:+ Py.str_int (band + 1) +:+ imgExtension) |})
      <$> Py.range numBands in
  let bandDarkTargetOffsetImages := offsetImage <$> bandSteps in
  let outputImage :=
    Text.join outputPath (tmpBaseName +:+ "_dosuboffs" +:+ imgExtension) in
  {| temporaries := [tmpDarkPxlsImg; tmpDarkPxlsClumpsImg;
                     tmpDarkPxlsClumpsRMSmallImg; tmpDarkObjsImg];
     steps := bandSteps;
     toaBand := None;
     outputImage := outputImage;
     deleted :=
       if debugMode self then []
       else [tmpDarkPxlsImg; tmpDarkPxlsClumpsImg;
             tmpDarkPxlsClumpsRMSmallImg; tmpDarkObjsImg]
              ++ bandDarkTargetOffsetImages |}.

Definition performDOSOnSingleBand (self : SensorState) (band : Z)
    (outputPath tmpBaseName bandName outFormat tmpPath : string) : Files :=
  let imgExtension := getFileExtension outFormat in
  let tmpDarkPxlsImg :=
    Text.join tmpPath (tmpBaseName +:+ "_darkpxls" +:+ imgExtension) in
  let tmpDarkPxlsClumpsImg :=
    Text.join tmpPath (tmpBaseName +:+ "_darkclumps" +:+ imgExtension) in
  let tmpDarkPxlsClumpsRMSmallImg :=
    Text.join tmpPath
      (tmpBaseName +:+ "_darkclumpsrmsmall" +:+ imgExtension) in
  let tmpDarkObjsImg :=
    Text.join tmpPath (tmpBaseName +:+ "_darkobjs" +:+ imgExtension) in
  let offsetImage :=
    Text.join outputPath
      (tmpBaseName +:+ "_darktargetoffs_b" +:+ Py.str_int band
         +:+ imgExtension) in
  let outputName := tmpBaseName +:+ "DOS" +:+ bandName +:+ imgExtension in
  let outputImage := Text.join outputPath outputName in
  {| temporaries := [tmpDarkPxlsImg; tmpDarkPxlsClumpsImg;
                     tmpDarkPxlsClumpsRMSmallImg; tmpDarkObjsImg];
     steps := [{| darkBand := band; statsBand := band;
                  offsetImage := offsetImage |}];
     toaBand := Some band;
     outputImage := outputImage;
     deleted :=
       if debugMode self then []
       else [tmpDarkPxlsImg; tmpDarkPxlsClumpsImg;
             tmpDarkPxlsClumpsRMSmallImg; tmpDarkObjsImg] |}.

Definition performLocalDOSOnSingleBand (self : SensorState) (band : Z)
    (outputPath tmpBaseName bandName outFormat tmpPath : string) : Files :=
  let imgExtension := getFileExtension outFormat in
  let tmpDarkTargetAllImage :=
    Text.join tmpPath
      (tmpBaseName +:+ "_darkpxls_allbands" +:+ imgExtension) in
  let tmpDarkPxlsImg :=
    Text.join tmpPath (tmpBaseName +:+ "_darkpxls" +:+ imgExtension) in
  let tmpDarkPxlsClumpsImg :=
    Text.join tmpPath (tmpBaseName +:+ "_darkclumps" +:+ imgExtension) in
  let tmpDarkPxlsClumpsRMSmallImg :=
    Text.join tmpPath
      (tmpBaseName +:+ "_darkclumpsrmsmall" +:+ imgExtension) in
  let tmpDarkObjsImg :=
    Text.join tmpPath (tmpBaseName +:+ "_darkobjs" +:+ imgExtension) in
  let offsetImage :=
    Text.join tmpPath
      (tmpBaseName +:+ "_darktargetoffs_b" +:+ Py.str_int band
         +:+ imgExtension) in
  let outputName := tmpBaseName +:+ "DOS" +:+ bandName +:+ imgExtension in
  let outputImage := Text.join outputPath outputName in
  {| temporaries := [tmpDarkTargetAllImage; tmpDarkPxlsImg;
                     tmpDarkPxlsClumpsImg; tmpDarkPxlsClumpsRMSmallImg;
                     tmpDarkObjsImg];
     steps := [{| darkBand := band; statsBand := band + 1;
                  offsetImage := offsetImage |}];
     toaBand := Some band;
     outputImage := outputImage;
     deleted :=
       if debugMode self then []
       else [tmpDarkPxlsImg; tmpDarkPxlsClumpsImg;
             tmpDarkPxlsClumpsRMSmallImg; tmpDarkObjsImg;
             tmpDarkTargetAllImage; offsetImage] |}.

Definition findPerBandLocalDarkTargetsOffsets (self : SensorState)
    (numBands : Z) (outputPath outputName outFormat tmpPath : string)
    : Files :=
  let tmpBaseName := splitextRoot outputName in
  let imgExtension := getFileExtension outFormat in
  let tmpDarkTargetAllImage :=
    Text.join tmpPath
      (tmpBaseName +:+ "_darkpxls_allbands" +:+ imgExtension) in
  let tmpDarkPxlsImg :=
    Text.join tmpPath (tmpBaseName +:+ "_darkpxls" +:+ imgExtension) in
  let tmpDarkPxlsClumpsImg :=
    Text.join tmpPath (tmpBaseName +:+ "_darkclumps" +:+ imgExtension) in
  let tmpDarkPxlsClumpsRMSmallImg :=
    Text.join tmpPath
      (tmpBaseName +:+ "_darkclumpsrmsmall" +:+ imgExtension) in
  let tmpDarkObjsImg :=
    Text.join tmpPath (tmpBaseName +:+ "_darkobjs" +:+ imgExtension) in
  let bandSteps :=
    (fun band : Z =>
       {| darkBand := band + 1;
          statsBand := band + 1;
          offsetImage :=
            Text.join tmpPath
              (tmpBaseName +:+ "_darktargetoffs_b"
                 +:+ Py.str_int (band + 1) +:+ imgExtension) |})
      <$> Py.range numBands in
  let bandDarkTargetOffsetImages := offsetImage <$> bandSteps in
  let outputImage :=
    Text.join outputPath (tmpBaseName +:+ "_dosuboffs" +:+ imgExtension) in
  {| temporaries := [tmpDarkTargetAllImage; tmpDarkPxlsImg;
                     tmpDarkPxlsClumpsImg; tmpDarkPxlsClumpsRMSmallImg;
                     tmpDarkObjsImg];
     steps := bandSteps;
     toaBand := None;
     outputImage := outputImage;
     deleted :=
       if debugMode self then []
       else [tmpDarkPxlsImg; tmpDarkPxlsClumpsImg;
             tmpDarkPxlsClumpsRMSmallImg; tmpDarkObjsImg;
             tmpDarkTargetAllImage]
              ++ bandDarkTargetOffsetImages |}.

End Functions.

End Plan.

Module PlanExamples.

  (** Names with one dot and no directory part, images of one format. *)
Definition plainNames : PathEngine := {|
    splitextRoot := fun p => hd "" (Text.split "." p);
    getFileExtension := fun _ => ".kea"
  |}.

End PlanExamples.

(* ===================================================================== *)
(** * Facts about the number model                                        *)
(* ===================================================================== *)

Lemma Qlt_bool_iff (x y : Q) : Py.Qlt_bool x y = true <-> x < y.
Proof.
  unfold Py.Qlt_bool. rewrite negb_true_iff, <- not_true_iff_false, Qle_bool_iff.
  split; [apply Qnot_le_lt | apply Qlt_not_le].
Qed.

Lemma Qlt_bool_false_iff (x y : Q) : Py.Qlt_bool x y = false <-> y <= x.
Proof.
  unfold Py.Qlt_bool. rewrite negb_false_iff. apply Qle_bool_iff.
Qed.

Lemma Qeq_bool_false (x y : Q) : ~ x == y -> Qeq_bool x y = false.
Proof.
  intros Hne. destruct (Qeq_bool x y) eqn:E; [|reflexivity].
  apply Qeq_bool_iff in E. contradiction.
Qed.

(** Adding a step [n] times. *)
Lemma iter_step_value (step : Q) (n : nat) (start : Q) :
  Nat.iter n (fun v => v + step) start == start + step * inject_Z (Z.of_nat n).
Proof.
  induction n as [|n IH].
  - change (Nat.iter 0 (fun v => v + step) start) with start.
    change (inject_Z (Z.of_nat 0)) with 0. ring.
  - rewrite Nat.iter_succ, IH, Nat2Z.inj_succ. unfold Z.succ.
    rewrite inject_Z_plus. change (inject_Z 1) with 1. ring.
Qed.

(* ===================================================================== *)
(** * Facts about binary64 floats                                         *)
(* ===================================================================== *)

(** A finite float minus itself is the positive zero. *)
Lemma F64_sub_self (a : float) :
  F64.is_finite a = true -> PrimFloat.sub a a = 0%float.
Proof.
  intros Hfin. apply Prim2SF_inj. rewrite FloatAxioms.sub_spec.
  unfold F64.is_finite in Hfin.
  destruct (Prim2SF a) as [s|s| |s m e]; try discriminate.
  - by destruct s.
  - unfold SF64sub, SFsub. cbv zeta. rewrite Z.min_id.
    unfold shl_align. rewrite Z.sub_diag. cbn [fst]. reflexivity.
Qed.

(** The order of the floats as a lexicographic order: the sign class, then
    the exponent, then the mantissa. *)
Lemma SFcompare_finite_pos (m1 m2 : positive) (e1 e2 : Z) :
  SFcompare (S754_finite false m1 e1) (S754_finite false m2 e2)
  = Some (match (e1 ?= e2)%Z with
          | Eq => (m1 ?= m2)%positive
          | c => c
          end).
Proof. cbn [SFcompare]. by destruct (e1 ?= e2)%Z. Qed.

Lemma SFcompare_finite_neg (m1 m2 : positive) (e1 e2 : Z) :
  SFcompare (S754_finite true m1 e1) (S754_finite true m2 e2)
  = Some (match (e2 ?= e1)%Z with
          | Eq => (m2 ?= m1)%positive
          | c => c
          end).
Proof.
  cbn [SFcompare]. rewrite (Z.compare_antisym e2 e1).
  destruct (e2 ?= e1)%Z; cbn [CompOpp]; try done.
  f_equal. change (PosDef.Pos.compare_cont Eq m1 m2) with (m1 ?= m2)%positive.
  by rewrite (Pos.compare_antisym m1 m2).
Qed.

Lemma SFltb_trans (x y z : spec_float) :
  SFltb x y = true -> SFltb y z = true -> SFltb x z = true.
Proof.
  unfold SFltb.
  destruct x as [sx|sx| |sx mx ex], y as [sy|sy| |sy my ey],
    z as [sz|sz| |sz mz ez];
    try destruct sx; try destruct sy; try destruct sz;
    try discriminate; try reflexivity;
    rewrite ?SFcompare_finite_pos, ?SFcompare_finite_neg;
    try (cbn [SFcompare]; discriminate);
    try (cbn [SFcompare]; reflexivity).
  all: repeat match goal with
       | |- context [(?a ?= ?b)%Z] => destruct (Z.compare_spec a b)
       | |- context [(?a ?= ?b)%positive] => destruct (Pos.compare_spec a b)
       end; try discriminate; try reflexivity; intros; subst; lia.
Qed.

Lemma SFleb_ltb_trans (x y z : spec_float) :
  SFleb x y = true -> SFltb y z = true -> SFltb x z = true.
Proof.
  unfold SFltb, SFleb.
  destruct x as [sx|sx| |sx mx ex], y as [sy|sy| |sy my ey],
    z as [sz|sz| |sz mz ez];
    try destruct sx; try destruct sy; try destruct sz;
    try discriminate; try reflexivity;
    rewrite ?SFcompare_finite_pos, ?SFcompare_finite_neg;
    try (cbn [SFcompare]; discriminate);
    try (cbn [SFcompare]; reflexivity).
  all: repeat match goal with
       | |- context [(?a ?= ?b)%Z] => destruct (Z.compare_spec a b)
       | |- context [(?a ?= ?b)%positive] => destruct (Pos.compare_spec a b)
       end; try discriminate; try reflexivity; intros; subst; lia.
Qed.

Lemma F64_ltb_trans (x y z : float) :
  PrimFloat.ltb x y = true -> PrimFloat.ltb y z = true ->
  PrimFloat.ltb x z = true.
Proof. rewrite !FloatAxioms.ltb_spec. apply SFltb_trans. Qed.

Lemma F64_leb_ltb_trans (x y z : float) :
  PrimFloat.leb x y = true -> PrimFloat.ltb y z = true ->
  PrimFloat.ltb x z = true.
Proof.
  rewrite FloatAxioms.leb_spec, !FloatAxioms.ltb_spec. apply SFleb_ltb_trans.
Qed.

Lemma SFltb_irrefl (x : spec_float) : SFltb x x = false.
Proof.
  unfold SFltb. destruct x as [s|s| |s m e]; try destruct s; try reflexivity;
    rewrite ?SFcompare_finite_pos, ?SFcompare_finite_neg;
    rewrite Z.compare_refl, Pos.compare_refl; reflexivity.
Qed.

Lemma F64_ltb_irrefl (x : float) : PrimFloat.ltb x x = false.
Proof. rewrite FloatAxioms.ltb_spec. apply SFltb_irrefl. Qed.

(** Two numbers are comparable: when [x < y] fails and neither is NaN,
    [y <= x] holds. *)
Lemma SFleb_total (x y : spec_float) :
  SFltb x y = false -> x <> S754_nan -> y <> S754_nan -> SFleb y x = true.
Proof.
  unfold SFltb, SFleb.
  destruct x as [sx|sx| |sx mx ex], y as [sy|sy| |sy my ey];
    try destruct sx; try destruct sy;
    try discriminate; try reflexivity; try congruence;
    rewrite ?SFcompare_finite_pos, ?SFcompare_finite_neg;
    try (cbn [SFcompare]; discriminate);
    try (cbn [SFcompare]; reflexivity).
  all: repeat match goal with
       | |- context [(?a ?= ?b)%Z] => destruct (Z.compare_spec a b)
       | |- context [(?a ?= ?b)%positive] => destruct (Pos.compare_spec a b)
       end; try discriminate; try reflexivity; intros; subst; lia.
Qed.

Lemma F64_leb_total (x y : float) :
  PrimFloat.ltb x y = false ->
  PrimFloat.is_nan x = false -> PrimFloat.is_nan y = false ->
  PrimFloat.leb y x = true.
Proof.
  rewrite FloatAxioms.ltb_spec, FloatAxioms.leb_spec.
  intros Hlt Hx Hy. apply SFleb_total; [done| |].
  - intros Hn. unfold PrimFloat.is_nan in Hx.
    rewrite FloatAxioms.eqb_spec, Hn in Hx. discriminate.
  - intros Hn. unfold PrimFloat.is_nan in Hy.
    rewrite FloatAxioms.eqb_spec, Hn in Hy. discriminate.
Qed.

(** A zero resolution stays zero under [math.fabs]. *)
Lemma F64_abs_nonzero (y : float) :
  PrimFloat.eqb y 0 = false -> PrimFloat.eqb (PrimFloat.abs y) 0 = false.
Proof.
  rewrite !FloatAxioms.eqb_spec, FloatAxioms.abs_spec.
  change (Prim2SF 0) with (S754_zero false).
  by destruct (Prim2SF y) as [s|[]| |[] m e].
Qed.

Lemma F64_truediv_ok (x y : float) :
  PrimFloat.eqb y 0 = false -> F64.truediv x y = Ok (PrimFloat.div x y).
Proof. intros Hy. unfold F64.truediv. by rewrite Hy. Qed.

Lemma F64_truediv_zero (x y : float) :
  PrimFloat.eqb y 0 = true -> F64.truediv x y = Raise ZeroDivisionError.
Proof. intros Hy. unfold F64.truediv. by rewrite Hy. Qed.

(* ===================================================================== *)
(** * The reprojected bounding box                                        *)
(* ===================================================================== *)

Section ReProjBBOXFacts.
Context `{GeoEngine}.


  (** C10. The outcome of [getReProjBBOX] is the same for either value of
      [snap2Grid]. *)
Theorem getReProjBBOX_ignores_snap2Grid (self : SensorState)
      (wktFile proj4File : string) (useWKT2Reproject : bool)
      (xPxlRes yPxlRes : float) (snap2Grid snap2Grid' : bool) :
    getReProjBBOX self wktFile proj4File useWKT2Reproject xPxlRes yPxlRes
      snap2Grid
    = getReProjBBOX self wktFile proj4File useWKT2Reproject xPxlRes yPxlRes
        snap2Grid'.
  Proof. reflexivity. Qed.

End ReProjBBOXFacts.


(** The quotient is rounded before its floor is taken.  At the resolution
    0.1 the corner x = 1.7 lies 16 whole cells and a fraction from the
    origin, but the binary64 quotient is 17: [MinX] comes out as
    1.7000000000000002, to the right of the corner. *)
Lemma getReProjBBOX_rounds_before_floor :
  let run :=
    getReProjBBOX (H := Examples.tenthsGeo) Examples.tenthsScene "utm.wkt"
      "utm.proj4" true 0.1 0.1 false in
  transformTo (GeoEngine := Examples.tenthsGeo) "PROJCS"
    (ImportFromWkt "utm.wkt") (1.7, 3.1)%Q = Ok (1.7, 3.1)%float
  /\ Qfloor (F64.toQ 1.7 / F64.toQ 0.1) = 16%Z
  /\ F64.floorZ (PrimFloat.div 1.7 0.1) = Ok 17%Z
  /\ match run with
     | Ok bbox => bbox !! "MinX"
     | Raise _ => None
     end = Some 1.7000000000000002%float
  /\ PrimFloat.mul (F64.of_Z 17) 0.1 = 1.7000000000000002%float
  /\ PrimFloat.ltb 1.7 1.7000000000000002 = true.
Proof. cbv zeta. split_and!; vm_compute; reflexivity. Qed.

(* ===================================================================== *)
(** * Regular grids                                                       *)
(* ===================================================================== *)

Section StepGrid.
Variable step : float.

Lemma length_stepGrid (n : nat) (start : float) :
    length (stepGrid step n start) = n.
  Proof. revert start. induction n as [|n IH]; intros; simpl; [done|]. by rewrite IH. Qed.

Lemma stepGrid_snoc (n : nat) (start : float) :
    stepGrid step (S n) start
    = stepGrid step n start
        ++ [Nat.iter n (fun v => PrimFloat.add v step) start].
  Proof.
    revert start. induction n as [|n IH]; intros start; [done|].
    change (stepGrid step (S (S n)) start)
      with (start :: stepGrid step (S n) (PrimFloat.add start step)).
    by rewrite IH, (Nat.iter_succ_r n).
  Qed.

Lemma lookup_stepGrid_0 (n : nat) (start : float) :
    (0 < n)%nat -> stepGrid step n start !! 0%nat = Some start.
  Proof. destruct n; [lia|done]. Qed.

  (** A value is the binary64 sum of the one before and the step, as the
      loop adds it. *)
Lemma stepGrid_consecutive (n : nat) (start : float) (i : nat) (a b : float) :
    stepGrid step n start !! i = Some a ->
    stepGrid step n start !! S i = Some b ->
    b = PrimFloat.add a step.
  Proof.
    revert start i. induction n as [|n IH]; intros start i Ha Hb; [done|].
    destruct i as [|i]; simpl in *.
    - injection Ha as <-. destruct n; simpl in Hb; [done|]. by injection Hb as <-.
    - eauto.
  Qed.

End StepGrid.

(* ===================================================================== *)
(** * The look-up table builders                                          *)
(* ===================================================================== *)

Section LUTFacts.
Context {Aero Atmos GrdRefl CoeffSet : Type}.
Context `{!Sensor6S Aero Atmos GrdRefl CoeffSet}.
Variables (aeroProfile : Aero) (atmosProfile : Atmos) (grdRefl : GrdRefl).
Variable useBRDF : bool.

#[local] Abbreviation callAt elevVal aotVal :=
  {| callAeroProfile := aeroProfile; callAtmosProfile := atmosProfile;
     callGrdRefl := grdRefl;
     callSurfaceAltitude := PrimFloat.div elevVal 1000;
     callAotVal := aotVal; callUseBRDF := useBRDF |}.

#[local] Abbreviation coeffsAt elevVal aotVal :=
  (calc6SCoefficients aeroProfile atmosProfile grdRefl
     (PrimFloat.div elevVal 1000) aotVal useBRDF).

(** The elevation loop appends one entry and one solver call per index,
    whatever the indices are. *)
Lemma forM_elevLUTStep (aotVal : float) (idx : list Z)
    (lut : list (ElevLUTFeat CoeffSet)) (elevVal : float)
    (log : list (SolverCall Aero Atmos GrdRefl)) :
  forM (elevLUTStep aeroProfile atmosProfile grdRefl aotVal useBRDF)
    (lut, elevVal) idx log
  = ((lut ++ ((fun e => {| Elev := e; Coeffs := coeffsAt e aotVal |})
                <$> stepGrid 100 (length idx) elevVal),
      Nat.iter (length idx) (fun v => PrimFloat.add v 100) elevVal),
     log ++ ((fun e => callAt e aotVal) <$> stepGrid 100 (length idx) elevVal)).
Proof.
  revert lut elevVal log.
  induction idx as [|i idx IH]; intros lut elevVal log.
  - simpl. by rewrite !app_nil_r.
  - cbn [forM]. unfold mbind, solver_bind at 1.
    unfold elevLUTStep at 1. unfold mbind, solver_bind, call6S, mret, solver_ret.
    rewrite IH. cbn [length stepGrid fmap list_fmap].
    rewrite <- !app_assoc, (Nat.iter_succ_r (length idx)). reflexivity.
Qed.

(** The whole run of the elevation builder: [math.ceil] raises before any
    solver call, or the table is the grid of [ceil + 1] elevations. *)
Lemma buildElevation6SCoeffLUT_run (aotVal lo hi : float)
    (log : list (SolverCall Aero Atmos GrdRefl)) :
  buildElevation6SCoeffLUT aeroProfile atmosProfile grdRefl aotVal useBRDF
    lo hi log
  = match F64.ceilZ (PrimFloat.div (PrimFloat.sub hi lo) 100) with
    | Raise e => (Raise e, log)
    | Ok c =>
        let n := Z.to_nat (c + 1) in
        (Ok ((fun e => {| Elev := e; Coeffs := coeffsAt e aotVal |})
               <$> stepGrid 100 n lo),
         log ++ ((fun e => callAt e aotVal) <$> stepGrid 100 n lo))
    end.
Proof.
  unfold buildElevation6SCoeffLUT, Py.range.
  destruct (F64.ceilZ _) as [c|e]; [|done].
  unfold mbind, solver_bind. rewrite forM_elevLUTStep.
  unfold mret, solver_ret. by rewrite length_seqZ.
Qed.

(** C2, as the code computes it.  Let [n] be [math.ceil] of the binary64
    quotient [(surfaceAltitudeMax - surfaceAltitudeMin) / 100].  The
    elevation table has [n + 1] entries; the first elevation is the
    minimum and every next one is the binary64 sum of the one before and
    100; the solver is called once per entry, in order, with the elevation
    of the entry divided by 1000, and the entry holds what that call
    returned.  When [math.ceil] raises (the quotient is infinite or not a
    number) the builder raises the same exception before any call.  The
    last elevation need not reach the maximum. *)
Theorem buildElevation6SCoeffLUT_grid (aotVal : float)
    (surfaceAltitudeMin surfaceAltitudeMax : float) :
  let run :=
    buildElevation6SCoeffLUT aeroProfile atmosProfile grdRefl aotVal useBRDF
      surfaceAltitudeMin surfaceAltitudeMax [] in
  match F64.ceilZ
          (PrimFloat.div
             (PrimFloat.sub surfaceAltitudeMax surfaceAltitudeMin) 100) with
  | Raise e => run = (Raise e, [])
  | Ok n =>
      exists (lut : list (ElevLUTFeat CoeffSet))
             (calls : list (SolverCall Aero Atmos GrdRefl)),
        run = (Ok lut, calls)
        /\ length lut = Z.to_nat (n + 1)
        /\ ((0 <= n)%Z -> Z.of_nat (length lut) = (n + 1)%Z)
        /\ ((0 <= n)%Z -> Elev <$> lut !! 0%nat = Some surfaceAltitudeMin)
        /\ (forall (i : nat) (e e' : ElevLUTFeat CoeffSet),
              lut !! i = Some e -> lut !! S i = Some e' ->
              Elev e' = PrimFloat.add (Elev e) 100)
        /\ calls = (fun e => callAt (Elev e) aotVal) <$> lut
        /\ (forall e, e ∈ lut -> Coeffs e = coeffsAt (Elev e) aotVal)
  end.
Proof.
  intros run. subst run. rewrite buildElevation6SCoeffLUT_run.
  destruct (F64.ceilZ _) as [n|e]; [|done]. cbn zeta.
  do 2 eexists. split; [reflexivity|]. split_and!.
  - by rewrite length_fmap, length_stepGrid.
  - intros Hn. rewrite length_fmap, length_stepGrid. lia.
  - intros Hn. rewrite list_lookup_fmap, lookup_stepGrid_0 by lia. done.
  - intros i e e'. rewrite !list_lookup_fmap.
    destruct (stepGrid 100 _ surfaceAltitudeMin !! i) as [a|] eqn:Ha; [|done].
    destruct (stepGrid 100 _ surfaceAltitudeMin !! S i) as [b|] eqn:Hb; [|done].
    intros [= <-] [= <-]. cbn [Elev].
    exact (stepGrid_consecutive 100 _ _ _ _ _ Ha Hb).
  - rewrite app_nil_l, <- list_fmap_compose. done.
  - intros e [a [-> _]]%list_elem_of_fmap. done.
Qed.

(** The inner loop appends one AOT entry per index. *)
Lemma forM_aotLUTStep (elevVal : float) (idx : list Z)
    (aotCoeffLUT : list (AOTLUTFeat CoeffSet)) (aotVal : float)
    (log : list (SolverCall Aero Atmos GrdRefl)) :
  forM (aotLUTStep aeroProfile atmosProfile grdRefl useBRDF elevVal)
    (aotCoeffLUT, aotVal) idx log
  = ((aotCoeffLUT
        ++ ((fun a => {| AOT := a; AOTCoeffs := coeffsAt elevVal a |})
              <$> stepGrid 0.05 (length idx) aotVal),
      Nat.iter (length idx) (fun v => PrimFloat.add v 0.05) aotVal),
     log ++ ((fun a => callAt elevVal a) <$> stepGrid 0.05 (length idx) aotVal)).
Proof.
  revert aotCoeffLUT aotVal log.
  induction idx as [|j idx IH]; intros aotCoeffLUT aotVal log.
  - simpl. by rewrite !app_nil_r.
  - cbn [forM]. unfold mbind, solver_bind at 1.
    unfold aotLUTStep at 1. unfold mbind, solver_bind, call6S, mret, solver_ret.
    rewrite IH. cbn [length stepGrid fmap list_fmap].
    rewrite <- !app_assoc, (Nat.iter_succ_r (length idx)). reflexivity.
Qed.

(** The outer loop appends, per index, one elevation entry that holds a
    whole AOT table, and the solver calls of that table. *)
Lemma forM_elevAOTLUTStep (aotMin : float) (numAOTSteps : Z) (idx : list Z)
    (lut : list (ElevLUTFeat (list (AOTLUTFeat CoeffSet)))) (elevVal : float)
    (log : list (SolverCall Aero Atmos GrdRefl)) :
  let m := Z.to_nat numAOTSteps in
  forM (elevAOTLUTStep aeroProfile atmosProfile grdRefl useBRDF aotMin
          numAOTSteps) (lut, elevVal) idx log
  = ((lut ++ ((fun e =>
                 {| Elev := e;
                    Coeffs := (fun a => {| AOT := a; AOTCoeffs := coeffsAt e a |})
                                <$> stepGrid 0.05 m aotMin |})
                <$> stepGrid 100 (length idx) elevVal),
      Nat.iter (length idx) (fun v => PrimFloat.add v 100) elevVal),
     log ++ concat ((fun e => (fun a => callAt e a) <$> stepGrid 0.05 m aotMin)
                     <$> stepGrid 100 (length idx) elevVal)).
Proof.
  intros m. revert lut elevVal log.
  induction idx as [|i idx IH]; intros lut elevVal log.
  - simpl. by rewrite !app_nil_r.
  - cbn [forM]. unfold mbind, solver_bind at 1.
    unfold elevAOTLUTStep at 1. unfold mbind, solver_bind at 1.
    rewrite forM_aotLUTStep. unfold mret, solver_ret.
    rewrite IH. unfold Py.range. rewrite length_seqZ. fold m.
    cbn [length stepGrid fmap list_fmap fst concat].
    rewrite <- !app_assoc, (Nat.iter_succ_r (length idx)). reflexivity.
Qed.

Lemma buildElevationAOT6SCoeffLUT_run (lo hi aotMin aotMax : float)
    (log : list (SolverCall Aero Atmos GrdRefl)) :
  buildElevationAOT6SCoeffLUT aeroProfile atmosProfile grdRefl useBRDF
    lo hi aotMin aotMax log
  = match F64.ceilZ (PrimFloat.div (PrimFloat.sub hi lo) 100) with
    | Raise e => (Raise e, log)
    | Ok c =>
        match F64.ceilZ (PrimFloat.div (PrimFloat.sub aotMax aotMin) 0.05) with
        | Raise e => (Raise e, log)
        | Ok d =>
            let n := Z.to_nat (c + 1) in
            let m := Z.to_nat (d + 1 + 1) in
            (Ok ((fun e =>
                    {| Elev := e;
                       Coeffs := (fun a => {| AOT := a;
                                              AOTCoeffs := coeffsAt e a |})
                                   <$> stepGrid 0.05 m aotMin |})
                   <$> stepGrid 100 n lo),
             log ++ concat ((fun e => (fun a => callAt e a)
                                       <$> stepGrid 0.05 m aotMin)
                             <$> stepGrid 100 n lo))
        end
    end.
Proof.
  unfold buildElevationAOT6SCoeffLUT.
  destruct (F64.ceilZ (PrimFloat.div (PrimFloat.sub hi lo) 100)) as [c|e];
    [|done].
  destruct (F64.ceilZ _) as [d|e]; [|done].
  unfold mbind, solver_bind. rewrite forM_elevAOTLUTStep.
  unfold mret, solver_ret, Py.range. by rewrite length_seqZ.
Qed.


(** X5. The elevation and AOT table costs one solver call per pair of an
    elevation and an AOT entry of the table, in table order, each with the
    elevation of its entry divided by 1000 and the AOT of its entry; that
    is [(n + 1) * (d + 2)] calls when [math.ceil] of the two binary64
    quotients gives [n >= 0] and [d >= 0].  When the builder raises, it
    has made no call. *)
Theorem buildElevationAOT6SCoeffLUT_calls
    (surfaceAltitudeMin surfaceAltitudeMax aotMin aotMax : float) :
  let run :=
    buildElevationAOT6SCoeffLUT aeroProfile atmosProfile grdRefl useBRDF
      surfaceAltitudeMin surfaceAltitudeMax aotMin aotMax [] in
  match run.1 with
  | Raise _ => run.2 = []
  | Ok lut =>
      run.2
      = concat ((fun e : ElevLUTFeat (list (AOTLUTFeat CoeffSet)) =>
                   (fun a : AOTLUTFeat CoeffSet => callAt (Elev e) (AOT a))
                     <$> Coeffs e) <$> lut)
      /\ (forall n d : Z,
            F64.ceilZ
              (PrimFloat.div
                 (PrimFloat.sub surfaceAltitudeMax surfaceAltitudeMin) 100)
            = Ok n ->
            F64.ceilZ (PrimFloat.div (PrimFloat.sub aotMax aotMin) 0.05)
            = Ok d ->
            length run.2 = (Z.to_nat (n + 1) * Z.to_nat (d + 2))%nat)
  end.
Proof.
  intros run. subst run. rewrite buildElevationAOT6SCoeffLUT_run.
  destruct (F64.ceilZ (PrimFloat.div (PrimFloat.sub surfaceAltitudeMax _) _))
    as [n|e]; [|done].
  destruct (F64.ceilZ _) as [d|e]; [|done]. cbn zeta. cbn [fst snd].
  rewrite app_nil_l. split.
  - rewrite <- list_fmap_compose. f_equal. apply list_fmap_ext.
    intros _ e _. cbn [compose Coeffs Elev].
    by rewrite <- list_fmap_compose.
  - intros n' d' [= <-] [= <-].
    replace (d + 1 + 1)%Z with (d + 2)%Z by lia.
    generalize (stepGrid 100 (Z.to_nat (n + 1)) surfaceAltitudeMin)
      (length_stepGrid 100 (Z.to_nat (n + 1)) surfaceAltitudeMin).
    intros elevs <-.
    induction elevs as [|e l IHl]; [done|].
    cbn [fmap list_fmap concat length]. rewrite length_app, IHl.
    rewrite length_fmap, length_stepGrid. lia.
Qed.

End LUTFacts.

Lemma buildElevation6SCoeffLUT_grid_witness :
  exists lut calls,
    buildElevation6SCoeffLUT (Sensor6S0 := Examples.demoSensor) tt tt tt
      0.1 true 0 250 [] = (Ok lut, calls)
    /\ length lut = 4%nat
    /\ Elev <$> lut !! 0%nat = Some 0%float
    /\ calls = (fun e =>
                  {| callAeroProfile := tt; callAtmosProfile := tt;
                     callGrdRefl := tt;
                     callSurfaceAltitude := PrimFloat.div (Elev e) 1000;
                     callAotVal := 0.1%float; callUseBRDF := true |}) <$> lut.
Proof.
  pose proof (buildElevation6SCoeffLUT_grid (Sensor6S0 := Examples.demoSensor)
                tt tt tt true 0.1 0 250) as Hgrid.
  cbv zeta in Hgrid.
  change (F64.ceilZ (PrimFloat.div (PrimFloat.sub 250 0) 100))
    with (Ok 3%Z) in Hgrid.
  destruct Hgrid as (lut & calls & Hrun & Hlen & _ & Hfirst & _ & Hcalls & _).
  exists lut, calls. split; [exact Hrun|]. split; [exact Hlen|].
  split; [apply Hfirst; lia | exact Hcalls].
Defined.

(** At 8.04 .. 108.04 the binary64 difference is exactly 100, so the table
    has two entries, and the second one, the binary64 sum [8.04 + 100], is
    below the maximum. *)
Lemma buildElevation6SCoeffLUT_stops_below_max :
  let run :=
    buildElevation6SCoeffLUT (Sensor6S0 := Examples.demoSensor) tt tt tt
      0.1 true 8.04 108.04 [] in
  PrimFloat.leb 8.04 108.04 = true
  /\ F64.ceilZ (PrimFloat.div (PrimFloat.sub 108.04 8.04) 100) = Ok 1%Z
  /\ match run.1 with
     | Ok lut => Some (Elev <$> lut)
     | Raise _ => None
     end = Some [8.04%float; 108.03999999999999%float]
  /\ PrimFloat.add 8.04 100 = 108.03999999999999%float
  /\ PrimFloat.ltb 108.03999999999999 108.04 = true
  /\ PrimFloat.leb 108.04 108.03999999999999 = false.
Proof. cbv zeta. split_and!; vm_compute; reflexivity. Qed.

(** At altitudes of the order of 1e19 adding 100 changes nothing: the
    elevations of the table are all equal. *)
Lemma buildElevation6SCoeffLUT_repeats_large_altitude :
  let run :=
    buildElevation6SCoeffLUT (Sensor6S0 := Examples.demoSensor) tt tt tt
      0.1 true 1e19 10000000000000004096 [] in
  PrimFloat.ltb 1e19 10000000000000004096 = true
  /\ PrimFloat.add 1e19 100 = 1e19%float
  /\ match run.1 with
     | Ok lut => Some (Elev <$> lut)
     | Raise _ => None
     end = Some (replicate 42 1e19%float).
Proof. cbv zeta. split_and!; vm_compute; reflexivity. Qed.


(** The count is that of the binary64 quotient, not of the exact one: at
    0.05 .. 0.2 the quotient rounds to 3.0000000000000004, so every
    elevation holds 6 AOT entries, the last one 0.3, where the exact
    quotient of the same two doubles is 3 and would give 5. *)
Lemma buildElevationAOT6SCoeffLUT_rounded_count :
  let run :=
    buildElevationAOT6SCoeffLUT (Sensor6S0 := Examples.demoSensor) tt tt tt
      true 0 0 0.05 0.2 [] in
  PrimFloat.div (PrimFloat.sub 0.2 0.05) 0.05 = 3.0000000000000004%float
  /\ F64.ceilZ (PrimFloat.div (PrimFloat.sub 0.2 0.05) 0.05) = Ok 4%Z
  /\ Qceiling ((F64.toQ 0.2 - F64.toQ 0.05) / F64.toQ 0.05) = 3%Z
  /\ match run.1 with
     | Ok lut =>
         Some ((fun e : ElevLUTFeat (list (AOTLUTFeat (float * float))) =>
                  AOT <$> Coeffs e) <$> lut)
     | Raise _ => None
     end
     = Some [[0.05%float; 0.1%float; 0.15000000000000002%float; 0.2%float;
              0.25%float; 0.3%float]].
Proof. cbv zeta. split_and!; vm_compute; reflexivity. Qed.

Lemma buildElevationAOT6SCoeffLUT_calls_witness :
  let run :=
    buildElevationAOT6SCoeffLUT (Sensor6S0 := Examples.demoSensor) tt tt tt
      true 0 250 0.05 0.2 [] in
  length run.2 = 24%nat.
Proof.
  pose proof (buildElevationAOT6SCoeffLUT_calls
                (Sensor6S0 := Examples.demoSensor) tt tt tt true
                0 250 0.05 0.2) as Hcalls.
  cbv zeta in *.
  destruct (buildElevationAOT6SCoeffLUT tt tt tt true 0 250 0.05 0.2 []).1
    as [lut|e] eqn:Hrun.
  - destruct Hcalls as [_ Hlen]. exact (Hlen 3%Z 4%Z eq_refl eq_refl).
  - by rewrite Hcalls.
Defined.

(* ===================================================================== *)
(** * The dark-target retry loop                                          *)
(* ===================================================================== *)

Section DarkTargetFacts.
Context {Image : Type} `{!RasterEngine Image}.
Variables (inputTOAImage : Image) (band : Z) (histBinWidth : Q).
Variables (minObjSize : Z) (bandHist : list Q) (sumPxls : Q).

(** The threshold a percentile leads to, and the rows of the attribute
    table found with that threshold. *)
Let thresholdAt (p : Q) : Q :=
  scanHistogram bandHist (sumPxls * p) histBinWidth 0 0.
Let rowsAt (p : Q) : nat :=
  length (darkObjectsHistogram inputTOAImage band (thresholdAt p) minObjSize).

Lemma retryPercentile_succ (k : nat) (p : Q) :
  retryPercentile (S k) p = retryPercentile k (p * 2).
Proof. exact (Nat.iter_succ_r k (fun v => v * 2) p). Qed.

Lemma findTargetsLoop_S (fuel : nat) (p : Q) :
  findTargetsLoop (S fuel) inputTOAImage band histBinWidth minObjSize bandHist
    sumPxls p
  = if (10 <? rowsAt p)%nat then Some (thresholdAt p, p)
    else findTargetsLoop fuel inputTOAImage band histBinWidth minObjSize
           bandHist sumPxls (p * 2).
Proof. reflexivity. Qed.

(** A retry that finds more than ten rows is reached, or an earlier one
    stops the loop: [S k] iterations are enough. *)
Lemma findTargetsLoop_reaches (k : nat) (p : Q) :
  (10 < rowsAt (retryPercentile k p))%nat ->
  is_Some (findTargetsLoop (S k) inputTOAImage band histBinWidth minObjSize
             bandHist sumPxls p).
Proof.
  revert p. induction k as [|k IH]; intros p Hrows; rewrite findTargetsLoop_S.
  - change (retryPercentile 0 p) with p in Hrows.
    apply Nat.ltb_lt in Hrows as ->. by eexists.
  - rewrite retryPercentile_succ in Hrows. apply IH in Hrows.
    destruct (10 <? rowsAt p)%nat; [by eexists | exact Hrows].
Qed.

(** The loop stops at the first retry that finds more than ten rows, with
    the threshold and the percentile of that retry. *)
Lemma findTargetsLoop_first (k : nat) (p : Q) (fuel : nat) :
  (forall j, (j < k)%nat -> (rowsAt (retryPercentile j p) <= 10)%nat) ->
  (10 < rowsAt (retryPercentile k p))%nat ->
  (k < fuel)%nat ->
  findTargetsLoop fuel inputTOAImage band histBinWidth minObjSize bandHist
    sumPxls p
  = Some (thresholdAt (retryPercentile k p), retryPercentile k p).
Proof.
  revert p fuel. induction k as [|k IH]; intros p fuel Hbefore Hrows Hfuel;
    (destruct fuel as [|fuel]; [lia|]); rewrite findTargetsLoop_S.
  - change (retryPercentile 0 p) with p in *.
    by apply Nat.ltb_lt in Hrows as ->.
  - pose proof (Hbefore 0%nat ltac:(lia)) as H0.
    change (retryPercentile 0 p) with p in H0.
    apply Nat.ltb_ge in H0 as ->.
    rewrite retryPercentile_succ in *.
    apply IH; [|done|lia].
    intros j Hj. rewrite <- retryPercentile_succ. apply Hbefore. lia.
Qed.

(** When the loop stops, some retry within the fuel found more than ten
    rows. *)
Lemma findTargetsLoop_Some (fuel : nat) (p : Q) (r : Q * Q) :
  findTargetsLoop fuel inputTOAImage band histBinWidth minObjSize bandHist
    sumPxls p = Some r ->
  exists k, (k < fuel)%nat /\ (10 < rowsAt (retryPercentile k p))%nat.
Proof.
  revert p. induction fuel as [|fuel IH]; intros p Hrun; [done|].
  rewrite findTargetsLoop_S in Hrun.
  destruct (10 <? rowsAt p)%nat eqn:Hrows.
  - exists 0%nat. split; [lia|]. by apply Nat.ltb_lt.
  - apply IH in Hrun as (k & Hk & Hfound).
    exists (S k). split; [lia|]. by rewrite retryPercentile_succ.
Qed.

End DarkTargetFacts.

Section DarkTargetTermination.
Context {Image : Type} `{!RasterEngine Image}.

Lemma darkTargetLoopTerminates_iff (inputTOAImage : Image) (band : Z)
    (histBinWidth : Q) (minObjSize : Z) (darkPxlPercentile : Q) :
  darkTargetLoopTerminates inputTOAImage band histBinWidth minObjSize
    darkPxlPercentile
  <-> exists k, (10 < retryRows inputTOAImage band histBinWidth minObjSize
                        darkPxlPercentile k)%nat.
Proof.
  unfold darkTargetLoopTerminates, calcDarkTargetOffsetsForBand, retryRows.
  split.
  - intros (fuel & r & Hrun).
    apply findTargetsLoop_Some in Hrun as (k & _ & Hk). by exists k.
  - intros (k & Hk). exists (S k). by apply findTargetsLoop_reaches.
Qed.

(** C5, as the code has it.  The retry loop of
    [calcDarkTargetOffsetsForBand] has no cap: it terminates exactly when
    some retry, with the percentile doubled [k] times, finds an attribute
    table of more than ten rows, and it then stops at the first such retry,
    after [k + 1] passes, with the percentile of that retry. *)
Theorem calcDarkTargetOffsetsForBand_terminates_iff (inputTOAImage : Image)
    (band : Z) (histBinWidth : Q) (minObjSize : Z) (darkPxlPercentile : Q) :
  (darkTargetLoopTerminates inputTOAImage band histBinWidth minObjSize
     darkPxlPercentile
   <-> exists k, (10 < retryRows inputTOAImage band histBinWidth minObjSize
                         darkPxlPercentile k)%nat)
  /\ (forall k,
        (forall j, (j < k)%nat ->
           (retryRows inputTOAImage band histBinWidth minObjSize
              darkPxlPercentile j <= 10)%nat) ->
        (10 < retryRows inputTOAImage band histBinWidth minObjSize
                darkPxlPercentile k)%nat ->
        exists pxlThreshold,
          calcDarkTargetOffsetsForBand (S k) inputTOAImage band histBinWidth
            minObjSize darkPxlPercentile
          = Some (pxlThreshold, retryPercentile k darkPxlPercentile)).
Proof.
  split; [apply darkTargetLoopTerminates_iff|].
  intros k Hbefore Hrows. eexists.
  unfold calcDarkTargetOffsetsForBand.
  apply findTargetsLoop_first; [exact Hbefore | exact Hrows | lia].
Qed.

End DarkTargetTermination.

Lemma calcDarkTargetOffsetsForBand_terminates_iff_witness :
  darkTargetLoopTerminates (RasterEngine0 := Examples.evenEngine) tt 1 1 5 0.01
  /\ calcDarkTargetOffsetsForBand (RasterEngine0 := Examples.evenEngine) 7 tt
       1 1 5 0.01
     = Some (12, retryPercentile 6 0.01).
Proof.
  destruct (calcDarkTargetOffsetsForBand_terminates_iff
              (RasterEngine0 := Examples.evenEngine) tt 1 1 5 0.01)
    as [Hiff Hfirst].
  split.
  - apply Hiff. exists 6%nat. vm_compute. lia.
  - destruct (Hfirst 6%nat) as [t Ht].
    + intros j Hj.
      do 6 (destruct j as [|j]; [vm_compute; lia|]). lia.
    + vm_compute. lia.
    + rewrite Ht. f_equal. f_equal.
      assert (Hrun : calcDarkTargetOffsetsForBand
                       (RasterEngine0 := Examples.evenEngine) 7 tt 1 1 5 0.01
                     = Some (12, retryPercentile 6 0.01)) by reflexivity.
      rewrite Ht in Hrun. by injection Hrun.
Defined.

(** A band without valid pixels never gets out of the retry loop: no amount
    of fuel makes it stop. *)
Lemma calcDarkTargetOffsetsForBand_nodata_diverges :
  ~ darkTargetLoopTerminates (RasterEngine0 := Examples.nodataEngine) tt 1 1
      5 0.01.
Proof.
  rewrite darkTargetLoopTerminates_iff. intros [k Hk].
  unfold retryRows in Hk.
  cbn [darkObjectsHistogram Examples.nodataEngine length] in Hk. lia.
Qed.

(* ===================================================================== *)
(** * Dark-object subtraction                                             *)
(* ===================================================================== *)

Lemma mapM_zip_with_Some {A B C D : Type} (f : C -> option D) (g : A -> B -> C)
    (h : A -> B -> D) (l1 : list A) (l2 : list B) :
  (forall a b, f (g a b) = Some (h a b)) ->
  mapM f (zip_with g l1 l2) = Some (zip_with h l1 l2).
Proof.
  intros Hf. revert l2. induction l1 as [|a l1 IH]; intros [|b l2]; try done.
  cbn [zip_with mapM]. rewrite Hf, IH. done.
Qed.

(** The DOS expression evaluates, at a pixel that binds [TOA] and [Off], to
    [dosValue]. *)
Lemma evalBandExpr_dosExpression (dosOutRefl toa off : Q) :
  evalBandExpr (<["TOA" := toa]> (<["Off" := off]> ∅))
    (dosExpression dosOutRefl)
  = Some (dosValue dosOutRefl toa off).
Proof.
  unfold dosExpression, dosValue. cbn [evalBandExpr].
  rewrite lookup_insert_eq, lookup_insert_ne, lookup_insert_eq by done.
  cbn [mbind option_bind].
  destruct (Qeq_bool toa 0); cbn [ofBool]; [done|].
  change (Qeq_bool 0 0) with true. cbn iota.
  by destruct (Qle_bool (toa - off + dosOutRefl) 0).
Qed.

Lemma dosValue_nodata (dosOutRefl toa off : Q) :
  toa == 0 -> dosValue dosOutRefl toa off = 0.
Proof. intros Hz. unfold dosValue. by apply Qeq_bool_iff in Hz as ->. Qed.

Lemma dosValue_floor (dosOutRefl toa off : Q) :
  ~ toa == 0 -> toa - off + dosOutRefl <= 0 -> dosValue dosOutRefl toa off = 1.
Proof.
  intros Hnz Hle. unfold dosValue. rewrite Qeq_bool_false by done.
  by apply Qle_bool_iff in Hle as ->.
Qed.

Section DOSFacts.
Context `{RasterWriter}.

(** The output image holds, per pixel, what the writer stores in a 16-bit
    image for the value of the expression. *)
Lemma performDOSOnSingleBand_run (toaBand offsetImage : list Q)
    (dosOutRefl : Q) :
  performDOSOnSingleBand toaBand offsetImage dosOutRefl
  = Some (zip_with
            (fun off toa => storePixel TYPE_16UINT (dosValue dosOutRefl toa off))
            offsetImage toaBand).
Proof.
  unfold performDOSOnSingleBand, bandMath, dosPixels.
  apply mapM_zip_with_Some. intros off toa.
  by rewrite evalBandExpr_dosExpression.
Qed.

(** C1, as the code has it.  With a writer that stores the values 0 and 1
    unchanged in a 16-bit image, [performDOSOnSingleBand] and
    [performLocalDOSOnSingleBand] write one value per pixel: 0 where the
    TOA value is 0, whatever the offset; and 1, not [dosOutRefl], where the
    TOA value is not 0 and [TOA - Off + dosOutRefl] is at most 0, so
    wherever the TOA value lies below [Off - dosOutRefl]. *)
Theorem performDOSOnSingleBand_pixels (toaBand offsetImage : list Q)
    (dosOutRefl : Q) :
  storePixel TYPE_16UINT 0 = 0 ->
  storePixel TYPE_16UINT 1 = 1 ->
  exists out : list Q,
    performDOSOnSingleBand toaBand offsetImage dosOutRefl = Some out
    /\ performLocalDOSOnSingleBand toaBand offsetImage dosOutRefl = Some out
    /\ length out = (length offsetImage `min` length toaBand)%nat
    /\ forall (i : nat) (toa off : Q),
         toaBand !! i = Some toa -> offsetImage !! i = Some off ->
         exists v, out !! i = Some v
           /\ (toa == 0 -> v = 0)
           /\ (~ toa == 0 -> toa - off + dosOutRefl <= 0 -> v = 1)
           /\ (~ toa == 0 -> toa < off - dosOutRefl -> v = 1).
Proof.
  intros Hzero Hone.
  eexists. split; [apply performDOSOnSingleBand_run|].
  split; [apply performDOSOnSingleBand_run|].
  split; [apply length_zip_with|].
  intros i toa off Htoa Hoff. eexists. split.
  - rewrite lookup_zip_with, Hoff. cbn [mbind option_bind]. rewrite Htoa.
    reflexivity.
  - split_and!.
    + intros Hz. by rewrite dosValue_nodata.
    + intros Hnz Hle. by rewrite dosValue_floor.
    + intros Hnz Hlt. rewrite dosValue_floor; [done|done|lra].
Qed.

End DOSFacts.

Lemma performDOSOnSingleBand_pixels_witness :
  storePixel (RasterWriter := Examples.roundingWriter) TYPE_16UINT 0 = 0
  /\ storePixel (RasterWriter := Examples.roundingWriter) TYPE_16UINT 1 = 1
  /\ exists out : list Q,
       performDOSOnSingleBand (H := Examples.roundingWriter)
         [0; 5; 130] [100; 100; 100] 20 = Some out
       /\ out !! 0%nat = Some 0 /\ out !! 1%nat = Some 1.
Proof.
  split; [reflexivity|]. split; [reflexivity|].
  destruct (performDOSOnSingleBand_pixels (H := Examples.roundingWriter)
              [0; 5; 130] [100; 100; 100] 20 eq_refl eq_refl)
    as (out & Hrun & _ & _ & Hpx).
  exists out. split; [exact Hrun|]. split.
  - destruct (Hpx 0%nat 0 100 eq_refl eq_refl) as (v & Hv & Hnodata & _).
    rewrite Hv. f_equal. apply Hnodata. reflexivity.
  - destruct (Hpx 1%nat 5 100 eq_refl eq_refl) as (v & Hv & _ & _ & Hfloor).
    rewrite Hv. f_equal. apply Hfloor; easy.
Defined.

(** A pixel of TOA value 5 under the offset 100 lies below
    [Off - dosOutRefl = 80]; the value of the expression there is 1, and 1
    is what a writer that rounds to 16 bits stores, not the floor 20. *)
Lemma performDOSOnSingleBand_floor_is_one :
  5 < 100 - 20
  /\ evalBandExpr (<["TOA" := 5]> (<["Off" := 100]> ∅)) (dosExpression 20)
     = Some 1
  /\ performDOSOnSingleBand (H := Examples.roundingWriter) [5] [100] 20
     = Some [1]
  /\ performLocalDOSOnSingleBand (H := Examples.roundingWriter) [5] [100] 20
     = Some [1]
  /\ ~ 1 == 20.
Proof.
  split_and!; [reflexivity | vm_compute; reflexivity | vm_compute; reflexivity
              | vm_compute; reflexivity | easy].
Qed.

(* ===================================================================== *)
(** * The AOT search                                                      *)
(* ===================================================================== *)

(** A range of width zero asks for one test. *)
Lemma numAOTValTests_same (a : float) :
  F64.is_finite a = true -> numAOTValTests a a = Ok 1%Z.
Proof.
  intros Hfin. unfold numAOTValTests. by rewrite F64_sub_self.
Qed.

Section AOTFacts.
Context {Aero Atmos GrdRefl CoeffSet : Type}.
Context `{!Sensor6S Aero Atmos GrdRefl CoeffSet}.
Variables (roi : DarkROI) (bandOff : float).
Variables (aeroProfile : Aero) (atmosProfile : Atmos) (grdRefl : GrdRefl).
Variables (aotValMin dosOutRefl : float).

(** The distance the solver reports for a candidate, and candidate [j]. *)
Let objective (cAOT : float) : float :=
  run6SToOptimiseAODValue cAOT (radVal roi)
    (darkObjectRefl roi bandOff dosOutRefl) aeroProfile atmosProfile grdRefl
    (PrimFloat.div (elevVal roi) 1000).
Let candidate (j : Z) : float :=
  PrimFloat.add aotValMin (PrimFloat.mul 0.05 (F64.of_Z j)).

(** The estimator raises when [math.ceil] does, or when the number of
    tests is below 1. *)
Lemma estimateSingleAOTFromDOSBandImpl_raises_iff (aotValMax : float) :
  raises (estimateSingleAOTFromDOSBandImpl roi bandOff aeroProfile
            atmosProfile grdRefl aotValMin aotValMax dosOutRefl)
  <-> match numAOTValTests aotValMin aotValMax with
      | Ok n => (n < 1)%Z
      | Raise _ => True
      end.
Proof.
  unfold estimateSingleAOTFromDOSBandImpl.
  destruct (numAOTValTests aotValMin aotValMax) as [n|e];
    cbn [mbind result_bind]; [|done].
  destruct (1 <=? n)%Z eqn:E; cbn [negb].
  - apply Z.leb_le in E.
    destruct (foldl _ _ _) as [minAOT minDist]. cbn [raises]. lia.
  - apply Z.leb_gt in E. cbn [raises]. tauto.
Qed.

(** After [S m] candidates the loop holds the first candidate of least
    distance among them: no candidate seen compares below it, and none
    before it compares below or equal. *)
Lemma aotSearch_invariant (m : nat) :
  exists j : Z,
    (0 <= j < Z.of_nat (S m))%Z
    /\ foldl (aotSearchStep objective aotValMin) (0%float, 0%float)
         (Py.range (Z.of_nat (S m)))
       = (candidate j, objective (candidate j))
    /\ (forall k : Z, (0 <= k < Z.of_nat (S m))%Z ->
          PrimFloat.ltb (objective (candidate k)) (objective (candidate j))
          = false)
    /\ (forall k : Z, (0 <= k < j)%Z ->
          PrimFloat.leb (objective (candidate k)) (objective (candidate j))
          = false).
Proof.
  unfold Py.range. induction m as [|m (j & Hj & Hrun & Hmin & Hfirst)].
  - exists 0%Z. split; [lia|]. split; [reflexivity|]. split.
    + intros k Hk. replace k with 0%Z by lia. apply F64_ltb_irrefl.
    + intros k Hk. lia.
  - rewrite (seqZ_S 0 (S m)), foldl_app, Hrun, Z.add_0_l.
    cbn [foldl]. unfold aotSearchStep at 1.
    replace (Z.of_nat (S m) =? 0)%Z with false by (symmetry; apply Z.eqb_neq; lia).
    fold (candidate (Z.of_nat (S m))).
    destruct (PrimFloat.ltb (objective (candidate (Z.of_nat (S m))))
                (objective (candidate j))) eqn:Hcmp.
    + exists (Z.of_nat (S m)). split; [lia|]. split; [reflexivity|]. split.
      * intros k Hk. destruct (decide (k = Z.of_nat (S m))) as [->|Hne].
        -- apply F64_ltb_irrefl.
        -- apply not_true_is_false. intros Hlt.
           pose proof (F64_ltb_trans _ _ _ Hlt Hcmp) as Hkj.
           rewrite Hmin in Hkj by lia. discriminate.
      * intros k Hk. apply not_true_is_false. intros Hle.
        pose proof (F64_leb_ltb_trans _ _ _ Hle Hcmp) as Hkj.
        rewrite Hmin in Hkj by lia. discriminate.
    + exists j. split; [lia|]. split; [reflexivity|]. split; [|done].
      intros k Hk. destruct (decide (k = Z.of_nat (S m))) as [->|Hne]; [done|].
      apply Hmin. lia.
Qed.

(** C7. When the guard lets the range through, with [n] tests counted as
    the code counts them, the estimator returns candidate [j], that is the
    binary64 value of [aotValMin + 0.05 * j], for an index [j] below [n];
    no candidate has a smaller distance ([cDist < minDist] fails for each
    of them, so the distance of [j] is at most theirs where both are
    numbers), and for no candidate before [j] is the distance smaller or
    equal, so of equal minima the first is kept. *)
Theorem estimateSingleAOTFromDOSBandImpl_first_minimum (aotValMax : float)
    (n : Z) :
  numAOTValTests aotValMin aotValMax = Ok n ->
  (1 <= n)%Z ->
  exists j : Z,
    (0 <= j < n)%Z
    /\ estimateSingleAOTFromDOSBandImpl roi bandOff aeroProfile atmosProfile
         grdRefl aotValMin aotValMax dosOutRefl
       = Ok (PrimFloat.add aotValMin (PrimFloat.mul 0.05 (F64.of_Z j)))
    /\ (forall k : Z, (0 <= k < n)%Z ->
          let dist_j :=
            objective
              (PrimFloat.add aotValMin (PrimFloat.mul 0.05 (F64.of_Z j))) in
          let dist_k :=
            objective
              (PrimFloat.add aotValMin (PrimFloat.mul 0.05 (F64.of_Z k))) in
          PrimFloat.ltb dist_k dist_j = false
          /\ (PrimFloat.is_nan dist_j = false ->
              PrimFloat.is_nan dist_k = false ->
              PrimFloat.leb dist_j dist_k = true))
    /\ (forall k : Z, (0 <= k < j)%Z ->
          PrimFloat.leb
            (objective
               (PrimFloat.add aotValMin (PrimFloat.mul 0.05 (F64.of_Z k))))
            (objective
               (PrimFloat.add aotValMin (PrimFloat.mul 0.05 (F64.of_Z j))))
          = false).
Proof.
  intros Hcount Hn. unfold estimateSingleAOTFromDOSBandImpl.
  rewrite Hcount. cbn [mbind result_bind].
  apply Z.leb_le in Hn as Hguard. rewrite Hguard. cbn [negb].
  fold objective.
  destruct (aotSearch_invariant (Z.to_nat n - 1))
    as (j & Hj & Hrun & Hmin & Hfirst).
  replace (Z.of_nat (S (Z.to_nat n - 1))) with n in * by lia.
  exists j. rewrite Hrun. split; [done|]. split; [done|]. split; [|done].
  intros k Hk. cbv zeta. split; [by apply Hmin|].
  intros Hj_num Hk_num. apply F64_leb_total; [by apply Hmin|done|done].
Qed.

(** C4, at the failing input.  A range of width zero passes the guard,
    although its bounds are not 0.05 apart as the message of the guard
    demands: the number of tests is 1 and the lower bound is returned. *)
Theorem estimateSingleAOTFromDOSBandImpl_accepts_empty_range :
  F64.is_finite aotValMin = true ->
  numAOTValTests aotValMin aotValMin = Ok 1%Z
  /\ ~ raises (estimateSingleAOTFromDOSBandImpl roi bandOff aeroProfile
                 atmosProfile grdRefl aotValMin aotValMin dosOutRefl)
  /\ estimateSingleAOTFromDOSBandImpl roi bandOff aeroProfile atmosProfile
       grdRefl aotValMin aotValMin dosOutRefl
     = Ok (PrimFloat.add aotValMin (PrimFloat.mul 0.05 (F64.of_Z 0))).
Proof.
  intros Hfin. pose proof (numAOTValTests_same aotValMin Hfin) as Hn.
  split; [exact Hn|]. split.
  - rewrite estimateSingleAOTFromDOSBandImpl_raises_iff, Hn. lia.
  - unfold estimateSingleAOTFromDOSBandImpl. rewrite Hn. reflexivity.
Qed.

End AOTFacts.

Lemma estimateSingleAOTFromDOSBandImpl_first_minimum_witness :
  numAOTValTests 0.05 0.2 = Ok 5%Z
  /\ (1 <= 5)%Z
  /\ (exists j : Z,
        (0 <= j < 5)%Z
        /\ estimateSingleAOTFromDOSBandImpl (Sensor6S0 := Examples.demoSensor)
             Examples.demoROI 40 tt tt tt 0.05 0.2 20
           = Ok (PrimFloat.add 0.05 (PrimFloat.mul 0.05 (F64.of_Z j))))
  /\ estimateSingleAOTFromDOSBandImpl (Sensor6S0 := Examples.demoSensor)
       Examples.demoROI 40 tt tt tt 0.05 0.2 20
     = Ok (PrimFloat.add 0.05 (PrimFloat.mul 0.05 (F64.of_Z 2))).
Proof.
  split; [reflexivity|]. split; [lia|]. split; [|reflexivity].
  destruct (estimateSingleAOTFromDOSBandImpl_first_minimum
              (Sensor6S0 := Examples.demoSensor) Examples.demoROI 40 tt tt tt
              0.05 20 0.2 5 eq_refl ltac:(lia)) as (j & Hj & Hrun & _ & _).
  exists j. split; [exact Hj | exact Hrun].
Defined.

Lemma estimateSingleAOTFromDOSBandImpl_accepts_empty_range_witness :
  F64.is_finite 0.5 = true
  /\ numAOTValTests 0.5 0.5 = Ok 1%Z
  /\ estimateSingleAOTFromDOSBandImpl (Sensor6S0 := Examples.demoSensor)
       Examples.demoROI 40 tt tt tt 0.5 0.5 20
     = Ok (PrimFloat.add 0.5 (PrimFloat.mul 0.05 (F64.of_Z 0))).
Proof.
  split; [reflexivity|].
  destruct (estimateSingleAOTFromDOSBandImpl_accepts_empty_range
              (Sensor6S0 := Examples.demoSensor) Examples.demoROI 40 tt tt tt
              0.5 20 eq_refl) as (Hn & _ & Hrun).
  split; [exact Hn | exact Hrun].
Defined.

(** The candidates are counted with the binary64 quotient: at 0.05 .. 0.2
    it rounds to 3.0000000000000004, so five candidates are tried and the
    fifth one, 0.25, lies above [aotValMax]; at 0.5 .. 0.45 it lies above
    -1, so one candidate is tried and nothing is raised. *)
Lemma numAOTValTests_rounded_count :
  numAOTValTests 0.05 0.2 = Ok 5%Z
  /\ Qceiling ((F64.toQ 0.2 - F64.toQ 0.05) / F64.toQ 0.05) = 3%Z
  /\ PrimFloat.add 0.05 (PrimFloat.mul 0.05 (F64.of_Z 4)) = 0.25%float
  /\ PrimFloat.ltb 0.2 0.25 = true
  /\ numAOTValTests 0.5 0.45 = Ok 1%Z
  /\ estimateSingleAOTFromDOSBandImpl (Sensor6S0 := Examples.demoSensor)
       Examples.demoROI 40 tt tt tt 0.5 0.45 20
     = Ok 0.5%float.
Proof. split_and!; vm_compute; reflexivity. Qed.

(* ===================================================================== *)
(** * The point interpolator                                              *)
(* ===================================================================== *)

Lemma lookup_np_where {A : Type} (cond : list bool) (a b : list A) (i : nat)
    (c : bool) (x y : A) :
  cond !! i = Some c -> a !! i = Some x -> b !! i = Some y ->
  np_where cond a b !! i = Some (if c then x else y).
Proof.
  intros Hc Ha Hb. unfold np_where.
  rewrite lookup_zip_with, Hc. cbn [mbind option_bind].
  rewrite lookup_zip_with, Ha. cbn [mbind option_bind]. rewrite Hb.
  reflexivity.
Qed.

Lemma length_np_where {A : Type} (cond : list bool) (a b : list A) :
  length cond = length a -> length a = length b ->
  length (np_where cond a b) = length a.
Proof.
  intros Hc Hb. unfold np_where.
  rewrite length_zip_with, length_zip_with. lia.
Qed.

Section InterpolationFacts.
Context `{GridInterpolator}.
Variables (xVals yVals zVals : list Q).
Variables (notNegOut : bool) (notNegMinVal : fval).

Lemma length_interpolateBlock (pxlCoords : list (Q * Q)) :
  length (interpolateBlock xVals yVals zVals notNegOut notNegMinVal pxlCoords)
  = length pxlCoords.
Proof.
  unfold interpolateBlock.
  assert (Hblend : length (np_where
                     (isnan <$> (griddata xVals yVals zVals cubic <$> pxlCoords))
                     (griddata xVals yVals zVals nearest <$> pxlCoords)
                     (griddata xVals yVals zVals cubic <$> pxlCoords))
                   = length pxlCoords)
    by (rewrite length_np_where; by rewrite !length_fmap).
  destruct notNegOut; [|exact Hblend].
  rewrite length_np_where; rewrite ?length_replicate, ?length_fmap; done.
Qed.

Lemma lookup_interpolateBlock (pxlCoords : list (Q * Q)) (i : nat) (p : Q * Q) :
  pxlCoords !! i = Some p ->
  interpolateBlock xVals yVals zVals notNegOut notNegMinVal pxlCoords !! i
  = Some (clamp notNegOut notNegMinVal
            (blend (griddata xVals yVals zVals nearest p)
                   (griddata xVals yVals zVals cubic p))).
Proof.
  intros Hp. unfold interpolateBlock.
  set (nn := griddata xVals yVals zVals nearest).
  set (cub := griddata xVals yVals zVals cubic).
  assert (Hblend : np_where (isnan <$> (cub <$> pxlCoords)) (nn <$> pxlCoords)
                     (cub <$> pxlCoords) !! i
                   = Some (blend (nn p) (cub p))).
  { apply lookup_np_where; by rewrite !list_lookup_fmap, Hp. }
  unfold clamp. destruct notNegOut; cbn [andb]; [|exact Hblend].
  apply (lookup_np_where _ _ _ i (ltZero (blend (nn p) (cub p)))).
  - by rewrite list_lookup_fmap, Hblend.
  - apply lookup_replicate_2. apply lookup_lt_Some in Hblend. done.
  - exact Hblend.
Qed.

(** C8. Every pixel of every block gets a value.  Without the clamp it is
    the cubic value where that is a number and the nearest-neighbour value
    where the cubic value is NaN.  With [notNegOut] the same holds where
    that value is a number that is not negative, and a negative number is
    replaced by [notNegMinVal].  When the nearest-neighbour value and
    [notNegMinVal] are numbers, so is the output. *)
Theorem interpolateImageFromPointData_pixel
    (templateInImage : list (list (Q * Q))) (b i : nat)
    (pxlCoords : list (Q * Q)) (p : Q * Q) :
  templateInImage !! b = Some pxlCoords ->
  pxlCoords !! i = Some p ->
  let nn := griddata xVals yVals zVals nearest p in
  let cub := griddata xVals yVals zVals cubic p in
  exists (out : list fval) (v : fval),
    interpolateImageFromPointData templateInImage xVals yVals zVals notNegOut
      notNegMinVal !! b = Some out
    /\ length out = length pxlCoords
    /\ out !! i = Some v
    /\ (notNegOut = false -> cub <> NaN -> v = cub)
    /\ (notNegOut = false -> cub = NaN -> v = nn)
    /\ (notNegOut = true ->
        forall q : Q, cub = Num q ->
          (0 <= q -> v = Num q) /\ (q < 0 -> v = notNegMinVal))
    /\ (notNegOut = true -> cub = NaN ->
        forall q : Q, nn = Num q ->
          (0 <= q -> v = Num q) /\ (q < 0 -> v = notNegMinVal))
    /\ (nn <> NaN -> notNegMinVal <> NaN -> v <> NaN).
Proof.
  intros Hblk Hp nn cub. unfold interpolateImageFromPointData.
  rewrite list_lookup_fmap, Hblk. cbn [fmap option_fmap option_map].
  do 2 eexists. split; [reflexivity|].
  split; [apply length_interpolateBlock|].
  split; [by apply lookup_interpolateBlock|].
  fold nn cub. unfold clamp, blend. split_and!.
  - intros -> Hc. by destruct cub.
  - by intros -> ->.
  - intros -> q ->. cbn [isnan andb ltZero]. split.
    + intros Hq. apply Qlt_bool_false_iff in Hq. by rewrite Hq.
    + intros Hq. apply Qlt_bool_iff in Hq. by rewrite Hq.
  - intros -> -> q ->. cbn [isnan andb ltZero]. split.
    + intros Hq. apply Qlt_bool_false_iff in Hq. by rewrite Hq.
    + intros Hq. apply Qlt_bool_iff in Hq. by rewrite Hq.
  - intros Hnn Hmin.
    destruct (notNegOut && ltZero (if isnan cub then nn else cub)); [done|].
    by destruct cub.
Qed.

End InterpolationFacts.

(** Two pixels of one block: at (0.5, 0.25), inside the samples, the cubic
    value is -0.25 and the floor 0 is written instead; at (3, 3), outside
    them, the cubic value is NaN and the nearest-neighbour value 7 is
    written. *)
Lemma interpolateImageFromPointData_pixel_witness :
  griddata (GridInterpolator := Examples.unitSquareInterp)
    [0; 1; 0; 1] [0; 0; 1; 1] [7; 8; 9; 10] cubic (0.5, 0.25)
  = Num (0.5 + 0.25 - 1)
  /\ 0.5 + 0.25 - 1 < 0
  /\ exists (out : list fval),
    interpolateImageFromPointData (H := Examples.unitSquareInterp)
      [[(0.5, 0.25); (3, 3)]] [0; 1; 0; 1] [0; 0; 1; 1] [7; 8; 9; 10] true
      (Num 0) !! 0%nat = Some out
    /\ out !! 0%nat = Some (Num 0)
    /\ out !! 1%nat = Some (Num 7).
Proof.
  split; [reflexivity|]. split; [reflexivity|].
  destruct (interpolateImageFromPointData_pixel (H := Examples.unitSquareInterp)
              [0; 1; 0; 1] [0; 0; 1; 1] [7; 8; 9; 10] true (Num 0)
              [[(0.5, 0.25); (3, 3)]] 0 0 [(0.5, 0.25); (3, 3)] (0.5, 0.25)
              eq_refl eq_refl)
    as (out & v & Hout & _ & Hv & _ & _ & Hcub & _ & _).
  destruct (interpolateImageFromPointData_pixel (H := Examples.unitSquareInterp)
              [0; 1; 0; 1] [0; 0; 1; 1] [7; 8; 9; 10] true (Num 0)
              [[(0.5, 0.25); (3, 3)]] 0 1 [(0.5, 0.25); (3, 3)] (3, 3)
              eq_refl eq_refl)
    as (out' & v' & Hout' & _ & Hv' & _ & _ & _ & Hnn & _).
  exists out. split; [exact Hout|]. split.
  - rewrite Hv. f_equal.
    exact (proj2 (Hcub eq_refl (0.5 + 0.25 - 1) eq_refl) eq_refl).
  - rewrite Hout in Hout'. injection Hout' as <-. rewrite Hv'. f_equal.
    apply (proj1 (Hnn eq_refl eq_refl 7 eq_refl)). easy.
Defined.

(* ===================================================================== *)
(** * The default output base name                                        *)
(* ===================================================================== *)

(** The name is the sensor, the date and the position token, joined by
    underscores; the latitude part of the token is an integer. *)
Lemma defaultGenBaseOutFileName_parts (self : SensorState) :
  defaultGenBaseOutFileName self
  = sensor self +:+ "_" +:+ strftime_Ymd (acquisitionTime self) +:+ "_"
    +:+ ("lat"
         +:+ Py.remove_char "-"
               (Py.remove_char "." (Py.str_int (Py.round_int (latCentre self))))
         +:+ "lon"
         +:+ Py.remove_char "-"
               (Py.remove_char "."
                  (Py.str_float2 (Py.round2 (lonCentre self))))).
Proof. reflexivity. Qed.

(** C6, at the failing input.  For the centre (9.5, -69.5) and the date
    2001-06-15 the name holds the date and the token [lat10lon695]: the
    latitude is rounded to an integer, while rounding both coordinates to
    two decimals gives [lat95lon695], which the name does not hold. *)
Theorem defaultGenBaseOutFileName_scene :
  latCentre Examples.scene == 9.5
  /\ lonCentre Examples.scene == - 69.5
  /\ defaultGenBaseOutFileName Examples.scene = "LS1MSS_20010615_lat10lon695"
  /\ contains "20010615" (defaultGenBaseOutFileName Examples.scene) = true
  /\ posTokenTwoDecimals 9.5 (- 69.5) = "lat95lon695"
  /\ contains (posTokenTwoDecimals 9.5 (- 69.5))
       (defaultGenBaseOutFileName Examples.scene) = false.
Proof. split_and!; reflexivity. Qed.

(* ===================================================================== *)
(** * The histogram walk                                                  *)
(* ===================================================================== *)

Lemma scanHistogram_ge_start (bins : list Q) (T w thr cnt : Q) :
  0 <= w -> thr <= scanHistogram bins T w thr cnt.
Proof.
  intros Hw. revert thr cnt.
  induction bins as [|b bins IH]; intros thr cnt; cbn [scanHistogram].
  - apply Qle_refl.
  - destruct (Py.Qlt_bool (cnt + b) T); [|apply Qle_refl].
    apply Qle_trans with (thr + w); [lra | apply IH].
Qed.

Lemma scanHistogram_monotone (bins : list Q) (T1 T2 w thr cnt : Q) :
  0 <= w -> T1 <= T2 ->
  scanHistogram bins T1 w thr cnt <= scanHistogram bins T2 w thr cnt.
Proof.
  intros Hw HT. revert thr cnt.
  induction bins as [|b bins IH]; intros thr cnt; cbn [scanHistogram].
  - apply Qle_refl.
  - destruct (Py.Qlt_bool (cnt + b) T1) eqn:E1.
    + apply Qlt_bool_iff in E1.
      assert (E2 : Py.Qlt_bool (cnt + b) T2 = true)
        by (apply Qlt_bool_iff; lra).
      rewrite E2. apply IH.
    + destruct (Py.Qlt_bool (cnt + b) T2); [|apply Qle_refl].
      apply Qle_trans with (thr + w); [lra | by apply scanHistogram_ge_start].
Qed.

(** The walk passes the leading bins whose running count stays below the
    pixel threshold, and adds the bin width for each. *)
Lemma scanHistogram_leading (bins : list Q) (T w thr cnt : Q) :
  exists k : nat,
    (k <= length bins)%nat
    /\ scanHistogram bins T w thr cnt = Nat.iter k (fun v => v + w) thr
    /\ (forall j, (j < k)%nat -> cnt + binTotal (take (S j) bins) < T)
    /\ ((k < length bins)%nat -> T <= cnt + binTotal (take (S k) bins)).
Proof.
  revert thr cnt.
  induction bins as [|b bins IH]; intros thr cnt; cbn [scanHistogram].
  - exists 0%nat. split; [done|]. split; [done|]. split; [lia|].
    cbn [length]. lia.
  - destruct (Py.Qlt_bool (cnt + b) T) eqn:E.
    + apply Qlt_bool_iff in E.
      destruct (IH (thr + w) (cnt + b)) as (k & Hk & Hrun & Hbefore & Hstop).
      exists (S k). split; [cbn [length]; lia|]. split.
      { rewrite Hrun. symmetry. exact (Nat.iter_succ_r k (fun v => v + w) thr). }
      split.
      * intros j Hj. destruct j as [|j].
        -- unfold binTotal. cbn [firstn foldr]. rewrite take_0. cbn [foldr]. lra.
        -- pose proof (Hbefore j ltac:(lia)) as Hlt.
           unfold binTotal in *. cbn [firstn foldr] in *. lra.
      * intros Hlt. cbn [length] in Hlt.
        pose proof (Hstop ltac:(lia)) as Hle.
        unfold binTotal in *. cbn [firstn foldr] in *. lra.
    + apply Qlt_bool_false_iff in E.
      exists 0%nat. split; [lia|]. split; [done|]. split; [lia|].
      intros _. unfold binTotal. cbn [firstn foldr]. rewrite take_0.
      cbn [foldr]. lra.
Qed.

Lemma binTotal_take_le (bins : list Q) (n : nat) :
  Forall (fun b => 0 <= b) bins -> binTotal (take n bins) <= binTotal bins.
Proof.
  intros Hpos. revert n. induction Hpos as [|b bins Hb Hbins IH]; intros n.
  - rewrite take_nil. apply Qle_refl.
  - destruct n as [|n]; unfold binTotal in *; cbn [firstn foldr].
    + assert (0 <= foldr Qplus 0 bins) by (specialize (IH 0%nat); by rewrite take_0 in IH).
      lra.
    + specialize (IH n). lra.
Qed.

Lemma binTotal_nonneg (bins : list Q) :
  Forall (fun b => 0 <= b) bins -> 0 <= binTotal bins.
Proof.
  intros Hpos. pose proof (binTotal_take_le bins 0 Hpos) as Hle.
  by rewrite take_0 in Hle.
Qed.

(** A pixel threshold above the whole count lets the walk pass every
    bin. *)
Lemma scanHistogram_saturates (bins : list Q) (T w : Q) :
  Forall (fun b => 0 <= b) bins -> binTotal bins < T ->
  scanHistogram bins T w 0 0 = Nat.iter (length bins) (fun v => v + w) 0.
Proof.
  intros Hpos HT.
  destruct (scanHistogram_leading bins T w 0 0) as (k & Hk & Hrun & _ & Hstop).
  destruct (decide (k = length bins)) as [->|Hne]; [exact Hrun|].
  exfalso. pose proof (Hstop ltac:(lia)) as Hle.
  pose proof (binTotal_take_le bins (S k) Hpos). lra.
Qed.

Lemma retryPercentile_grows (k : nat) (p : Q) :
  0 <= p -> p <= retryPercentile k p /\ retryPercentile k p <= retryPercentile (S k) p.
Proof.
  intros Hp. induction k as [|k [IH1 IH2]].
  - change (retryPercentile 0 p) with p.
    change (retryPercentile 1 p) with (p * 2). lra.
  - change (retryPercentile (S (S k)) p) with (retryPercentile (S k) p * 2).
    lra.
Qed.

Section HistogramWalkFacts.
Context {Image : Type} `{!RasterEngine Image}.
Variables (inputTOAImage : Image) (band : Z) (histBinWidth : Q).

(** X1. With a bin width, a percentile and bin counts that are not
    negative, doubling the percentile never lowers the threshold: every
    retry works with a threshold at least as large as the one before. *)
Theorem retryThreshold_nondecreasing (darkPxlPercentile : Q) (k : nat) :
  0 <= histBinWidth -> 0 <= darkPxlPercentile ->
  Forall (fun b => 0 <= b) (getHistogram inputTOAImage band histBinWidth) ->
  retryThreshold inputTOAImage band histBinWidth darkPxlPercentile k
  <= retryThreshold inputTOAImage band histBinWidth darkPxlPercentile (S k).
Proof.
  intros Hw Hp Hbins. unfold retryThreshold.
  apply scanHistogram_monotone; [done|].
  pose proof (binTotal_nonneg _ Hbins) as Hsum. unfold binTotal in Hsum.
  destruct (retryPercentile_grows k darkPxlPercentile Hp) as [Hlo Hstep].
  fold (binTotal (getHistogram inputTOAImage band histBinWidth)) in *.
  nra.
Qed.

(** X2. The threshold is the bin width added once per leading bin whose
    running pixel count stays below [sumPxls * darkPxlPercentile]: the walk
    stops in front of the first bin at which the count reaches it. *)
Theorem retryThreshold_counts_leading_bins (darkPxlPercentile : Q) (k : nat) :
  let bandHist := getHistogram inputTOAImage band histBinWidth in
  let numPxlThreshold :=
    binTotal bandHist * retryPercentile k darkPxlPercentile in
  exists n : nat,
    (n <= length bandHist)%nat
    /\ retryThreshold inputTOAImage band histBinWidth darkPxlPercentile k
       = Nat.iter n (fun v => v + histBinWidth) 0
    /\ retryThreshold inputTOAImage band histBinWidth darkPxlPercentile k
       == histBinWidth * inject_Z (Z.of_nat n)
    /\ (forall j, (j < n)%nat ->
          binTotal (take (S j) bandHist) < numPxlThreshold)
    /\ ((n < length bandHist)%nat ->
          numPxlThreshold <= binTotal (take (S n) bandHist)).
Proof.
  intros bandHist numPxlThreshold. unfold retryThreshold.
  fold bandHist. fold (binTotal bandHist). fold numPxlThreshold.
  destruct (scanHistogram_leading bandHist numPxlThreshold histBinWidth 0 0)
    as (n & Hn & Hrun & Hbefore & Hstop).
  exists n. split; [exact Hn|]. split; [exact Hrun|]. split_and!.
  - rewrite Hrun, iter_step_value. ring.
  - intros j Hj. specialize (Hbefore j Hj). lra.
  - intros Hlt. specialize (Hstop Hlt). lra.
Qed.

(** X3. Once the percentile has passed 1 on a band with pixels, the walk
    passes every bin and every later retry repeats the same threshold; when
    that threshold leaves at most ten rows the loop never ends. *)
Theorem calcDarkTargetOffsetsForBand_saturated_diverges (minObjSize : Z)
    (darkPxlPercentile : Q) :
  let bandHist := getHistogram inputTOAImage band histBinWidth in
  let saturated :=
    Nat.iter (length bandHist) (fun v => v + histBinWidth) 0 in
  Forall (fun b => 0 <= b) bandHist ->
  0 < binTotal bandHist ->
  1 < darkPxlPercentile ->
  (length (darkObjectsHistogram inputTOAImage band saturated minObjSize)
   <= 10)%nat ->
  (forall k,
     retryThreshold inputTOAImage band histBinWidth darkPxlPercentile k
     = saturated)
  /\ ~ darkTargetLoopTerminates inputTOAImage band histBinWidth minObjSize
         darkPxlPercentile.
Proof.
  intros bandHist saturated Hbins Hsum Hp Hrows.
  assert (Hsat : forall k,
            retryThreshold inputTOAImage band histBinWidth darkPxlPercentile k
            = saturated).
  { intros k. unfold retryThreshold. fold bandHist.
    apply scanHistogram_saturates; [exact Hbins|].
    fold (binTotal bandHist).
    destruct (retryPercentile_grows k darkPxlPercentile ltac:(lra)) as [Hlo _].
    nra. }
  split; [exact Hsat|].
  rewrite darkTargetLoopTerminates_iff. intros [k Hk].
  unfold retryRows in Hk.
  change (scanHistogram _ _ _ _ _)
    with (retryThreshold inputTOAImage band histBinWidth darkPxlPercentile k)
    in Hk.
  rewrite Hsat in Hk. lia.
Qed.

End HistogramWalkFacts.

Lemma retryThreshold_nondecreasing_witness :
  retryThreshold (RasterEngine0 := Examples.evenEngine) tt 1 1 0.01 5
  <= retryThreshold (RasterEngine0 := Examples.evenEngine) tt 1 1 0.01 6.
Proof.
  apply (retryThreshold_nondecreasing (RasterEngine0 := Examples.evenEngine));
    [easy | easy |].
  cbn [getHistogram Examples.evenEngine]. apply Forall_replicate. easy.
Defined.

Lemma calcDarkTargetOffsetsForBand_saturated_diverges_witness :
  ~ darkTargetLoopTerminates (RasterEngine0 := Examples.sparseEngine) tt 1 1 5 2.
Proof.
  apply (calcDarkTargetOffsetsForBand_saturated_diverges
           (RasterEngine0 := Examples.sparseEngine) tt 1 1 5 2).
  - cbn [getHistogram Examples.sparseEngine]. repeat constructor; easy.
  - reflexivity.
  - reflexivity.
  - vm_compute. lia.
Defined.

(* ===================================================================== *)
(** * The position token of the base name                                 *)
(* ===================================================================== *)

Lemma allDigits_app (s t : string) :
  allDigits (s +:+ t) = allDigits s && allDigits t.
Proof.
  induction s as [|c s IH]; [done|].
  change (String c s +:+ t) with (String c (s +:+ t)).
  cbn [allDigits]. by rewrite IH, andb_assoc.
Qed.

Lemma remove_char_app (c : ascii) (s t : string) :
  Py.remove_char c (s +:+ t) = Py.remove_char c s +:+ Py.remove_char c t.
Proof.
  induction s as [|a s IH]; [done|].
  change (String a s +:+ t) with (String a (s +:+ t)).
  cbn [Py.remove_char]. rewrite IH. by destruct (Ascii.eqb a c).
Qed.

Lemma remove_char_digits (c : ascii) (s : string) :
  isDigit c = false -> allDigits s = true -> Py.remove_char c s = s.
Proof.
  intros Hc. induction s as [|a s IH]; [done|].
  cbn [allDigits Py.remove_char]. intros [Ha Hs]%andb_true_iff.
  destruct (Ascii.eqb a c) eqn:E.
  - apply Ascii.eqb_eq in E as ->. congruence.
  - by rewrite IH.
Qed.

Lemma allDigits_string_of_uint (d : Decimal.uint) :
  allDigits (NilEmpty.string_of_uint d) = true.
Proof. induction d; cbn [NilEmpty.string_of_uint allDigits]; done. Qed.

Lemma allDigits_str_nat (n : nat) : allDigits (Py.str_nat n) = true.
Proof.
  unfold Py.str_nat, NilZero.string_of_uint.
  destruct (Nat.to_uint n) eqn:E; try done;
    rewrite <- E; rewrite E; apply (allDigits_string_of_uint (_ _)).
Qed.

Lemma str_nat_nonempty (n : nat) : Py.str_nat n <> "".
Proof.
  unfold Py.str_nat, NilZero.string_of_uint.
  by destruct (Nat.to_uint n).
Qed.

(** Without its sign and point the text of an [int] is the digits of its
    absolute value. *)
Lemma str_int_stripped (z : Z) :
  Py.remove_char "-" (Py.remove_char "." (Py.str_int z))
  = Py.str_nat (Z.abs_nat z).
Proof.
  unfold Py.str_int.
  rewrite !remove_char_app,
    !(remove_char_digits _ (Py.str_nat _)) by (done || apply allDigits_str_nat).
  by destruct (z <? 0)%Z.
Qed.

Lemma str_int_nonneg (z : Z) : (0 <= z)%Z -> Py.str_int z = Py.str_nat (Z.abs_nat z).
Proof.
  intros Hz. unfold Py.str_int.
  by replace (z <? 0)%Z with false by (symmetry; apply Z.ltb_ge; lia).
Qed.

Lemma allDigits_zfill (w : nat) (s : string) :
  allDigits s = true -> allDigits (Py.zfill w s) = true.
Proof.
  revert s. induction w as [|w IH]; intros s Hs; cbn [Py.zfill]; [done|].
  destruct (String.length s <? S w)%nat; [|done]. by apply IH.
Qed.

Lemma allDigits_fractionDigits (fp : Z) :
  (0 <= fp)%Z -> allDigits (fractionDigits fp) = true.
Proof.
  intros Hfp. unfold fractionDigits.
  destruct (fp mod 10 =? 0)%Z.
  - rewrite str_int_nonneg by (apply Z.div_pos; lia). apply allDigits_str_nat.
  - apply allDigits_zfill. rewrite str_int_nonneg by done.
    apply allDigits_str_nat.
Qed.

(** Without its sign and point the text of a float with two decimals is
    the digits of its whole part and of its fraction. *)
Lemma str_float2_stripped (x : Q) :
  let h := Z.abs (Qfloor (x * 100)) in
  Py.remove_char "-" (Py.remove_char "." (Py.str_float2 x))
  = Py.str_nat (Z.abs_nat (h / 100)) +:+ fractionDigits (h mod 100).
Proof.
  intros h. unfold Py.str_float2. fold h. fold (fractionDigits (h mod 100)).
  assert (Hip : (0 <= h / 100)%Z) by (apply Z.div_pos; lia).
  assert (Hfp : (0 <= h mod 100)%Z) by (apply Z.mod_pos_bound; lia).
  rewrite (str_int_nonneg (h / 100)) by done.
  rewrite !remove_char_app.
  rewrite !(remove_char_digits _ (Py.str_nat _)) by (done || apply allDigits_str_nat).
  rewrite !(remove_char_digits _ (fractionDigits _))
    by (done || by apply allDigits_fractionDigits).
  by destruct (Py.Qlt_bool x 0).
Qed.

(** X7. The position token of the default base name is [lat], the digits
    of the rounded latitude, [lon] and the digits of the rounded longitude:
    it holds no sign and no decimal point, whatever the centre is. *)
Theorem defaultGenBaseOutFileName_digits (self : SensorState) :
  exists latDigits lonDigits : string,
    defaultGenBaseOutFileName self
    = sensor self +:+ "_" +:+ strftime_Ymd (acquisitionTime self) +:+ "_"
      +:+ ("lat" +:+ latDigits +:+ "lon" +:+ lonDigits)
    /\ allDigits latDigits = true /\ latDigits <> ""
    /\ allDigits lonDigits = true /\ lonDigits <> ""
    /\ latDigits = Py.str_nat (Z.abs_nat (Py.round_int (latCentre self))).
Proof.
  unfold defaultGenBaseOutFileName.
  rewrite str_int_stripped, str_float2_stripped.
  do 2 eexists. split; [reflexivity|]. split_and!.
  - apply allDigits_str_nat.
  - apply str_nat_nonempty.
  - rewrite allDigits_app, allDigits_str_nat. cbn [andb].
    apply allDigits_fractionDigits. apply Z.mod_pos_bound. lia.
  - intros Hempty.
    destruct (Py.str_nat _) eqn:E in Hempty; [|done].
    by apply str_nat_nonempty in E.
  - reflexivity.
Qed.

(** Case analysis on a float comparison, with its meaning as a fact. *)
Ltac case_Qlt :=
  match goal with
  | |- context [Py.Qlt_bool ?a ?b] =>
      let H := fresh "Hcmp" in
      destruct (Py.Qlt_bool a b) eqn:H;
      [apply Qlt_bool_iff in H | apply Qlt_bool_false_iff in H]
  end.

(** Rounding respects equality of rationals and commutes with negation. *)
Lemma round_int_comp (x y : Q) : x == y -> Py.round_int x = Py.round_int y.
Proof.
  intros Hxy. unfold Py.round_int.
  rewrite <- (Qfloor_comp _ _ Hxy).
  set (f := Qfloor x).
  repeat case_Qlt; try (exfalso; lra); done.
Qed.

Lemma Qfloor_opp_cases (x : Q) :
  (x == inject_Z (Qfloor x) /\ Qfloor (- x) = (- Qfloor x)%Z)
  \/ (inject_Z (Qfloor x) < x /\ Qfloor (- x) = (- Qfloor x - 1)%Z).
Proof.
  pose proof (Qfloor_le x) as Hlo. pose proof (Qlt_floor x) as Hhi.
  pose proof (Qfloor_le (- x)) as Hlo'. pose proof (Qlt_floor (- x)) as Hhi'.
  rewrite inject_Z_plus in Hhi, Hhi'. change (inject_Z 1) with 1 in *.
  destruct (Qlt_le_dec (inject_Z (Qfloor x)) x) as [Hlt|Hle].
  - right. split; [done|].
    assert (H1 : inject_Z (Qfloor (- x)) < inject_Z (- Qfloor x))
      by (rewrite inject_Z_opp; lra).
    assert (H2 : inject_Z (- Qfloor x - 2) < inject_Z (Qfloor (- x))).
    { unfold Z.sub. rewrite inject_Z_plus, inject_Z_opp.
      change (inject_Z (- (2))) with (- (2)). lra. }
    rewrite <- Zlt_Qlt in H1, H2. lia.
  - left. split; [lra|].
    assert (H1 : inject_Z (Qfloor (- x)) < inject_Z (- Qfloor x + 1)).
    { rewrite inject_Z_plus, inject_Z_opp. change (inject_Z 1) with 1. lra. }
    assert (H2 : inject_Z (- Qfloor x - 1) < inject_Z (Qfloor (- x))).
    { unfold Z.sub. rewrite inject_Z_plus, inject_Z_opp.
      change (inject_Z (- (1))) with (- (1)). lra. }
    rewrite <- Zlt_Qlt in H1, H2. lia.
Qed.

Lemma round_int_opp (x : Q) : Py.round_int (- x) = (- Py.round_int x)%Z.
Proof.
  unfold Py.round_int.
  pose proof (Qfloor_le x) as Hlo. pose proof (Qlt_floor x) as Hhi.
  rewrite inject_Z_plus in Hhi. change (inject_Z 1) with 1 in Hhi.
  destruct (Qfloor_opp_cases x) as [[Hint ->]|[Hfrac ->]].
  - rewrite inject_Z_opp.
    repeat case_Qlt; try (exfalso; lra); done.
  - set (f := Qfloor x) in *.
    unfold Z.sub. rewrite inject_Z_plus, inject_Z_opp.
    change (inject_Z (- (1))) with (- (1)).
    repeat case_Qlt; try (exfalso; lra); try lia.
    replace (- f + - (1))%Z with (- (f + 1))%Z by lia.
    rewrite Z.even_opp, Z.even_add. change (Z.even 1) with false.
    destruct (Z.even f); cbn; lia.
Qed.

Lemma round_int_abs (x : Q) :
  Z.abs (Py.round_int (Qabs x)) = Z.abs (Py.round_int x).
Proof.
  apply (Qabs_case x (fun a => Z.abs (Py.round_int a) = Z.abs (Py.round_int x)));
    intros _; [done|].
  rewrite round_int_opp. apply Z.abs_opp.
Qed.

Lemma round_int_scaled_abs (x y : Q) :
  Qabs x == Qabs y ->
  Z.abs (Py.round_int (x * 100)) = Z.abs (Py.round_int (y * 100)).
Proof.
  intros Habs.
  rewrite <- (round_int_abs (x * 100)), <- (round_int_abs (y * 100)).
  f_equal. apply round_int_comp. rewrite !Qabs_Qmult, Habs. reflexivity.
Qed.

Lemma Qfloor_hundredths (n : Z) : Qfloor (Qmake n 100 * 100) = n.
Proof.
  unfold Qfloor, Qmult. cbn [Qnum Qden].
  change (Z.pos (100 * 1)) with 100%Z. apply Z.div_mul. lia.
Qed.

(** X8. The base name does not tell hemispheres apart: two states with the
    same sensor and date whose centre latitudes, and centre longitudes,
    are equal in absolute value get the same default base name. *)
Theorem defaultGenBaseOutFileName_sign_blind (self other : SensorState) :
  sensor self = sensor other ->
  acquisitionTime self = acquisitionTime other ->
  Qabs (latCentre self) == Qabs (latCentre other) ->
  Qabs (lonCentre self) == Qabs (lonCentre other) ->
  defaultGenBaseOutFileName self = defaultGenBaseOutFileName other.
Proof.
  intros Hsensor Htime Hlat Hlon. unfold defaultGenBaseOutFileName.
  rewrite Hsensor, Htime, !str_int_stripped, !str_float2_stripped.
  unfold Py.round2. rewrite !Qfloor_hundredths.
  rewrite (round_int_scaled_abs _ _ Hlon).
  assert (Hlat' : Z.abs (Py.round_int (latCentre self))
                  = Z.abs (Py.round_int (latCentre other))).
  { rewrite <- (round_int_abs (latCentre self)),
            <- (round_int_abs (latCentre other)).
    by rewrite (round_int_comp _ _ Hlat). }
  by rewrite !Zabs2Nat.abs_nat_spec, Hlat'.
Qed.

Lemma defaultGenBaseOutFileName_sign_blind_witness :
  defaultGenBaseOutFileName Examples.scene
  = defaultGenBaseOutFileName Examples.sceneSouthEast.
Proof.
  apply defaultGenBaseOutFileName_sign_blind; reflexivity.
Defined.

(* ===================================================================== *)
(** * What the offset surface keeps                                       *)
(* ===================================================================== *)

(** X9. With [notNegOut] set, a floor that is a number and not negative,
    and a nearest-neighbour method that is defined everywhere, the
    interpolated image has the blocks of the template, one value per pixel,
    and every value is a number that is not negative. *)
Theorem interpolateImageFromPointData_not_negative `{GridInterpolator}
    (templateInImage : list (list (Q * Q))) (xVals yVals zVals : list Q)
    (notNegMinVal : Q) :
  0 <= notNegMinVal ->
  (forall p, griddata xVals yVals zVals nearest p <> NaN) ->
  Forall2 (fun (pxlCoords : list (Q * Q)) (out : list fval) =>
             length out = length pxlCoords
             /\ Forall (fun v => exists q, v = Num q /\ 0 <= q) out)
    templateInImage
    (interpolateImageFromPointData templateInImage xVals yVals zVals true
       (Num notNegMinVal)).
Proof.
  intros Hmin Hnn. unfold interpolateImageFromPointData.
  apply Forall2_fmap_r, Forall_Forall2_diag, Forall_forall.
  intros pxlCoords _. split; [apply length_interpolateBlock|].
  apply Forall_lookup. intros i v Hv.
  assert (Hi : (i < length pxlCoords)%nat).
  { apply lookup_lt_Some in Hv. by rewrite length_interpolateBlock in Hv. }
  destruct (lookup_lt_is_Some_2 _ _ Hi) as [p Hp].
  rewrite (lookup_interpolateBlock _ _ _ _ _ _ _ _ Hp) in Hv.
  injection Hv as <-. unfold clamp, blend. cbn [andb].
  specialize (Hnn p).
  destruct (griddata xVals yVals zVals cubic p) as [c|] eqn:Hc;
    destruct (griddata xVals yVals zVals nearest p) as [n|] eqn:Hn;
    try done; cbn [isnan ltZero]; case_Qlt; eauto.
Qed.

Lemma interpolateImageFromPointData_not_negative_witness :
  Forall2 (fun (pxlCoords : list (Q * Q)) (out : list fval) =>
             length out = length pxlCoords
             /\ Forall (fun v => exists q, v = Num q /\ 0 <= q) out)
    [[(0.5, 0.25); (3, 3)]; [(1, 1)]]
    (interpolateImageFromPointData (H := Examples.unitSquareInterp)
       [[(0.5, 0.25); (3, 3)]; [(1, 1)]] [0; 1; 0; 1] [0; 0; 1; 1]
       [7; 8; 9; 10] true (Num 0)).
Proof.
  apply (interpolateImageFromPointData_not_negative
           (H := Examples.unitSquareInterp)); [easy|].
  intros p. discriminate.
Defined.

(* ===================================================================== *)
(** * The EPSG code table                                                 *)
(* ===================================================================== *)

(** A look-up in a dictionary built by assignments finds the value of the
    last assignment to the key. *)
Lemma lookup_foldl_insert (l : list (string * Z)) (codes : gmap string Z)
    (k : string) :
  foldl (fun codes kv => <[kv.1 := kv.2]> codes) codes l !! k
  = foldl (fun found kv => if String.eqb kv.1 k then Some kv.2 else found)
      (codes !! k) l.
Proof.
  revert codes. induction l as [|[k' v] l IH]; intros codes; [done|].
  cbn [foldl fst snd]. rewrite IH. f_equal.
  destruct (String.eqb k' k) eqn:E.
  - apply String.eqb_eq in E as ->. apply lookup_insert_eq.
  - apply String.eqb_neq in E. by apply lookup_insert_ne.
Qed.

Lemma epsgCodes_lookup (k : string) :
  epsgCodes !! k = lastAssigned epsgCodeEntries k.
Proof. unfold epsgCodes. by rewrite lookup_foldl_insert, lookup_empty. Qed.

Lemma epsgCodes_zones_checked :
  forallb (fun z =>
             bool_decide (lastAssigned epsgCodeEntries (utmLabel z "N")
                          = Some (32600 + z)%Z)
             && bool_decide (lastAssigned epsgCodeEntries (utmLabel z "S")
                             = Some (32700 + z)%Z))
    (seqZ 1 60) = true.
Proof. vm_compute. reflexivity. Qed.

Lemma epsgCodes_zone_lookup (z : Z) :
  (1 <= z <= 60)%Z ->
  epsgCodes !! utmLabel z "N" = Some (32600 + z)%Z
  /\ epsgCodes !! utmLabel z "S" = Some (32700 + z)%Z.
Proof.
  intros Hz. rewrite !epsgCodes_lookup.
  pose proof epsgCodes_zones_checked as Hall.
  rewrite forallb_forall in Hall.
  specialize (Hall z). rewrite <- list_elem_of_In, elem_of_seqZ in Hall.
  specialize (Hall ltac:(lia)).
  apply andb_true_iff in Hall as [HN HS].
  by apply bool_decide_eq_true in HN, HS.
Qed.

(** X12. The table maps the label of every UTM zone from 1 to 60 to the
    WGS84 code of the zone, 32600 plus the zone in the north and 32700 plus
    the zone in the south, and it holds 120 labels, so nothing but these. *)
Theorem epsgCodes_zone (z : Z) :
  (1 <= z <= 60)%Z ->
  epsgCodes !! utmLabel z "N" = Some (32600 + z)%Z
  /\ epsgCodes !! utmLabel z "S" = Some (32700 + z)%Z
  /\ size epsgCodes = 120%nat.
Proof.
  intros Hz. destruct (epsgCodes_zone_lookup z Hz) as [HN HS].
  split; [exact HN|]. split; [exact HS|]. vm_compute. reflexivity.
Qed.

Lemma epsgCodes_zone_witness :
  epsgCodes !! "WGS84UTM30N" = Some 32630%Z
  /\ epsgCodes !! "WGS84UTM30S" = Some 32730%Z.
Proof.
  destruct (epsgCodes_zone 30 ltac:(lia)) as (HN & HS & _).
  split; [exact HN | exact HS].
Defined.

Lemma lastAssigned_Some_key (l : list (string * Z)) (k : string) (v : Z) :
  lastAssigned l k = Some v -> k ∈ l.*1.
Proof.
  unfold lastAssigned.
  assert (Hgen : forall found,
            foldl (fun found kv => if String.eqb kv.1 k then Some kv.2 else found)
              found l = Some v ->
            found = Some v \/ k ∈ l.*1).
  { induction l as [|[k' v'] l IH]; intros found Hrun; [by left|].
    cbn [foldl fst snd] in Hrun. apply IH in Hrun as [Hfound|Hin].
    - destruct (String.eqb k' k) eqn:E; [|by left].
      apply String.eqb_eq in E as ->. right. cbn. left.
    - right. cbn. by right. }
  intros Hrun. by destruct (Hgen None Hrun).
Qed.

Lemma string_app_inj_tail (s1 s2 : string) (a b : ascii) :
  s1 +:+ String a "" = s2 +:+ String b "" -> s1 = s2 /\ a = b.
Proof.
  revert s2. induction s1 as [|c1 s1 IH]; intros [|c2 s2] Heq; cbn in Heq.
  - by injection Heq as ->.
  - injection Heq as -> Heq. by destruct s2.
  - injection Heq as -> Heq. by destruct s1.
  - injection Heq as -> Heq. apply IH in Heq as [-> ->]. done.
Qed.

Lemma to_uint_not_Nil (n : nat) : Nat.to_uint n <> Decimal.Nil.
Proof.
  intros Hnil. pose proof (DecimalNat.Unsigned.of_to n) as Hn.
  rewrite Hnil in Hn. cbn in Hn. subst n. discriminate Hnil.
Qed.

Lemma str_nat_inj (n m : nat) : Py.str_nat n = Py.str_nat m -> n = m.
Proof.
  unfold Py.str_nat. intros Heq.
  apply DecimalNat.Unsigned.to_uint_inj.
  pose proof (NilZero.usu _ (to_uint_not_Nil n)) as Hn.
  pose proof (NilZero.usu _ (to_uint_not_Nil m)) as Hm.
  rewrite Heq in Hn. congruence.
Qed.

Lemma str_int_inj_nonneg (z z' : Z) :
  (0 <= z')%Z -> Py.str_int z = Py.str_int z' -> z = z'.
Proof.
  intros Hz' Heq. rewrite (str_int_nonneg z' Hz') in Heq.
  unfold Py.str_int in Heq. destruct (z <? 0)%Z eqn:E.
  - exfalso. pose proof (allDigits_str_nat (Z.abs_nat z')) as Hd.
    rewrite <- Heq in Hd. done.
  - apply Z.ltb_ge in E. apply str_nat_inj in Heq. lia.
Qed.

Lemma epsgCodes_labels_checked :
  forallb (fun k =>
             bool_decide (k ∈ ((fun z => utmLabel z "N") <$> seqZ 1 60)
                               ++ ((fun z => utmLabel z "S") <$> seqZ 1 60)))
    epsgCodeEntries.*1 = true.
Proof. vm_compute. reflexivity. Qed.

Lemma epsgCodes_north_iff_lookup (z c : Z) :
  epsgCodes !! utmLabel z "N" = Some c
  -> (1 <= z <= 60)%Z /\ c = (32600 + z)%Z.
Proof.
  - intros Hlook.
    assert (Hz : (1 <= z <= 60)%Z).
    { rewrite epsgCodes_lookup in Hlook.
      apply lastAssigned_Some_key in Hlook.
      pose proof epsgCodes_labels_checked as Hall.
      rewrite forallb_forall in Hall.
      specialize (Hall _ (proj1 (list_elem_of_In _ _) Hlook)).
      apply bool_decide_eq_true in Hall.
      apply elem_of_app in Hall as [Hin|Hin];
        apply list_elem_of_fmap in Hin as (z' & Heq & Hz');
        apply elem_of_seqZ in Hz'; unfold utmLabel in Heq;
        apply (inj (String.app "WGS84UTM")) in Heq;
        apply string_app_inj_tail in Heq as [Heq Hh]; [|discriminate Hh].
      apply str_int_inj_nonneg in Heq; lia. }
    split; [exact Hz|].
    destruct (epsgCodes_zone_lookup z Hz) as (HN & _). congruence.
Qed.

(** X13. A look-up of the northern label of a zone succeeds exactly for the
    zones 1 to 60, with the code 32600 plus the zone; for every other
    number the label is no key of the table. *)
Theorem epsgCodes_north_iff (z c : Z) :
  epsgCodes !! utmLabel z "N" = Some c
  <-> (1 <= z <= 60)%Z /\ c = (32600 + z)%Z.
Proof.
  split; [apply epsgCodes_north_iff_lookup|].
  intros [Hz ->]. by destruct (epsgCodes_zone_lookup z Hz) as (HN & _).
Qed.

(* ===================================================================== *)
(** * Reading the Landsat header                                          *)
(* ===================================================================== *)

Lemma lstrip_idem (s : string) : Text.lstrip (Text.lstrip s) = Text.lstrip s.
Proof.
  induction s as [|c s IH]; [done|]. cbn [Text.lstrip].
  destruct (Text.isSpace c) eqn:E; [done|]. cbn [Text.lstrip]. by rewrite E.
Qed.

Lemma rstrip_idem (s : string) : Text.rstrip (Text.rstrip s) = Text.rstrip s.
Proof.
  induction s as [|c s IH]; [done|]. cbn [Text.rstrip].
  destruct (Text.rstrip s) as [|k kept] eqn:Hs.
  - destruct (Text.isSpace c) eqn:E; [done|]. cbn [Text.rstrip]. by rewrite E.
  - change (Text.rstrip (String c (String k kept)))
      with (match Text.rstrip (String k kept) with
            | EmptyString => if Text.isSpace c then EmptyString
                             else String c EmptyString
            | kept' => String c kept'
            end).
    by rewrite IH.
Qed.

(** Stripping the right end keeps a left end that is already clean. *)
Lemma lstrip_rstrip (s : string) :
  Text.lstrip s = s -> Text.lstrip (Text.rstrip s) = Text.rstrip s.
Proof.
  destruct s as [|c s]; [done|]. cbn [Text.lstrip].
  destruct (Text.isSpace c) eqn:E.
  - intros Hstrip. exfalso.
    assert (Hlen : forall t, (String.length (Text.lstrip t) <= String.length t)%nat).
    { induction t as [|a t IHt]; [done|]. cbn [Text.lstrip].
      destruct (Text.isSpace a); cbn [String.length]; lia. }
    specialize (Hlen s). rewrite Hstrip in Hlen. cbn [String.length] in Hlen. lia.
  - intros _. cbn [Text.rstrip].
    destruct (Text.rstrip s); rewrite ?E; cbn [Text.lstrip]; by rewrite E.
Qed.

Lemma strip_idem (s : string) : Text.strip (Text.strip s) = Text.strip s.
Proof.
  unfold Text.strip.
  rewrite (lstrip_rstrip (Text.lstrip s)) by apply lstrip_idem.
  apply rstrip_idem.
Qed.

Lemma hasChar_remove_char (c : ascii) (s : string) :
  Text.hasChar c (Py.remove_char c s) = false.
Proof.
  induction s as [|a s IH]; [done|]. cbn [Py.remove_char].
  destruct (Ascii.eqb a c) eqn:E; [done|]. cbn [Text.hasChar]. by rewrite E.
Qed.

(** The pieces of a split are one more than the separators. *)
Lemma length_split (sep : ascii) (s : string) :
  length (Text.split sep s) = S (countChar sep s).
Proof.
  induction s as [|c s IH]; [done|]. cbn [Text.split countChar].
  destruct (Ascii.eqb c sep); cbn [length]; [by rewrite IH|].
  destruct (Text.split sep s); cbn [length] in *; lia.
Qed.

(** The test on [GROUP] and [END_GROUP] holds for every key. *)
Lemma group_test_true (key : string) :
  negb (String.eqb key "GROUP") || negb (String.eqb key "END_GROUP") = true.
Proof.
  destruct (String.eqb key "GROUP") eqn:E; [|done].
  apply String.eqb_eq in E as ->. done.
Qed.

Lemma parseHeaderLine_stored (headerParams : gmap string string)
    (line key val : string) :
  Text.split "=" (Text.strip line) = [key; val] ->
  Landsat1MSS.parseHeaderLine headerParams line
  = <[Text.strip key := Py.remove_char Text.dquote (Text.strip val)]>
      headerParams.
Proof.
  intros Hsplit. unfold Landsat1MSS.parseHeaderLine.
  destruct (String.eqb (Text.strip line) "") eqn:E.
  - apply String.eqb_eq in E. rewrite E in Hsplit. done.
  - cbn [negb]. rewrite Hsplit. cbn [length Nat.eqb].
    by rewrite group_test_true.
Qed.

Lemma parseHeaderLine_skipped (headerParams : gmap string string)
    (line : string) :
  countChar "=" (Text.strip line) <> 1%nat ->
  Landsat1MSS.parseHeaderLine headerParams line = headerParams.
Proof.
  intros Hcount. unfold Landsat1MSS.parseHeaderLine.
  destruct (negb (String.eqb (Text.strip line) "")); [|done].
  destruct (length (Text.split "=" (Text.strip line)) =? 2)%nat eqn:E; [|done].
  apply Nat.eqb_eq in E. rewrite length_split in E. lia.
Qed.

(** X14. A header line is stored exactly when its stripped text holds one
    equals sign: the stripped key then maps to the stripped value without
    its double quotes, for the keys [GROUP] and [END_GROUP] as for any
    other, because the test that should leave them out holds for every key;
    a line with no equals sign or with several, for instance inside the
    value, changes nothing. *)
Theorem parseHeaderLine_one_equals_sign (headerParams : gmap string string)
    (line : string) :
  (countChar "=" (Text.strip line) = 1%nat ->
   exists key val,
     Text.split "=" (Text.strip line) = [key; val]
     /\ Landsat1MSS.parseHeaderLine headerParams line
        = <[Text.strip key := Py.remove_char Text.dquote (Text.strip val)]>
            headerParams)
  /\ (countChar "=" (Text.strip line) <> 1%nat ->
      Landsat1MSS.parseHeaderLine headerParams line = headerParams).
Proof.
  split; [|apply parseHeaderLine_skipped].
  intros Hcount.
  pose proof (length_split "=" (Text.strip line)) as Hlen.
  rewrite Hcount in Hlen.
  destruct (Text.split "=" (Text.strip line)) as [|key [|val [|? ?]]] eqn:Hsplit;
    try done.
  exists key, val. split; [done|]. by apply parseHeaderLine_stored.
Qed.

Lemma parseHeaderLine_one_equals_sign_witness :
  Landsat1MSS.parseHeaderLine ∅ "  GROUP = L1_METADATA_FILE"
  = <["GROUP" := "L1_METADATA_FILE"]> ∅
  /\ Landsat1MSS.parseHeaderLine ∅ "NOTE = a=b" = ∅.
Proof.
  destruct (parseHeaderLine_one_equals_sign ∅ "  GROUP = L1_METADATA_FILE")
    as [Hstored _].
  destruct (parseHeaderLine_one_equals_sign ∅ "NOTE = a=b") as [_ Hskipped].
  split.
  - destruct (Hstored eq_refl) as (key & val & Hsplit & Hrun).
    rewrite Hrun. injection Hsplit as <- <-. reflexivity.
  - apply Hskipped. discriminate.
Defined.

(** X15. Every key of the header dictionary is free of white space at both
    ends, and no value holds a double quote. *)
Theorem readHeader_clean (lines : list string) (key val : string) :
  Landsat1MSS.readHeader lines !! key = Some val ->
  Text.strip key = key /\ Text.hasChar Text.dquote val = false.
Proof.
  unfold Landsat1MSS.readHeader.
  assert (Hinv : forall headerParams : gmap string string,
            (forall k v, headerParams !! k = Some v ->
               Text.strip k = k /\ Text.hasChar Text.dquote v = false) ->
            forall k v, foldl Landsat1MSS.parseHeaderLine headerParams lines !! k
                        = Some v ->
              Text.strip k = k /\ Text.hasChar Text.dquote v = false).
  { induction lines as [|line lines IH]; intros headerParams Hclean; [done|].
    cbn [foldl]. apply IH. intros k v.
    destruct (decide (countChar "=" (Text.strip line) = 1%nat)) as [Hone|Hnot].
    - pose proof (length_split "=" (Text.strip line)) as Hlen.
      rewrite Hone in Hlen.
      destruct (Text.split "=" (Text.strip line)) as [|a [|b [|? ?]]] eqn:Hsplit;
        try done.
      rewrite (parseHeaderLine_stored _ _ _ _ Hsplit).
      destruct (decide (Text.strip a = k)) as [<-|Hne].
      + rewrite lookup_insert_eq. intros [= <-].
        split; [apply strip_idem | apply hasChar_remove_char].
      + rewrite lookup_insert_ne by done. apply Hclean.
    - rewrite parseHeaderLine_skipped by done. apply Hclean. }
  apply Hinv. intros k v. by rewrite lookup_empty.
Qed.

Lemma readHeader_clean_witness :
  Landsat1MSS.readHeader LandsatExamples.mtlLines !! "SPACECRAFT_ID"
  = Some "LANDSAT_1"
  /\ Text.strip "SPACECRAFT_ID" = "SPACECRAFT_ID"
  /\ Text.hasChar Text.dquote "LANDSAT_1" = false.
Proof.
  split; [reflexivity|].
  apply (readHeader_clean LandsatExamples.mtlLines). reflexivity.
Defined.

(* ===================================================================== *)
(** * Extracting the Landsat header values                                *)
(* ===================================================================== *)

Lemma bind_Got {A B : Type} (m : attempt A) (f : A -> attempt B) (b : B) :
  m ≫= f = Got b -> exists a, m = Got a /\ f a = Got b.
Proof. destruct m as [a|e]; [|done]. intros Hf. by exists a. Qed.

Lemma fmap_Got {A B : Type} (f : A -> B) (m : attempt A) (b : B) :
  f <$> m = Got b -> exists a, m = Got a /\ b = f a.
Proof. destruct m as [a|e]; [|done]. intros [= <-]. by exists a. Qed.

Lemma getitem_Got {V : Type} (d : gmap string V) (key : string) (v : V) :
  getitem d key = Got v <-> d !! key = Some v.
Proof. unfold getitem. destruct (d !! key); split; congruence. Qed.

(** Taking a successful run apart, step by step. *)
Ltac attempt_inversion H :=
  repeat first
    [ apply bind_Got in H as (? & ? & H)
    | match type of H with
      | (if negb ?b then Raised _ else _) = Got _ =>
          let E := fresh "Htest" in
          destruct b eqn:E; cbn [negb] in H; [|discriminate H]
      end ].

Section ExtractionFacts.
Context `{PyConv} `{OsrEngine}.

Lemma recognised_true (headerParams : gmap string string) :
  Landsat1MSS.recognised headerParams = Got true ->
  headerParams !! "SPACECRAFT_ID" = Some "LANDSAT_1"
  /\ headerParams !! "SENSOR_ID" = Some "MSS".
Proof.
  unfold Landsat1MSS.recognised. intros Hrun.
  apply bind_Got in Hrun as (craft & Hcraft%getitem_Got & Hrun).
  destruct (String.eqb craft "LANDSAT_1") eqn:E1; [|done].
  apply String.eqb_eq in E1 as ->.
  apply bind_Got in Hrun as (sid & Hsid%getitem_Got & Hrun).
  injection Hrun as Hrun. apply String.eqb_eq in Hrun as ->. done.
Qed.

Lemma projectedUTM_true (headerParams : gmap string string) :
  Landsat1MSS.projectedUTM headerParams = Got true ->
  headerParams !! "MAP_PROJECTION" = Some "UTM"
  /\ headerParams !! "DATUM" = Some "WGS84"
  /\ headerParams !! "ELLIPSOID" = Some "WGS84".
Proof.
  unfold Landsat1MSS.projectedUTM. intros Hrun.
  apply bind_Got in Hrun as (mp & Hmp%getitem_Got & Hrun).
  destruct (String.eqb mp "UTM") eqn:E1; [|done].
  apply String.eqb_eq in E1 as ->.
  apply bind_Got in Hrun as (datum & Hdatum%getitem_Got & Hrun).
  destruct (String.eqb datum "WGS84") eqn:E2; [|done].
  apply String.eqb_eq in E2 as ->.
  apply bind_Got in Hrun as (ell & Hell%getitem_Got & Hrun).
  injection Hrun as Hrun. apply String.eqb_eq in Hrun as ->. done.
Qed.

(** X16. A header that is accepted describes an upright rectangle: the
    projected corners agree pairwise in x and in y, and the projected centre
    is the middle of both diagonals. *)
Theorem extractHeaderValues_rectangle (self : Landsat1MSS.Sensor)
    (inputHeader : string) (headerParams : gmap string string)
    (out : Landsat1MSS.Sensor) :
  Landsat1MSS.extractHeaderValues self inputHeader headerParams = Got out ->
  let s := Landsat1MSS.base out in
  xTL s == xBL s /\ yTL s == yTR s /\ xTR s == xBR s /\ yBL s == yBR s
  /\ xCentre s == (xTL s + xBR s) / 2 /\ xCentre s == (xBL s + xTR s) / 2
  /\ yCentre s == (yTL s + yBR s) / 2 /\ yCentre s == (yBL s + yTR s) / 2.
Proof.
  unfold Landsat1MSS.extractHeaderValues. intros Hrun.
  attempt_inversion Hrun. injection Hrun as <-.
  cbn [Landsat1MSS.base xTL yTL xTR yTR xBL yBL xBR yBR xCentre yCentre].
  match goal with
  | Hsq : (_ && _ && _ && _) = true |- _ =>
      apply andb_true_iff in Hsq
        as [[[Hsq1 Hsq2]%andb_true_iff Hsq3]%andb_true_iff Hsq4];
      apply Qeq_bool_iff in Hsq1, Hsq2, Hsq3, Hsq4;
      clear -Hsq1 Hsq2 Hsq3 Hsq4
  end.
  split_and!; try assumption;
    unfold Qdiv; change (/ 2) with (1 # 2); lra.
Qed.

(** X17. A header is accepted only for the spacecraft [LANDSAT_1] with the
    sensor [MSS], projected in UTM on WGS84, with a zone from 1 to 60; the
    centre in latitude and longitude is then the projected centre
    transformed from the northern code of that zone, 32600 plus the zone,
    to the code 4326, and the solar zenith is 90 minus the sun
    elevation. *)
Theorem extractHeaderValues_accepts (self : Landsat1MSS.Sensor)
    (inputHeader : string) (headerParams : gmap string string)
    (out : Landsat1MSS.Sensor) :
  Landsat1MSS.extractHeaderValues self inputHeader headerParams = Got out ->
  headerParams !! "SPACECRAFT_ID" = Some "LANDSAT_1"
  /\ headerParams !! "SENSOR_ID" = Some "MSS"
  /\ headerParams !! "MAP_PROJECTION" = Some "UTM"
  /\ headerParams !! "DATUM" = Some "WGS84"
  /\ headerParams !! "ELLIPSOID" = Some "WGS84"
  /\ sensor (Landsat1MSS.base out) = "LS1MSS"
  /\ exists (zoneText elevationText : string) (utmZone : Z) (sunElevation : Q),
       headerParams !! "UTM_ZONE" = Some zoneText
       /\ py_int zoneText = Some utmZone
       /\ (1 <= utmZone <= 60)%Z
       /\ (lonCentre (Landsat1MSS.base out), latCentre (Landsat1MSS.base out))
          = transformEPSG (32600 + utmZone) 4326
              (xCentre (Landsat1MSS.base out), yCentre (Landsat1MSS.base out))
       /\ headerParams !! "SUN_ELEVATION" = Some elevationText
       /\ py_float elevationText = Some sunElevation
       /\ Landsat1MSS.solarZenith out = 90 - sunElevation.
Proof.
  unfold Landsat1MSS.extractHeaderValues. intros Hrun.
  apply bind_Got in Hrun as (known & Hknown & Hrun).
  destruct known; cbn [negb] in Hrun; [|discriminate Hrun].
  apply recognised_true in Hknown as [Hcraft Hsensor].
  do 3 (apply bind_Got in Hrun as (? & _ & Hrun)).
  apply bind_Got in Hrun as (sunElevation & Helev & Hrun).
  do 17 (apply bind_Got in Hrun as (? & _ & Hrun)).
  apply bind_Got in Hrun as (utm & Hutm & Hrun).
  destruct utm; cbn [negb] in Hrun; [|discriminate Hrun].
  apply projectedUTM_true in Hutm as (Hmp & Hdatum & Hell).
  apply bind_Got in Hrun as (utmZone & Hzone & Hrun).
  apply bind_Got in Hrun as (inProj & Hproj%getitem_Got & Hrun).
  attempt_inversion Hrun. injection Hrun as <-.
  cbn [Landsat1MSS.base Landsat1MSS.solarZenith sensor lonCentre latCentre
       xCentre yCentre].
  apply epsgCodes_north_iff_lookup in Hproj as [Hrange ->].
  unfold Landsat1MSS.getInt, Landsat1MSS.getFloat in Hzone, Helev.
  apply bind_Got in Hzone as (zoneText & HzoneText%getitem_Got & Hint).
  apply bind_Got in Helev as (elevationText & HelevText%getitem_Got & Hfloat).
  unfold toInt in Hint. unfold toFloat in Hfloat.
  destruct (py_int zoneText) as [z|] eqn:Hz; [|done]. injection Hint as ->.
  destruct (py_float elevationText) as [e|] eqn:He; [|done].
  injection Hfloat as ->.
  split_and!; try assumption; try reflexivity.
  exists zoneText, elevationText, utmZone, sunElevation.
  split_and!; try assumption; try reflexivity; try (clear -Hrange; lia).
  symmetry. apply surjective_pairing.
Qed.

(** X18. The extraction never reads the keys [GROUP] and [END_GROUP]: with
    or without them in the dictionary the outcome is the same, be it a
    sensor or an exception. *)
Theorem extractHeaderValues_ignores_groups (self : Landsat1MSS.Sensor)
    (inputHeader : string) (headerParams : gmap string string)
    (group endGroup : string) :
  Landsat1MSS.extractHeaderValues self inputHeader
    (<["GROUP" := group]> (<["END_GROUP" := endGroup]> headerParams))
  = Landsat1MSS.extractHeaderValues self inputHeader headerParams.
Proof.
  unfold Landsat1MSS.extractHeaderValues, Landsat1MSS.recognised,
    Landsat1MSS.projectedUTM, Landsat1MSS.acquisitionOf, Landsat1MSS.getInt,
    Landsat1MSS.getFloat, getitem.
  by rewrite !(lookup_insert_ne (M := gmap string)) by done.
Qed.

End ExtractionFacts.

Lemma extractHeaderValues_rectangle_witness :
  exists out,
    Landsat1MSS.extractHeaderParameters (H := LandsatExamples.decimalConv)
      (H0 := LandsatExamples.scaleOsr) LandsatExamples.fresh
      "/data/scene/LM1_MTL.txt" LandsatExamples.mtlLines = Got out
    /\ xCentre (Landsat1MSS.base out) == 658500
    /\ yCentre (Landsat1MSS.base out) == 5047000.
Proof.
  destruct (Landsat1MSS.extractHeaderParameters
              (H := LandsatExamples.decimalConv)
              (H0 := LandsatExamples.scaleOsr) LandsatExamples.fresh
              "/data/scene/LM1_MTL.txt" LandsatExamples.mtlLines)
    as [out|e] eqn:Hrun; [|vm_compute in Hrun; discriminate Hrun].
  exists out. split; [reflexivity|].
  destruct (extractHeaderValues_rectangle (H := LandsatExamples.decimalConv)
              (H0 := LandsatExamples.scaleOsr) _ _ _ _ Hrun)
    as (_ & _ & _ & _ & Hx & _ & Hy & _).
  vm_compute in Hrun. injection Hrun as <-. split; reflexivity.
Defined.

Lemma extractHeaderValues_accepts_witness :
  exists out,
    Landsat1MSS.extractHeaderParameters (H := LandsatExamples.decimalConv)
      (H0 := LandsatExamples.scaleOsr) LandsatExamples.fresh
      "/data/scene/LM1_MTL.txt" LandsatExamples.mtlLines = Got out
    /\ sensor (Landsat1MSS.base out) = "LS1MSS".
Proof.
  destruct (Landsat1MSS.extractHeaderParameters
              (H := LandsatExamples.decimalConv)
              (H0 := LandsatExamples.scaleOsr) LandsatExamples.fresh
              "/data/scene/LM1_MTL.txt" LandsatExamples.mtlLines)
    as [out|e] eqn:Hrun; [|vm_compute in Hrun; discriminate Hrun].
  exists out. split; [reflexivity|].
  by destruct (extractHeaderValues_accepts (H := LandsatExamples.decimalConv)
                 (H0 := LandsatExamples.scaleOsr) _ _ _ _ Hrun)
    as (_ & _ & _ & _ & _ & Hsensor & _).
Defined.

(* ===================================================================== *)
(** * Local dark targets                                                  *)
(* ===================================================================== *)

Lemma mapM_Got {A B : Type} (f : A -> attempt B) (l : list A) (k : list B) :
  mapM f l = Got k -> Forall2 (fun x y => f x = Got y) l k.
Proof.
  revert k. induction l as [|x l IH]; intros k Hk; cbn in Hk.
  - injection Hk as <-. constructor.
  - apply bind_Got in Hk as (y & Hy & Hk).
    apply bind_Got in Hk as (k' & Hk' & Hk).
    injection Hk as <-. constructor; auto.
Qed.

Lemma npMin_In (a : list Q) (m : Q) : npMin a = Got m -> In m a.
Proof.
  destruct a as [|x rest]; [discriminate|]. intros [= <-].
  revert x. induction rest as [|y rest IH]; intros x; cbn [foldl].
  - by left.
  - destruct (Qle_bool x y).
    + destruct (IH x) as [<-|Hin]; [by left|by right; right].
    + right. apply IH.
Qed.

Lemma npMax_In (a : list Q) (m : Q) : npMax a = Got m -> In m a.
Proof.
  destruct a as [|x rest]; [discriminate|]. intros [= <-].
  revert x. induction rest as [|y rest IH]; intros x; cbn [foldl].
  - by left.
  - destruct (Qle_bool y x).
    + destruct (IH x) as [<-|Hin]; [by left|by right; right].
    + right. apply IH.
Qed.

(** A band spanning more than 5 has a pixel that is not 0. *)
Lemma contrast_has_data (band : list Q) (lo hi : Q) :
  npMin band = Got lo -> npMax band = Got hi -> 5 < hi - lo ->
  List.filter (fun v => negb (Qeq_bool v 0)) band <> [].
Proof.
  intros Hlo%npMin_In Hhi%npMax_In Hspan Hnone.
  assert (Hzero : forall v, In v band -> v == 0).
  { intros v Hv. destruct (Qeq_bool v 0) eqn:E; [by apply Qeq_bool_iff|].
    assert (Hin : In v (List.filter (fun v => negb (Qeq_bool v 0)) band)).
    { apply filter_In. split; [done|]. by rewrite E. }
    rewrite Hnone in Hin. destruct Hin. }
  pose proof (Hzero _ Hlo). pose proof (Hzero _ Hhi). lra.
Qed.

Lemma npMin_Got (a : list Q) : a <> [] -> exists m, npMin a = Got m.
Proof. destruct a; [done|]. intros _. eexists. reflexivity. Qed.

Lemma npMax_Got (a : list Q) : a <> [] -> exists m, npMax a = Got m.
Proof. destruct a; [done|]. intros _. eexists. reflexivity. Qed.

Lemma localThresholdScan_spec (histo : list Z) :
  forall (edges : list Q) (n : nat) (P c : Z) (t r : Q),
    localThresholdScan histo edges n P c t = Got r ->
    exists k : nat,
      (k <= length histo)%nat /\
      (forall i : nat, (1 <= i <= k)%nat ->
                       (c + foldr Z.add 0 (take i histo) <= P)%Z) /\
      ((k < length histo)%nat ->
       (P < c + foldr Z.add 0 (take (S k) histo))%Z) /\
      (k = 0%nat -> r = t) /\
      (k <> 0%nat -> edges !! (n + k)%nat = Some r).
Proof.
  induction histo as [|h rest IH]; intros edges n P c t r Hr;
    cbn [localThresholdScan] in Hr.
  - injection Hr as <-. exists 0%nat. cbn [length].
    split_and!; [lia|intros; lia|lia|done|done].
  - destruct (Z.ltb_spec P (c + h)) as [Hcmp|Hcmp].
    + injection Hr as <-. exists 0%nat. cbn [length take firstn foldr].
      rewrite take_0. cbn [foldr].
      split_and!; [lia|intros; lia|lia|done|done].
    + apply bind_Got in Hr as (edge & Hedge & Hr).
      unfold index in Hedge.
      destruct (edges !! S n) as [e|] eqn:Hlook; [|discriminate].
      injection Hedge as ->.
      apply IH in Hr as (k & Hk & Hpre & Hnext & Hzero & Hpos).
      exists (S k). cbn [length]. split_and!.
      * lia.
      * intros [|i] Hi; [lia|]. cbn [take firstn foldr].
        destruct i as [|i].
        { rewrite take_0. cbn [foldr]. lia. }
        specialize (Hpre (S i) ltac:(lia)). lia.
      * intros Hlt. specialize (Hnext ltac:(lia)).
        change (take (S (S k)) (h :: rest)) with (h :: take (S k) rest).
        cbn [foldr]. lia.
      * done.
      * intros _. destruct k as [|k].
        { rewrite Hzero by done. by rewrite Nat.add_1_r. }
        rewrite <- (Hpos ltac:(done)). f_equal. lia.
Qed.

Lemma localThresholdScan_Got (histo : list Z) :
  forall (edges : list Q) (n : nat) (P c : Z) (t : Q),
    length edges = S (n + length histo) ->
    exists r, localThresholdScan histo edges n P c t = Got r.
Proof.
  induction histo as [|h rest IH]; intros edges n P c t Hlen;
    cbn [localThresholdScan].
  - by eexists.
  - destruct (P <? c + h)%Z; [by eexists|].
    cbn [length] in Hlen. unfold index.
    destruct (lookup_lt_is_Some_2 edges (S n) ltac:(lia)) as [e ->].
    cbn. apply IH. lia.
Qed.

Section LocalDarkTargetFacts.
Context `{NumpyEngine}.

(** What a band can come back as: all 0, or the pixels between 0 and a
    threshold. *)
Lemma localDarkTargetsBand_Got (band : list Q) (blockSize : Z)
    (histBinWidth darkPxlPercentile : Q) (out : list Q) :
  localDarkTargetsBand band blockSize histBinWidth darkPxlPercentile
    = Got out ->
  out = (fun _ : Q => 0) <$> band \/
  exists threshold,
    out = (fun v => if Qle_bool v threshold && Py.Qlt_bool 0 v
                    then 1 else 0) <$> band.
Proof.
  unfold localDarkTargetsBand. intros Hout.
  apply bind_Got in Hout as (lo & _ & Hout).
  apply bind_Got in Hout as (hi & _ & Hout).
  destruct (Py.Qlt_bool 5 (hi - lo)); [|left; by injection Hout].
  apply bind_Got in Hout as (lo' & _ & Hout).
  apply bind_Got in Hout as (hi' & _ & Hout).
  apply bind_Got in Hout as (numBins & _ & Hout).
  destruct (Py.Qlt_bool _ _); [|left; by injection Hout].
  apply bind_Got in Hout as (hist & _ & Hout).
  apply bind_Got in Hout as (threshold & _ & Hout).
  right. exists threshold. by injection Hout.
Qed.

(** X22 ([findDOSLocalDarkTargets]): when the function returns, every band
    of every block comes back as a mask of the same size holding only 0 and
    1; a pixel is marked only where the input is above 0, so nodata and
    negative pixels are never dark targets; and the marked pixels are the
    darkest ones: a pixel above 0 and no brighter than a marked pixel of the
    same band is marked too. *)
Theorem findDOSLocalDarkTargets_mask (inputTOAImage : list (list (list Q)))
    (blockSize : Z) (histBinWidth darkPxlPercentile : Q)
    (out : list (list (list Q))) :
  findDOSLocalDarkTargets inputTOAImage blockSize histBinWidth
    darkPxlPercentile = Got out ->
  Forall2
    (Forall2 (fun band mask : list Q =>
       length mask = length band /\
       (forall (j : nat) (v m : Q),
          band !! j = Some v -> mask !! j = Some m ->
          (m = 0 \/ m = 1) /\ (m = 1 -> 0 < v)) /\
       (forall (j j' : nat) (v v' : Q),
          band !! j = Some v -> band !! j' = Some v' ->
          mask !! j = Some 1 -> 0 < v' -> v' <= v ->
          mask !! j' = Some 1)))
    inputTOAImage out.
Proof.
  unfold findDOSLocalDarkTargets. intros Hout.
  apply bind_Got in Hout as (written & Hwritten & Hout).
  assert (written = out) as -> by (destruct written; congruence).
  clear Hout. apply mapM_Got in Hwritten.
  eapply Forall2_impl; [exact Hwritten|].
  intros block masks Hblock. apply mapM_Got in Hblock.
  eapply Forall2_impl; [exact Hblock|].
  intros band mask Hband. cbv beta in Hband.
  apply localDarkTargetsBand_Got in Hband as [->|[threshold ->]].
  - split_and!.
    + by rewrite length_fmap.
    + intros j v m Hv Hm. rewrite list_lookup_fmap, Hv in Hm.
      injection Hm as <-. split; [by left|discriminate].
    + intros j j' v v' Hv _ Hm. rewrite list_lookup_fmap, Hv in Hm.
      discriminate Hm.
  - split_and!.
    + by rewrite length_fmap.
    + intros j v m Hv Hm. rewrite list_lookup_fmap, Hv in Hm.
      cbn [fmap option_fmap option_map] in Hm. injection Hm as <-.
      destruct (Qle_bool v threshold); cbn [andb];
        [|split; [by left|discriminate]].
      destruct (Py.Qlt_bool 0 v) eqn:Hpos;
        [|split; [by left|discriminate]].
      apply Qlt_bool_iff in Hpos. split; [by right|done].
    + intros j j' v v' Hv Hv' Hm Hpos Hle.
      rewrite list_lookup_fmap, Hv in Hm.
      rewrite list_lookup_fmap, Hv'.
      cbn [fmap option_fmap option_map] in Hm |- *.
      destruct (Qle_bool v threshold) eqn:Hthr; cbn [andb] in Hm;
        [|discriminate Hm].
      apply Qle_bool_iff in Hthr.
      assert (Hthr' : Qle_bool v' threshold = true)
        by (apply Qle_bool_iff; lra).
      rewrite Hthr'. cbn [andb].
      by rewrite (proj2 (Qlt_bool_iff 0 v') Hpos).
Qed.

(** X23 ([findDOSLocalDarkTargets]): which band raises what.  An empty band
    raises [ValueError].  A band whose values span at most 5 comes back all
    0, whatever the bin width.  A band spanning more than 5 with a
    [histBinWidth] of 0 raises [ZeroDivisionError], also when it has too few
    values for a histogram to be taken at all. *)
Theorem localDarkTargetsBand_raises (band : list Q) (blockSize : Z)
    (histBinWidth darkPxlPercentile : Q) :
  (band = [] ->
   localDarkTargetsBand band blockSize histBinWidth darkPxlPercentile
     = Raised ValueError) /\
  (forall lo hi : Q,
     npMin band = Got lo -> npMax band = Got hi ->
     (hi - lo <= 5 ->
      localDarkTargetsBand band blockSize histBinWidth darkPxlPercentile
        = Got ((fun _ : Q => 0) <$> band)) /\
     (5 < hi - lo -> histBinWidth == 0 ->
      localDarkTargetsBand band blockSize histBinWidth darkPxlPercentile
        = Raised ZeroDivision)).
Proof.
  split; [by intros ->|].
  intros lo hi Hlo Hhi. unfold localDarkTargetsBand.
  rewrite Hlo, Hhi. cbn [mbind attempt_bind].
  split.
  - intros Hspan. by rewrite (proj2 (Qlt_bool_false_iff 5 (hi - lo)) Hspan).
  - intros Hspan Hwidth. rewrite (proj2 (Qlt_bool_iff 5 (hi - lo)) Hspan).
    pose proof (contrast_has_data band lo hi Hlo Hhi Hspan) as Hdata.
    destruct (npMin_Got _ Hdata) as [lo' ->].
    destruct (npMax_Got _ Hdata) as [hi' ->].
    cbn [mbind attempt_bind].
    apply Qeq_bool_iff in Hwidth. by rewrite Hwidth.
Qed.

End LocalDarkTargetFacts.

Lemma findDOSLocalDarkTargets_mask_witness :
  findDOSLocalDarkTargets (H:=LocalExamples.tenBins) LocalExamples.image
    3 1 0.5 = Got LocalExamples.masks /\
  Forall2
    (Forall2 (fun band mask : list Q =>
       length mask = length band /\
       (forall (j : nat) (v m : Q),
          band !! j = Some v -> mask !! j = Some m ->
          (m = 0 \/ m = 1) /\ (m = 1 -> 0 < v)) /\
       (forall (j j' : nat) (v v' : Q),
          band !! j = Some v -> band !! j' = Some v' ->
          mask !! j = Some 1 -> 0 < v' -> v' <= v ->
          mask !! j' = Some 1)))
    LocalExamples.image LocalExamples.masks.
Proof.
  split; [vm_compute; reflexivity|].
  apply (findDOSLocalDarkTargets_mask (H:=LocalExamples.tenBins)
           LocalExamples.image 3 1 0.5 LocalExamples.masks).
  vm_compute. reflexivity.
Defined.

Lemma localDarkTargetsBand_raises_witness :
  5 < 100 - 0 /\ 0 == 0 /\
  localDarkTargetsBand (H:=LocalExamples.tenBins) [0; 100] 3 0 0.5
    = Raised ZeroDivision.
Proof.
  split; [reflexivity|]. split; [reflexivity|].
  apply (proj2 (localDarkTargetsBand_raises (H:=LocalExamples.tenBins)
                  [0; 100] 3 0 0.5) 0 100);
    reflexivity.
Defined.

(** X25 ([findDOSLocalDarkTargets]): the threshold of a band.  Given the
    histogram, the walk returns the upper edge of bin [k], where the first
    [k] bins (and each shorter run of leading bins) together hold no more
    than [numValsPercentile] values and one bin more would hold more than
    that, or there is no further bin; when already the first bin holds too
    many, [k] is 0 and the threshold stays 0.0. *)
Theorem localThresholdScan_threshold (histo : list Z) (histoBins : list Q)
    (numValsPercentile : Z) :
  length histoBins = S (length histo) ->
  exists (k : nat) (threshold : Q),
    localThresholdScan histo histoBins 0 numValsPercentile 0 0
      = Got threshold /\
    (k <= length histo)%nat /\
    (forall i : nat, (1 <= i <= k)%nat ->
                     (foldr Z.add 0 (take i histo) <= numValsPercentile)%Z) /\
    ((k < length histo)%nat ->
     (numValsPercentile < foldr Z.add 0 (take (S k) histo))%Z) /\
    (k = 0%nat -> threshold = 0) /\
    (k <> 0%nat -> histoBins !! k = Some threshold).
Proof.
  intros Hlen.
  destruct (localThresholdScan_Got histo histoBins 0 numValsPercentile 0%Z 0
              Hlen) as [r Hr].
  destruct (localThresholdScan_spec _ _ _ _ _ _ _ Hr)
    as (k & Hk & Hpre & Hnext & Hzero & Hpos).
  exists k, r. split_and!; try done.
Qed.

Lemma localThresholdScan_threshold_witness :
  exists (k : nat) (threshold : Q),
    localThresholdScan [3; 1; 0; 1; 2]%Z [3; 12.7; 22.4; 32.1; 41.8; 51.5]
      0 3 0 0 = Got threshold /\
    (k <= 5)%nat /\
    (forall i : nat,
       (1 <= i <= k)%nat ->
       (foldr Z.add 0 (take i [3; 1; 0; 1; 2]) <= 3)%Z) /\
    ((k < 5)%nat -> (3 < foldr Z.add 0 (take (S k) [3; 1; 0; 1; 2]))%Z) /\
    (k = 0%nat -> threshold = 0) /\
    (k <> 0%nat ->
     [3; 12.7; 22.4; 32.1; 41.8; 51.5] !! k = Some threshold).
Proof.
  apply (localThresholdScan_threshold [3; 1; 0; 1; 2]%Z
           [3; 12.7; 22.4; 32.1; 41.8; 51.5] 3).
  reflexivity.
Defined.

(* ===================================================================== *)
(** * The files and bands of the dark object subtraction                  *)
(* ===================================================================== *)

Lemma list_ascii_of_string_app (s t : string) :
  list_ascii_of_string (s +:+ t)
  = (list_ascii_of_string s ++ list_ascii_of_string t)%list.
Proof.
  induction s as [|c s IH]; [reflexivity|].
  change (c :: list_ascii_of_string (s +:+ t)
          = c :: (list_ascii_of_string s ++ list_ascii_of_string t)%list).
  by rewrite IH.
Qed.

Lemma string_app_assoc (s t u : string) : (s +:+ t) +:+ u = s +:+ t +:+ u.
Proof.
  induction s as [|c s IH]; [reflexivity|].
  change (String c ((s +:+ t) +:+ u) = String c (s +:+ t +:+ u)).
  by rewrite IH.
Qed.

Lemma string_app_inv_tail (s t ext : string) :
  s +:+ ext = t +:+ ext -> s = t.
Proof.
  intros Heq. apply (f_equal list_ascii_of_string) in Heq.
  rewrite !list_ascii_of_string_app in Heq. apply app_inv_tail in Heq.
  apply (f_equal string_of_list_ascii) in Heq.
  by rewrite !string_of_list_ascii_of_string in Heq.
Qed.

Lemma string_app_inv_head (p s t : string) : p +:+ s = p +:+ t -> s = t.
Proof.
  induction p as [|c p IH]; [done|].
  change (String c (p +:+ s) = String c (p +:+ t) -> s = t).
  intros [= Heq]. auto.
Qed.

(** A joined path ends with its second part. *)
Lemma join_suffix (a b : string) : exists pre, Text.join a b = pre +:+ b.
Proof.
  unfold Text.join. destruct (String.prefix "/" b); [by exists ""|].
  destruct (_ || _); [by exists a|].
  exists (a +:+ "/"). by rewrite string_app_assoc.
Qed.

Lemma prefix_empty (s : string) : String.prefix "" s = true.
Proof. by destruct s. Qed.

(** Under one directory, names with the same start are joined alike. *)
Lemma join_inj_tail (a base : string) (c : ascii) (r1 r2 : string) :
  Text.join a (base +:+ String c r1) = Text.join a (base +:+ String c r2) ->
  r1 = r2.
Proof.
  unfold Text.join.
  assert (Hpre : String.prefix "/" (base +:+ String c r1)
                 = String.prefix "/" (base +:+ String c r2)).
  { destruct base as [|b base].
    - change (String.prefix "/" (String c r1)
              = String.prefix "/" (String c r2)).
      cbn [String.prefix]. destruct (ascii_dec _ _); [|done].
      by rewrite !prefix_empty.
    - change (String.prefix "/" (String b (base +:+ String c r1))
              = String.prefix "/" (String b (base +:+ String c r2))).
      cbn [String.prefix]. destruct (ascii_dec _ _); [|done].
      by rewrite !prefix_empty. }
  rewrite Hpre. destruct (String.prefix "/" (base +:+ String c r2)).
  - intros Heq. apply string_app_inv_head in Heq. by injection Heq.
  - destruct (_ || _); intros Heq.
    + do 2 apply string_app_inv_head in Heq. by injection Heq.
    + do 3 apply string_app_inv_head in Heq. by injection Heq.
Qed.

(** The text of an [int] ends with a digit. *)
Lemma str_int_last_digit (z : Z) :
  exists (body : string) (d : ascii),
    Py.str_int z = body +:+ String d "" /\ isDigit d = true.
Proof.
  assert (Hnat : forall s, s <> "" -> allDigits s = true ->
                 exists body d, s = body +:+ String d "" /\ isDigit d = true).
  { induction s as [|c s IH]; [done|]. intros _ Hall.
    cbn [allDigits] in Hall. apply andb_true_iff in Hall as [Hc Hs].
    destruct s as [|c' s'].
    - by exists "", c.
    - destruct (IH ltac:(done) Hs) as (body & d & Hbody & Hd).
      exists (String c body), d. split; [|done].
      change (String c (String c' s') = String c (body +:+ String d "")).
      by rewrite Hbody. }
  destruct (Hnat _ (str_nat_nonempty (Z.abs_nat z))
              (allDigits_str_nat (Z.abs_nat z))) as (body & d & Hbody & Hd).
  unfold Py.str_int. rewrite Hbody.
  exists ((if (z <? 0)%Z then "-" else "") +:+ body), d.
  split; [|done]. by rewrite string_app_assoc.
Qed.

(** Two names that end differently before the extension are different
    files, whatever the directories. *)
Ltac names_apart Heq :=
  repeat match type of Heq with
         | context [Text.join ?a ?b] =>
             let pre := fresh "pre" in
             let E := fresh "E" in
             destruct (join_suffix a b) as [pre E]; rewrite E in Heq;
             clear E
         end;
  repeat match type of Heq with
         | context [Py.str_int ?z] =>
             let body := fresh "body" in
             let d := fresh "d" in
             let E := fresh "E" in
             let Hd := fresh "Hd" in
             destruct (str_int_last_digit z) as (body & d & E & Hd);
             rewrite E in Heq; clear E
         end;
  apply (f_equal (fun s => rev (list_ascii_of_string s))) in Heq;
  cbv beta in Heq;
  rewrite !list_ascii_of_string_app, !rev_app_distr, <- !app_assoc in Heq;
  apply app_inv_head in Heq;
  cbn [list_ascii_of_string rev app] in Heq;
  first [ discriminate Heq
        | injection Heq as Heq _; subst;
          match goal with
          | Hd : isDigit _ = true |- _ => vm_compute in Hd; discriminate Hd
          end ].

(** The offset images of two bands are two files. *)
Lemma offsetImage_inj (tmpPath base ext : string) (b1 b2 : Z) :
  (0 <= b2)%Z ->
  Text.join tmpPath
    (base +:+ "_darktargetoffs_b" +:+ Py.str_int b1 +:+ ext)
  = Text.join tmpPath
      (base +:+ "_darktargetoffs_b" +:+ Py.str_int b2 +:+ ext) ->
  b1 = b2.
Proof.
  intros Hb Heq.
  apply (join_inj_tail tmpPath base "_"
           ("darktargetoffs_b" +:+ Py.str_int b1 +:+ ext)
           ("darktargetoffs_b" +:+ Py.str_int b2 +:+ ext)) in Heq.
  apply string_app_inv_head, string_app_inv_tail in Heq.
  by apply str_int_inj_nonneg.
Qed.

(** Every name the per-band functions use, under any two directories. *)
Lemma darkTargetNames_NoDup (tmpPath outputPath base ext : string)
    (numBands : Z) :
  NoDup
    ([Text.join tmpPath (base +:+ "_darkpxls_allbands" +:+ ext);
      Text.join tmpPath (base +:+ "_darkpxls" +:+ ext);
      Text.join tmpPath (base +:+ "_darkclumps" +:+ ext);
      Text.join tmpPath (base +:+ "_darkclumpsrmsmall" +:+ ext);
      Text.join tmpPath (base +:+ "_darkobjs" +:+ ext)]
     ++ ((fun band : Z =>
            Text.join tmpPath
              (base +:+ "_darktargetoffs_b" +:+ Py.str_int (band + 1)
                 +:+ ext)) <$> Py.range numBands)
     ++ [Text.join outputPath (base +:+ "_dosuboffs" +:+ ext)]).
Proof.
  apply NoDup_app. split_and!.
  - repeat (apply NoDup_cons; split;
            [intros Hin;
             repeat (apply elem_of_cons in Hin as [Hin|Hin]);
             try (by apply elem_of_nil in Hin); names_apart Hin|]).
    apply NoDup_nil_2.
  - intros x Hx Hin. apply elem_of_app in Hin as [Hin|Hin].
    + apply list_elem_of_fmap in Hin as (band & -> & _).
      repeat (apply elem_of_cons in Hx as [Hx|Hx]);
        try (by apply elem_of_nil in Hx); names_apart Hx.
    + apply list_elem_of_singleton in Hin as ->.
      repeat (apply elem_of_cons in Hx as [Hx|Hx]);
        try (by apply elem_of_nil in Hx); names_apart Hx.
  - apply NoDup_app. split_and!.
    + apply NoDup_fmap_2_strong; [|apply NoDup_seqZ].
      intros b1 b2 _ Hb2%elem_of_seqZ Heq.
      apply offsetImage_inj in Heq; lia.
    + intros x Hin Hx. apply list_elem_of_fmap in Hin as (band & -> & _).
      apply list_elem_of_singleton in Hx. names_apart Hx.
    + apply NoDup_singleton.
Qed.

Lemma NoDup_last_fresh {A : Type} (l : list A) (x : A) :
  NoDup (l ++ [x]) -> x ∉ l.
Proof.
  intros Hall Hin. apply NoDup_app in Hall as (_ & Hfresh & _).
  apply (Hfresh x Hin). by apply list_elem_of_singleton.
Qed.

(** Under one directory, names that go on differently after the same start
    are different files. *)
Lemma join_apart (a base : string) (c1 c2 : ascii) (r1 r2 : string) :
  c1 <> "/"%char -> c2 <> "/"%char -> c1 <> c2 ->
  Text.join a (base +:+ String c1 r1) <> Text.join a (base +:+ String c2 r2).
Proof.
  intros Hc1 Hc2 Hne. unfold Text.join.
  assert (Hpre : String.prefix "/" (base +:+ String c1 r1)
                 = String.prefix "/" (base +:+ String c2 r2)).
  { destruct base as [|b base].
    - change (String.prefix "/" (String c1 r1)
              = String.prefix "/" (String c2 r2)).
      cbn [String.prefix].
      destruct (ascii_dec "/" c1); [congruence|].
      by destruct (ascii_dec "/" c2); [congruence|].
    - change (String.prefix "/" (String b (base +:+ String c1 r1))
              = String.prefix "/" (String b (base +:+ String c2 r2))).
      cbn [String.prefix]. destruct (ascii_dec _ _); [|done].
      by rewrite !prefix_empty. }
  rewrite Hpre. destruct (String.prefix "/" (base +:+ String c2 r2)).
  - intros Heq. apply string_app_inv_head in Heq. congruence.
  - destruct (_ || _); intros Heq.
    + do 2 apply string_app_inv_head in Heq. congruence.
    + do 3 apply string_app_inv_head in Heq. congruence.
Qed.

Section PlanFacts.
Context `{PathEngine}.

(** X26 ([findPerBandDarkTargetsOffsets]): whatever the two directories,
    the base name and the extension, the four temporary images, the offset
    image of each band and the stacked image returned are pairwise different
    files, also when the temporary directory is the output directory.  So
    the clean-up never deletes the image returned, and unless
    [debugMode] is set it deletes every temporary image and every offset
    image. *)
Theorem findPerBandDarkTargetsOffsets_distinct_files (self : SensorState)
    (numBands : Z) (outputPath outputName outFormat tmpPath : string) :
  let run := Plan.findPerBandDarkTargetsOffsets self numBands outputPath
               outputName outFormat tmpPath in
  NoDup (Plan.temporaries run ++ (Plan.offsetImage <$> Plan.steps run)
           ++ [Plan.outputImage run]) /\
  (Plan.outputImage run ∉ Plan.deleted run) /\
  (debugMode self = false ->
   forall f : string,
     f ∈ Plan.temporaries run ++ (Plan.offsetImage <$> Plan.steps run) ->
     f ∈ Plan.deleted run).
Proof.
  intros run.
  pose proof (darkTargetNames_NoDup tmpPath outputPath
                (splitextRoot outputName) (getFileExtension outFormat)
                numBands) as Hall.
  apply NoDup_cons in Hall as [_ Hall].
  assert (Hfiles : NoDup (Plan.temporaries run
                            ++ (Plan.offsetImage <$> Plan.steps run)
                            ++ [Plan.outputImage run])).
  { subst run. unfold Plan.findPerBandDarkTargetsOffsets.
    cbn [Plan.temporaries Plan.steps Plan.outputImage].
    rewrite <- list_fmap_compose. exact Hall. }
  split; [exact Hfiles|].
  rewrite app_assoc in Hfiles. apply NoDup_last_fresh in Hfiles.
  subst run. unfold Plan.findPerBandDarkTargetsOffsets in *.
  cbn [Plan.temporaries Plan.steps Plan.outputImage Plan.deleted] in *.
  split.
  - destruct (debugMode self); [apply not_elem_of_nil|exact Hfiles].
  - by intros -> f Hf.
Qed.

(** X27 ([findPerBandLocalDarkTargetsOffsets]): the same of the local
    variant, with its image of the dark pixels of all bands as a fifth
    temporary image: all names are pairwise different files, the clean-up
    never deletes the image returned, and unless [debugMode] is set it
    deletes every temporary image and every offset image. *)
Theorem findPerBandLocalDarkTargetsOffsets_distinct_files
    (self : SensorState) (numBands : Z)
    (outputPath outputName outFormat tmpPath : string) :
  let run := Plan.findPerBandLocalDarkTargetsOffsets self numBands
               outputPath outputName outFormat tmpPath in
  NoDup (Plan.temporaries run ++ (Plan.offsetImage <$> Plan.steps run)
           ++ [Plan.outputImage run]) /\
  (Plan.outputImage run ∉ Plan.deleted run) /\
  (debugMode self = false ->
   forall f : string,
     f ∈ Plan.temporaries run ++ (Plan.offsetImage <$> Plan.steps run) ->
     f ∈ Plan.deleted run).
Proof.
  intros run.
  pose proof (darkTargetNames_NoDup tmpPath outputPath
                (splitextRoot outputName) (getFileExtension outFormat)
                numBands) as Hall.
  assert (Hfiles : NoDup (Plan.temporaries run
                            ++ (Plan.offsetImage <$> Plan.steps run)
                            ++ [Plan.outputImage run])).
  { subst run. unfold Plan.findPerBandLocalDarkTargetsOffsets.
    cbn [Plan.temporaries Plan.steps Plan.outputImage].
    rewrite <- list_fmap_compose. exact Hall. }
  split; [exact Hfiles|].
  rewrite app_assoc in Hfiles. apply NoDup_last_fresh in Hfiles.
  subst run. unfold Plan.findPerBandLocalDarkTargetsOffsets in *.
  cbn [Plan.temporaries Plan.steps Plan.outputImage Plan.deleted] in *.
  split.
  - destruct (debugMode self); [apply not_elem_of_nil|].
    intros Hin. apply Hfiles.
    rewrite elem_of_app in Hin |- *. rewrite !elem_of_cons in Hin |- *.
    tauto.
  - intros -> f Hf.
    rewrite elem_of_app in Hf |- *. rewrite !elem_of_cons in Hf |- *.
    tauto.
Qed.

(** X28 ([performLocalDOSOnSingleBand]): the band the offsets are read
    from.  For a band of the image, [findPerBandLocalDarkTargetsOffsets]
    takes the dark pixels of that band and the statistics of the dark
    objects from the same band of the TOA image.
    [performLocalDOSOnSingleBand], called for that band with the same base
    name, writes the offset image of the same name and takes the dark pixels
    from the band, and subtracts from the band, but takes the statistics
    from the band after it. *)
Theorem performLocalDOSOnSingleBand_statistics_band (self : SensorState)
    (band numBands : Z)
    (outputPath outputName bandName outFormat tmpPath : string) :
  (1 <= band <= numBands)%Z ->
  let perBand := Plan.findPerBandLocalDarkTargetsOffsets self numBands
                   outputPath outputName outFormat tmpPath in
  let single := Plan.performLocalDOSOnSingleBand self band outputPath
                  (splitextRoot outputName) bandName outFormat tmpPath in
  exists step step' : Plan.BandStep,
    step ∈ Plan.steps perBand /\ Plan.steps single = [step'] /\
    Plan.offsetImage step = Plan.offsetImage step' /\
    Plan.darkBand step = band /\ Plan.statsBand step = band /\
    Plan.darkBand step' = band /\ Plan.statsBand step' = (band + 1)%Z /\
    Plan.toaBand single = Some band.
Proof.
  intros Hband perBand single. eexists _, _. split_and!.
  - subst perBand. unfold Plan.findPerBandLocalDarkTargetsOffsets.
    cbn [Plan.steps]. apply list_elem_of_fmap. exists (band - 1)%Z.
    split; [reflexivity|]. apply elem_of_seqZ. lia.
  - reflexivity.
  - cbn [Plan.offsetImage]. by replace (band - 1 + 1)%Z with band by lia.
  - cbn [Plan.darkBand]. lia.
  - cbn [Plan.statsBand]. lia.
  - reflexivity.
  - reflexivity.
  - reflexivity.
Qed.

(** X29 ([performDOSOnSingleBand]): the offset image is written to the
    output directory, is a file other than the image returned, and is never
    deleted, in debug mode or not; [performLocalDOSOnSingleBand] deletes
    its own unless [debugMode] is set. *)
Theorem performDOSOnSingleBand_keeps_offset_image (self : SensorState)
    (band : Z) (outputPath tmpBaseName bandName outFormat tmpPath : string) :
  let run := Plan.performDOSOnSingleBand self band outputPath tmpBaseName
               bandName outFormat tmpPath in
  let runLocal := Plan.performLocalDOSOnSingleBand self band outputPath
                    tmpBaseName bandName outFormat tmpPath in
  (forall step : Plan.BandStep,
     step ∈ Plan.steps run ->
     (Plan.offsetImage step ∉ Plan.deleted run) /\
     Plan.offsetImage step <> Plan.outputImage run) /\
  (debugMode self = false ->
   forall step : Plan.BandStep,
     step ∈ Plan.steps runLocal ->
     Plan.offsetImage step ∈ Plan.deleted runLocal).
Proof.
  intros run runLocal. split.
  - intros step Hstep. subst run. unfold Plan.performDOSOnSingleBand in *.
    cbn [Plan.steps Plan.deleted Plan.outputImage] in *.
    apply list_elem_of_singleton in Hstep as ->. cbn [Plan.offsetImage].
    split.
    + destruct (debugMode self); [apply not_elem_of_nil|].
      intros Hin.
      repeat (apply elem_of_cons in Hin as [Hin|Hin]);
        try (by apply elem_of_nil in Hin); names_apart Hin.
    + apply (join_apart outputPath tmpBaseName "_" "D"); done.
  - intros Hdebug step Hstep. subst runLocal.
    unfold Plan.performLocalDOSOnSingleBand in *.
    cbn [Plan.steps Plan.deleted] in *. rewrite Hdebug.
    apply list_elem_of_singleton in Hstep as ->. cbn [Plan.offsetImage].
    rewrite !elem_of_cons. tauto.
Qed.

End PlanFacts.

Lemma performLocalDOSOnSingleBand_statistics_band_witness :
  let perBand := Plan.findPerBandLocalDarkTargetsOffsets
                   (H:=PlanExamples.plainNames) Examples.scene 4
                   "out" "scene.kea" "KEA" "tmp" in
  let single := Plan.performLocalDOSOnSingleBand
                  (H:=PlanExamples.plainNames) Examples.scene 2
                  "out" "scene" "Red" "KEA" "tmp" in
  exists step step' : Plan.BandStep,
    step ∈ Plan.steps perBand /\ Plan.steps single = [step'] /\
    Plan.offsetImage step = Plan.offsetImage step' /\
    Plan.darkBand step = 2%Z /\ Plan.statsBand step = 2%Z /\
    Plan.darkBand step' = 2%Z /\ Plan.statsBand step' = 3%Z /\
    Plan.toaBand single = Some 2%Z.
Proof.
  apply (performLocalDOSOnSingleBand_statistics_band
           (H:=PlanExamples.plainNames) Examples.scene 2 4
           "out" "scene.kea" "Red" "KEA" "tmp").
  lia.
Defined.

